(** * SGX downloader: ingestion, SCD Type-2 versioning, warehouse layout

    A shallow embedding of [sgx_downloader/sgx_downloader.py] (the pipeline
    with the version table and the object-store mirror) and of the older
    flat script [sgx_downloader.py] that the specification compares it
    with.

    Python values are modelled as follows.
    - [str] is [string]; the functions of [str], [os.path] and [pathlib]
      that the program calls are written out on it.
    - [datetime.date] is a record of three naturals.
    - The local file system is a finite map from path to file bytes:
      regular files only, a directory exists when a file lies below it.
    - The table [file_versions] is the list of its rows in rowid order (the
      program never deletes a row, so a rowid is a position in the list).
    - Exceptions are a [Raise] result; effects on the world that happened
      before the exception stay.
    - What the program receives from outside (HTTP responses, the feed, the
      clock, the SHA-256 function, the content of archives, failures of the
      object store and of the disk) is read from an environment record. *)

From Stdlib Require Import String Ascii List DecimalString DecimalNat.
From stdpp Require Import gmap strings list.

Set Warnings "-abstract-large-number".

Local Open Scope nat_scope.
Local Open Scope stdpp_scope.

(** ** Python strings *)

Module PyStr.

(** [s.startswith(p)] *)
Definition startswith (s p : string) : bool := String.prefix p s.

(** [s.endswith(suf)]: some tail of [s] is [suf]. *)
Fixpoint endswith (s suf : string) : bool :=
  String.eqb s suf ||
  match s with
  | EmptyString => false
  | String _ s' => endswith s' suf
  end.

Definition is_upper (c : ascii) : bool :=
  (65 <=? nat_of_ascii c) && (nat_of_ascii c <=? 90).

Definition lower_char (c : ascii) : ascii :=
  if is_upper c then ascii_of_nat (nat_of_ascii c + 32) else c.

(** [s.lower()] on the ASCII letters. *)
Fixpoint lower (s : string) : string :=
  match s with
  | EmptyString => EmptyString
  | String c s' => String (lower_char c) (lower s')
  end.

(** Characters that [str.isspace] and the regular expression [\s] accept. *)
Definition is_space (c : ascii) : bool :=
  let n := nat_of_ascii c in
  ((9 <=? n) && (n <=? 13)) || ((28 <=? n) && (n <=? 32)).

Fixpoint lstrip (s : string) : string :=
  match s with
  | EmptyString => EmptyString
  | String c s' => if is_space c then lstrip s' else s
  end.

(** Removes trailing white space: the result is empty when only white
    space is left. *)
Fixpoint rstrip (s : string) : string :=
  match s with
  | EmptyString => EmptyString
  | String c s' =>
      match rstrip s' with
      | EmptyString => if is_space c then EmptyString else String c EmptyString
      | r => String c r
      end
  end.

(** [s.strip()] *)
Definition strip (s : string) : string := rstrip (lstrip s).

(** Split at the last occurrence of [c]: [s = before ++ c ++ after]. *)
Fixpoint rsplit_char (c : ascii) (s : string) : option (string * string) :=
  match s with
  | EmptyString => None
  | String a s' =>
      match rsplit_char c s' with
      | Some (b, r) => Some (String a b, r)
      | None => if Ascii.eqb a c then Some (EmptyString, s') else None
      end
  end.

(** Split at the first occurrence of [c]. *)
Fixpoint split_char (c : ascii) (s : string) : option (string * string) :=
  match s with
  | EmptyString => None
  | String a s' =>
      if Ascii.eqb a c then Some (EmptyString, s')
      else match split_char c s' with
           | Some (b, r) => Some (String a b, r)
           | None => None
           end
  end.

(** [s[len(p):]] when [s] starts with [p]. *)
Fixpoint strip_prefix (p s : string) : option string :=
  match p, s with
  | EmptyString, _ => Some s
  | String a p', String b s' => if Ascii.eqb a b then strip_prefix p' s' else None
  | String _ _, EmptyString => None
  end.

(** [sep.join(l)] *)
Definition join (sep : string) (l : list string) : string := String.concat sep l.

(** Truth value of a string: non-empty. *)
Definition truthy (s : string) : bool :=
  match s with EmptyString => false | _ => true end.

(** [str(n)] of a non-negative integer. *)
Definition str_nat (n : nat) : string := NilEmpty.string_of_uint (Nat.to_uint n).

(** [s.rjust(w, "0")]; [fuel] is the width still to fill. *)
Fixpoint zero_pad (fuel : nat) (s : string) : string :=
  match fuel with
  | 0 => s
  | S k => zero_pad k ("0" +:+ s)
  end.

(** [f"{n:0{w}d}"] *)
Definition fmt_0d (w n : nat) : string :=
  let s := str_nat n in zero_pad (w - String.length s) s.

End PyStr.

(** ** [os.path] and [pathlib] on POSIX *)

Module OsPath.

Definition sep : ascii := "/"%char.

(** [posixpath.join(a, b)] *)
Definition join2 (a b : string) : string :=
  if PyStr.startswith b "/" then b
  else if negb (PyStr.truthy a) || PyStr.endswith a "/" then a +:+ b
  else a +:+ "/" +:+ b.

(** [os.path.join(a, *ps)] *)
Definition join (a : string) (ps : list string) : string := fold_left join2 ps a.

(** [os.path.basename(p)]: what follows the last separator. *)
Definition basename (p : string) : string :=
  match PyStr.rsplit_char sep p with
  | Some (_, r) => r
  | None => p
  end.

(** [p.split("/")] *)
Fixpoint split_sep (p : string) : list string :=
  match p with
  | EmptyString => [EmptyString]
  | String a p' =>
      if Ascii.eqb a sep then EmptyString :: split_sep p'
      else match split_sep p' with
           | h :: t => String a h :: t
           | [] => [String a EmptyString]
           end
  end.

(** [PurePosixPath(p).name]: the last component, after pathlib has dropped
    the empty components and the components ["."]. *)
Definition path_name (p : string) : string :=
  List.last
    (List.filter (λ c, negb (String.eqb c "") && negb (String.eqb c ".")) (split_sep p))
    "".

(** Position of the last dot of a name as pathlib uses it: the split is
    taken only when the dot is neither the first nor the last character. *)
Definition split_ext (name : string) : string * string :=
  match PyStr.rsplit_char "."%char name with
  | Some (String a b, String c r) => (String a b, "." +:+ String c r)
  | _ => (name, "")
  end.

(** [Path(p).stem] and [Path(p).suffix] *)
Definition stem (p : string) : string := fst (split_ext (path_name p)).
Definition suffix (p : string) : string := snd (split_ext (path_name p)).

(** [os.path.dirname(p)]: what precedes the last separator, without its
    trailing separators unless it consists of separators only. *)
Fixpoint all_sep (s : string) : bool :=
  match s with
  | EmptyString => true
  | String a s' => Ascii.eqb a sep && all_sep s'
  end.

Fixpoint rstrip_sep (s : string) : string :=
  match s with
  | EmptyString => EmptyString
  | String a s' => if all_sep s then EmptyString else String a (rstrip_sep s')
  end.

Definition dirname (p : string) : string :=
  match PyStr.rsplit_char sep p with
  | Some (h, _) =>
      let head := h +:+ "/" in
      if all_sep head then head else rstrip_sep head
  | None => EmptyString
  end.

(** [p] lies below directory [d]. *)
Definition under (d p : string) : bool := PyStr.startswith p (d +:+ "/").

End OsPath.

(** ** Dates *)

Record date := mkdate { year : nat; month : nat; day : nat }.

Global Instance date_eq_dec : EqDecision date.
Proof. solve_decision. Defined.

Definition is_leap (y : nat) : bool :=
  ((y mod 4 =? 0) && negb (y mod 100 =? 0)) || (y mod 400 =? 0).

Definition days_in_month (y m : nat) : nat :=
  match m with
  | 2 => if is_leap y then 29 else 28
  | 4 | 6 | 9 | 11 => 30
  | _ => 31
  end.

(** The triples that [datetime.date] accepts. *)
Definition valid_date (d : date) : bool :=
  (1 <=? year d) && (year d <=? 9999) &&
  (1 <=? month d) && (month d <=? 12) &&
  (1 <=? day d) && (day d <=? days_in_month (year d) (month d)).

(** [str(d)], the ISO form. *)
Definition str_date (d : date) : string :=
  PyStr.fmt_0d 4 (year d) +:+ "-" +:+ PyStr.fmt_0d 2 (month d) +:+ "-" +:+ PyStr.fmt_0d 2 (day d).

(** Order of dates: by year, then month, then day. *)
Definition date_leb (a b : date) : bool :=
  (year a <? year b) ||
  ((year a =? year b) &&
   ((month a <? month b) || ((month a =? month b) && (day a <=? day b)))).

Definition date_ltb (a b : date) : bool := negb (date_leb b a).

Global Program Instance date_countable : Countable date :=
  inj_countable' (λ d, (year d, month d, day d)) (λ t, mkdate t.1.1 t.1.2 t.2) _.
Next Obligation. by intros []. Qed.

(** ** [datetime.strptime]

    [_strptime] turns a format into a regular expression, takes the first
    match of [re.match] and rejects the string when the match does not use
    all of it. The directives are written here as backtracking parsers that
    list their matches in the order the regular expression tries them. *)

Module Strptime.

Definition parser (A : Type) : Type := string → list (A * string).

Definition p_ret {A} (a : A) : parser A := λ s, [(a, s)].

Definition p_bind {A B} (p : parser A) (k : A → parser B) : parser B :=
  λ s, flat_map (λ ar, k ar.1 ar.2) (p s).

Definition p_alt {A} (ps : list (parser A)) : parser A :=
  λ s, flat_map (λ p, p s) ps.

Definition digit_val (c : ascii) : option nat :=
  let n := nat_of_ascii c in
  if (48 <=? n) && (n <=? 57) then Some (n - 48) else None.

(** One digit between [lo] and [hi]: [[lo-hi]]. *)
Definition p_digit (lo hi : nat) : parser nat :=
  λ s, match s with
       | String c r =>
           match digit_val c with
           | Some v => if (lo <=? v) && (v <=? hi) then [(v, r)] else []
           | None => []
           end
       | EmptyString => []
       end.

(** A literal character of the format. *)
Definition p_lit (c : ascii) : parser unit :=
  λ s, match s with
       | String a r => if Ascii.eqb a c then [(tt, r)] else []
       | EmptyString => []
       end.

(** What is left after each non-empty run of white space at the head of
    [s], the longest run first: [\s+]. *)
Fixpoint ws_tails (s : string) : list string :=
  match s with
  | String c r => if PyStr.is_space c then ws_tails r ++ [r] else []
  | EmptyString => []
  end.

Definition p_spaces : parser unit := λ s, map (λ r, (tt, r)) (ws_tails s).

(** [%d]: [3[0-1]|[1-2]\d|0[1-9]|[1-9]| [1-9]] *)
Definition p_day : parser nat :=
  p_alt [ p_bind (p_digit 3 3) (λ _, p_bind (p_digit 0 1) (λ b, p_ret (30 + b)));
          p_bind (p_digit 1 2) (λ a, p_bind (p_digit 0 9) (λ b, p_ret (10 * a + b)));
          p_bind (p_digit 0 0) (λ _, p_digit 1 9);
          p_digit 1 9;
          p_bind (p_lit " ") (λ _, p_digit 1 9) ].

(** [%m]: [1[0-2]|0[1-9]|[1-9]] *)
Definition p_month : parser nat :=
  p_alt [ p_bind (p_digit 1 1) (λ _, p_bind (p_digit 0 2) (λ b, p_ret (10 + b)));
          p_bind (p_digit 0 0) (λ _, p_digit 1 9);
          p_digit 1 9 ].

(** [%Y]: [\d\d\d\d] *)
Definition p_year : parser nat :=
  p_bind (p_digit 0 9) (λ a, p_bind (p_digit 0 9) (λ b,
  p_bind (p_digit 0 9) (λ c, p_bind (p_digit 0 9) (λ d,
  p_ret (1000 * a + 100 * b + 10 * c + d))))).

(** Abbreviated month names of the C locale, as [strftime("%b")] prints
    them; [%b] matches them without regard to case. *)
Definition month_abbr : list string :=
  ["Jan"; "Feb"; "Mar"; "Apr"; "May"; "Jun"; "Jul"; "Aug"; "Sep"; "Oct"; "Nov"; "Dec"].

Fixpoint index_of (x : string) (l : list string) (i : nat) : option nat :=
  match l with
  | [] => None
  | y :: l' => if String.eqb x y then Some i else index_of x l' (S i)
  end.

Definition p_month_abbr : parser nat :=
  λ s, match s with
       | String a (String b (String c r)) =>
           match index_of (PyStr.lower (String a (String b (String c EmptyString))))
                          (map PyStr.lower month_abbr) 1 with
           | Some m => [(m, r)]
           | None => []
           end
       | _ => []
       end.

(** ["%d/%m/%Y"] *)
Definition fmt_dmY : parser date :=
  p_bind p_day (λ d, p_bind (p_lit "/") (λ _, p_bind p_month (λ m,
  p_bind (p_lit "/") (λ _, p_bind p_year (λ y, p_ret (mkdate y m d)))))).

(** ["%Y-%m-%d"] *)
Definition fmt_Ymd : parser date :=
  p_bind p_year (λ y, p_bind (p_lit "-") (λ _, p_bind p_month (λ m,
  p_bind (p_lit "-") (λ _, p_bind p_day (λ d, p_ret (mkdate y m d)))))).

(** ["%d %b %Y"] *)
Definition fmt_dbY : parser date :=
  p_bind p_day (λ d, p_bind p_spaces (λ _, p_bind p_month_abbr (λ m,
  p_bind p_spaces (λ _, p_bind p_year (λ y, p_ret (mkdate y m d)))))).

(** [datetime.strptime(s, fmt).date()]; [None] is [ValueError]. *)
Definition strptime (fmt : parser date) (s : string) : option date :=
  match fmt s with
  | (d, EmptyString) :: _ => if valid_date d then Some d else None
  | _ => None
  end.

(** [d.strftime("%d %b %Y")] *)
Definition strftime_dbY (d : date) : string :=
  PyStr.fmt_0d 2 (day d) +:+ " " +:+ nth (month d - 1) month_abbr "" +:+ " "
    +:+ PyStr.fmt_0d 4 (year d).

End Strptime.

(** [_parse_input_date] *)
Definition _parse_input_date (s : string) : option date :=
  if negb (PyStr.truthy s) then None
  else
    let s := PyStr.strip s in
    match Strptime.strptime Strptime.fmt_dmY s with
    | Some d => Some d
    | None =>
        match Strptime.strptime Strptime.fmt_Ymd s with
        | Some d => Some d
        | None => Strptime.strptime Strptime.fmt_dbY s
        end
    end.

(** ** The world the program acts on *)

(** A row of [file_versions]; [valid_to = None] is SQL [NULL]. *)
Record VersionRecord := mkrow {
  file_name : string;
  version_date : string;
  checksum : string;
  valid_from : string;
  valid_to : option string
}.

Global Instance VersionRecord_eq_dec : EqDecision VersionRecord.
Proof. solve_decision. Defined.

(** A call of [upload_file(local, bucket, key)] and whether it succeeded. *)
Record upload := mkupload {
  up_local : string;
  up_bucket : string;
  up_key : string;
  up_ok : bool
}.

Global Instance upload_eq_dec : EqDecision upload.
Proof. solve_decision. Defined.

(** The calls of [logging.warning] and [logging.error], with the values that
    are formatted into the message. *)
Inductive log_event :=
| LogNoData
| LogDateNotAvailable (requested : date) (available : string)
| LogDownloadFailed (filename : string) (status : nat)
| LogUploadFailed (path : string)
| LogWarehouseUploadFailed (path : string)
| LogBadZip (path : string)
| LogEmptyResponse (filename : string).

Global Instance log_event_eq_dec : EqDecision log_event.
Proof. solve_decision. Defined.

Record world := mkworld {
  fs : gmap string string;
  db : list VersionRecord;
  s3calls : list upload;
  logs : list log_event
}.

Global Instance world_eq_dec : EqDecision world.
Proof. solve_decision. Defined.

Definition set_fs (f : gmap string string) (w : world) : world :=
  mkworld f (db w) (s3calls w) (logs w).
Definition set_db (d : list VersionRecord) (w : world) : world :=
  mkworld (fs w) d (s3calls w) (logs w).
Definition add_s3call (u : upload) (w : world) : world :=
  mkworld (fs w) (db w) (s3calls w ++ [u]) (logs w).
Definition add_log (e : log_event) (w : world) : world :=
  mkworld (fs w) (db w) (s3calls w) (logs w ++ [e]).

(** ** Exceptions and the monad of the program *)

Inductive exn :=
| ValueError
| FileNotFoundError (path : string)
| ShutilError (path : string)
| OSError
| SqliteError
| RequestException
| KeyError (key : string).

Global Instance exn_eq_dec : EqDecision exn.
Proof. solve_decision. Defined.

Inductive result (A : Type) :=
| Ok (a : A)
| Raise (e : exn).
Arguments Ok {A} a.
Arguments Raise {A} e.

Global Instance result_eq_dec {A} `{EqDecision A} : EqDecision (result A).
Proof. solve_decision. Defined.

Definition M (A : Type) : Type := world → result A * world.

Definition ret {A} (a : A) : M A := λ w, (Ok a, w).
Definition raise {A} (e : exn) : M A := λ w, (Raise e, w).
Definition bind {A B} (c : M A) (k : A → M B) : M B :=
  λ w, match c w with
       | (Ok a, w') => k a w'
       | (Raise e, w') => (Raise e, w')
       end.
Definition gets {A} (f : world → A) : M A := λ w, (Ok (f w), w).
Definition modify (f : world → world) : M unit := λ w, (Ok tt, f w).
Definition lift {A} (r : result A) : M A := λ w, (r, w).

Declare Scope py_scope.
Delimit Scope py_scope with py.
Notation "'let*' x := c 'in' k" := (bind c (λ x, k))
  (at level 10, x name, c at level 100, k at level 200) : py_scope.
Notation "c ;;; k" := (bind c (λ _, k))
  (at level 100, right associativity) : py_scope.
Local Open Scope py_scope.

(** [for x in l: body x] *)
Fixpoint for_each {A} (l : list A) (body : A → M unit) : M unit :=
  match l with
  | [] => ret tt
  | x :: l' => body x ;;; for_each l' body
  end.

(** ** The environment *)

(** A response of [requests.get(url, stream=True)]: the status, the body, and
    when the connection breaks while the body is streamed, the number of
    whole chunks that [iter_content] hands over before it raises. *)
Record response := mkresponse {
  status_code : nat;
  content : string;
  stream_breaks : option nat
}.

(** What [zipfile] finds in a file with given bytes: the entries it reads,
    as (member name, bytes), and whether it then raises [BadZipFile] (on
    opening, with no entry read, or at a damaged member after the earlier
    ones were extracted). *)
Record zip_outcome := mkzip {
  zip_entries : list (string * string);
  zip_bad : bool
}.

(** What makes [store_if_changed] fail half-way: an error of the disk at the
    relocation, or of SQLite at one of the three statements. *)
Inductive store_fault := NoFault | FailMove | FailUpdate | FailInsert | FailCommit.

Global Instance store_fault_eq_dec : EqDecision store_fault.
Proof. solve_decision. Defined.

(** A feed item: a JSON object with string values. *)
Abbreviation Item := (gmap string string).

Record Env := mkenv {
  (** the three directories the module derives from its process environment *)
  DOWNLOAD_DIR : string;
  REFERENCE_DIR : string;
  WAREHOUSE_DIR : string;
  (** [hashlib.sha256(bytes).hexdigest()] *)
  sha256 : string → string;
  (** [date.today()] *)
  today : date;
  (** the [items] of the feed response, or the exception of the request *)
  api_items : result (list Item);
  (** [requests.get] on an artifact URL *)
  http_get : string → result response;
  (** content of an archive *)
  unzip : string → zip_outcome;
  (** does the upload under this key succeed *)
  s3_ok : string → bool;
  (** does [shutil.rmtree] of this directory succeed *)
  rmtree_ok : string → bool;
  (** failure injected into the commit of this staged path *)
  fault_at : string → store_fault
}.

(** ** The local file system *)

Module Fs.

Definition paths (f : gmap string string) : list string := (map_to_list f).*1.

Definition is_file (f : gmap string string) (p : string) : bool :=
  bool_decide (is_Some (f !! p)).

(** A directory is visible through the files below it. *)
Definition is_dir (f : gmap string string) (p : string) : bool :=
  existsb (OsPath.under p) (paths f).

Definition exists_ (f : gmap string string) (p : string) : bool :=
  is_file f p || is_dir f p.

(** Name of the entry of [d] through which [d/rest] is reached. *)
Definition first_component (rest : string) : string :=
  match PyStr.split_char OsPath.sep rest with
  | Some (a, _) => a
  | None => rest
  end.

(** [os.listdir(d)], in the order of the map's keys. *)
Definition listdir (f : gmap string string) (d : string) : list string :=
  remove_dups
    (omap (λ k, first_component <$> PyStr.strip_prefix (d +:+ "/") k) (paths f)).

(** Where a path goes when the tree [src] is renamed to [dst]. *)
Definition rename_key (src dst k : string) : string :=
  match PyStr.strip_prefix (src +:+ "/") k with
  | Some rest => dst +:+ "/" +:+ rest
  | None => k
  end.

Definition rename_tree (src dst : string) (f : gmap string string) : gmap string string :=
  list_to_map (map (λ kv, (rename_key src dst kv.1, kv.2)) (map_to_list f)).

(** [shutil.rmtree(d)] *)
Definition rmtree (d : string) (f : gmap string string) : gmap string string :=
  filter (λ kv, OsPath.under d kv.1 = false) f.

(** [shutil.move(src, dst)]: into [dst] when [dst] is a directory (an error
    when the name is taken there), else onto [dst]; a file replaces an
    existing file, a directory cannot replace one. *)
Definition move (src dst : string) (f : gmap string string)
  : result (gmap string string) :=
  let real_dst :=
    if is_dir f dst then OsPath.join2 dst (OsPath.basename src) else dst in
  if is_dir f dst && exists_ f real_dst then Raise (ShutilError real_dst)
  else match f !! src with
       | Some c => Ok (<[real_dst := c]> (delete src f))
       | None =>
           if is_dir f src then
             if is_file f real_dst then Raise (ShutilError real_dst)
             else Ok (rename_tree src real_dst f)
           else Raise (FileNotFoundError src)
       end.

End Fs.

(** [open(path, "rb").read()] *)
Definition read_file (path : string) : M string :=
  λ w, match fs w !! path with
       | Some c => (Ok c, w)
       | None => (Raise (FileNotFoundError path), w)
       end.

(** [open(path, "wb")] followed by writes that amount to [c]. *)
Definition write_file (path c : string) : M unit :=
  modify (λ w, set_fs (<[path := c]> (fs w)) w).

(** [os.remove(path)] *)
Definition os_remove (path : string) : M unit :=
  λ w, match fs w !! path with
       | Some _ => (Ok tt, set_fs (delete path (fs w)) w)
       | None => (Raise (FileNotFoundError path), w)
       end.

(** [shutil.move(src, dst)] *)
Definition shutil_move (src dst : string) : M unit :=
  λ w, match Fs.move src dst (fs w) with
       | Ok f => (Ok tt, set_fs f w)
       | Raise e => (Raise e, w)
       end.

(** ** SCD Type 2: the version store *)

(** [file_name = ? AND valid_to IS NULL] *)
Definition is_current (name : string) (r : VersionRecord) : bool :=
  String.eqb (file_name r) name && bool_decide (valid_to r = None).

(** [SELECT rowid, checksum ... ORDER BY rowid DESC LIMIT 1]: the last
    matching row; [i] is the rowid of the head of [rows]. *)
Fixpoint select_latest_from (i : nat) (name : string) (rows : list VersionRecord)
  : option (nat * string) :=
  match rows with
  | [] => None
  | r :: rows' =>
      match select_latest_from (S i) name rows' with
      | Some x => Some x
      | None => if is_current name r then Some (i, checksum r) else None
      end
  end.

Definition select_latest (name : string) (rows : list VersionRecord) : option (nat * string) :=
  select_latest_from 0 name rows.

Definition close_row (day : string) (r : VersionRecord) : VersionRecord :=
  mkrow (file_name r) (version_date r) (checksum r) (valid_from r) (Some day).

(** [UPDATE file_versions SET valid_to = ? WHERE rowid = ?] *)
Definition update_valid_to (day : string) (rowid : nat) (rows : list VersionRecord)
  : list VersionRecord :=
  alter (close_row day) rowid rows.

Section Pipeline.

Variable E : Env.

Definition compute_checksum (path : string) : M string :=
  let* bytes := read_file path in
  ret (sha256 E bytes).

(** The rows a commit writes inside its transaction: the close of the
    latest current row, then the insert. An error leaves the transaction
    uncommitted. *)
Definition commit_rows (flt : store_fault) (latest : option (nat * string))
    (name day sum : string) (rows : list VersionRecord) : result (list VersionRecord) :=
  match
    match latest with
    | Some (rowid, _) =>
        if decide (flt = FailUpdate) then Raise SqliteError
        else Ok (update_valid_to day rowid rows)
    | None => Ok rows
    end
  with
  | Raise e => Raise e
  | Ok rows1 =>
      if decide (flt = FailInsert) then Raise SqliteError
      else if decide (flt = FailCommit) then Raise SqliteError
      else Ok (rows1 ++ [mkrow name day sum day None])
  end.

Definition store_if_changed (file_path final_dir : string) : M (option string) :=
  let flt := fault_at E file_path in
  let file_name := OsPath.basename file_path in
  let* checksum := compute_checksum file_path in
  let today := str_date (today E) in
  let* latest := gets (λ w, select_latest file_name (db w)) in
  if match latest with
     | Some (_, c) => String.eqb c checksum
     | None => false
     end
  then
    os_remove file_path ;;;
    ret None
  else
    let versioned_name :=
      OsPath.stem file_name +:+ "_" +:+ today +:+ OsPath.suffix file_name in
    let final_path := OsPath.join final_dir [versioned_name] in
    (if decide (flt = FailMove) then raise OSError
     else shutil_move file_path final_path) ;;;
    let* rows := gets db in
    let* rows' := lift (commit_rows flt latest file_name today checksum rows) in
    modify (set_db rows') ;;;
    ret (Some final_path).

(** *** Catalog *)

(** [i[k]] *)
Definition item_get (i : Item) (k : string) : M string :=
  match i !! k with
  | Some v => ret v
  | None => raise (KeyError k)
  end.

(** [_parse_item_date] *)
Definition _parse_item_date (s : string) : M date :=
  match Strptime.strptime Strptime.fmt_dbY s with
  | Some d => ret d
  | None => raise ValueError
  end.

(** The key of [items.sort]: [_parse_item_date(x["Date"])]. *)
Definition item_date (i : Item) : M date :=
  let* s := item_get i "Date" in
  _parse_item_date s.

Fixpoint with_keys (items : list Item) : M (list (date * Item)) :=
  match items with
  | [] => ret []
  | i :: items' =>
      let* d := item_date i in
      let* rest := with_keys items' in
      ret ((d, i) :: rest)
  end.

(** Place of [x] in a list sorted by descending key: before the first
    element whose key is not greater, so that equal keys keep their
    order, as [list.sort(reverse=True)] does. *)
Fixpoint insert_desc (x : date * Item) (l : list (date * Item)) : list (date * Item) :=
  match l with
  | [] => [x]
  | y :: l' => if date_ltb x.1 y.1 then y :: insert_desc x l' else x :: l
  end.

Definition sort_desc (l : list (date * Item)) : list (date * Item) :=
  foldr insert_desc [] l.

Definition has_date_and_key (i : Item) : bool :=
  bool_decide (is_Some (i !! "Date")) && bool_decide (is_Some (i !! "key")).

Definition _available_items : M (list Item) :=
  let* items := lift (api_items E) in
  let items := List.filter has_date_and_key items in
  let* keyed := with_keys items in
  ret (map snd (sort_desc keyed)).

(** [", ".join(i["Date"] for i in items[:10])] *)
Fixpoint dates_of (items : list Item) : M (list string) :=
  match items with
  | [] => ret []
  | i :: items' =>
      let* s := item_get i "Date" in
      let* rest := dates_of items' in
      ret (s :: rest)
  end.

Definition _summarize_available_dates (items : list Item) : M string :=
  let* ds := dates_of (take 10 items) in
  ret (PyStr.join ", " ds).

(** [{_parse_item_date(i["Date"]): i for i in items}] *)
Fixpoint by_date_from (m : gmap date Item) (items : list Item) : M (gmap date Item) :=
  match items with
  | [] => ret m
  | i :: items' =>
      let* d := item_date i in
      by_date_from (<[d := i]> m) items'
  end.

Definition _select_item_for_date (items : list Item) (target : option date)
  : M (option Item) :=
  match items with
  | [] => ret None
  | first :: _ =>
      match target with
      | None => ret (Some first)
      | Some t =>
          let* by_date := by_date_from ∅ items in
          match by_date !! t with
          | Some i => ret (Some i)
          | None =>
              let* avail := _summarize_available_dates items in
              modify (add_log (LogDateNotAvailable t avail)) ;;;
              ret None
          end
      end
  end.

(** *** Object store *)

Definition s3_upload (local bucket key : string) (on_error : log_event) : M unit :=
  λ w, let ok := Fs.is_file (fs w) local && s3_ok E key in
       let w' := add_s3call (mkupload local bucket key ok) w in
       (Ok tt, if ok then w' else add_log on_error w').

Definition push_to_minio (file_path bucket prefix : string) : M unit :=
  let key := prefix +:+ "/" +:+ OsPath.basename file_path in
  s3_upload file_path bucket key (LogUploadFailed file_path).

(** The part of a warehouse key and of a partition directory that names
    the day. *)
Definition year_part (d : date) : string := "year=" +:+ PyStr.str_nat (year d).
Definition month_part (d : date) : string := "month=" +:+ PyStr.fmt_0d 2 (month d).
Definition day_part (d : date) : string := "day=" +:+ PyStr.fmt_0d 2 (day d).

Definition warehouse_key (root_prefix table : string) (d : date) (local_path : string)
  : string :=
  root_prefix +:+ "/" +:+ table +:+ "/" +:+ year_part d +:+ "/" +:+ month_part d
    +:+ "/" +:+ day_part d +:+ "/" +:+ OsPath.basename local_path.

Definition upload_warehouse_file (local_path table : string) (d : date)
    (bucket root_prefix : string) : M unit :=
  let key := warehouse_key root_prefix table d local_path in
  s3_upload local_path bucket key (LogWarehouseUploadFailed local_path).

(** *** Download, extraction, warehouse *)

Definition LINKS_BASE : string := "https://links.sgx.com/1.0.0/derivatives-historical".

Definition build_download_url (key filename : string) : string :=
  LINKS_BASE +:+ "/" +:+ key +:+ "/" +:+ filename.

(** The pieces [iter_content(n)] yields for a body. *)
Fixpoint str_take (n : nat) (s : string) : string :=
  match n, s with
  | S k, String c r => String c (str_take k r)
  | _, _ => EmptyString
  end.

Fixpoint str_drop (n : nat) (s : string) : string :=
  match n, s with
  | S k, String _ r => str_drop k r
  | _, _ => s
  end.

Fixpoint chunks_fuel (fuel n : nat) (s : string) : list string :=
  match fuel, s with
  | S f, String _ _ => str_take n s :: chunks_fuel f n (str_drop n s)
  | _, _ => []
  end.

Definition iter_content (n : nat) (body : string) : list string :=
  chunks_fuel (String.length body) n body.

Definition append_file (path chunk : string) : M unit :=
  modify (λ w, set_fs (<[path := default "" (fs w !! path) +:+ chunk]> (fs w)) w).

Definition download (url filename target_dir : string) : M (option string) :=
  let path := OsPath.join target_dir [filename] in
  let* r := lift (http_get E url) in
  if negb (status_code r =? 200) then
    modify (add_log (LogDownloadFailed filename (status_code r))) ;;;
    ret None
  else
    write_file path "" ;;;
    match stream_breaks r with
    | None =>
        for_each (iter_content 8192 (content r)) (append_file path) ;;;
        ret (Some path)
    | Some k =>
        for_each (take k (iter_content 8192 (content r))) (append_file path) ;;;
        raise RequestException
    end.

Definition _partition_dir (table_name : string) (d : date) : string :=
  OsPath.join (WAREHOUSE_DIR E) [table_name; year_part d; month_part d; day_part d].

Definition move_to_warehouse_and_upload (extract_dir table_name : string) (d : date)
  : M unit :=
  let local_target := _partition_dir table_name d in
  let* names := gets (λ w, Fs.listdir (fs w) extract_dir) in
  for_each names (λ fn,
    let src := OsPath.join extract_dir [fn] in
    let dst := OsPath.join local_target [fn] in
    shutil_move src dst ;;;
    upload_warehouse_file dst table_name d "datalake" "derivative_data") ;;;
  if rmtree_ok E extract_dir
  then modify (λ w, set_fs (Fs.rmtree extract_dir (fs w)) w)
  else ret tt.

(** The name under which [zipfile] extracts a member: the components of
    the member name that are neither empty nor ["."] nor [".."], joined
    again. *)
Definition arcname (member : string) : string :=
  PyStr.join "/"
    (List.filter
       (λ c, negb (String.eqb c "") && negb (String.eqb c ".") && negb (String.eqb c ".."))
       (OsPath.split_sep member)).

(** Extraction of one member: a name ending in a separator is a directory
    entry and creates no file. *)
Definition extract_member (dir : string) (m : string * string) : M unit :=
  if PyStr.endswith m.1 "/" then ret tt
  else if PyStr.truthy (arcname m.1)
       then write_file (OsPath.join2 dir (arcname m.1)) m.2
       else raise OSError.

(** [ZipFile(path).extractall(dir)]; the result tells whether the archive
    was good ([BadZipFile] was not raised). *)
Definition extractall (path dir : string) : M bool :=
  let* bytes := read_file path in
  let z := unzip E bytes in
  for_each (zip_entries z) (extract_member dir) ;;;
  ret (negb (zip_bad z)).

(** Truth value of an [Optional[str]]. *)
Definition truthy_opt (o : option string) : bool :=
  match o with
  | Some s => PyStr.truthy s
  | None => false
  end.

Definition process_file (file_path final_dir upload_prefix : string)
    (day_for_partition : date) (table_for_zip : option string) : M (option string) :=
  let* stored := store_if_changed file_path final_dir in
  match stored with
  | None => ret None
  | Some stored_path =>
      if negb (PyStr.truthy stored_path) then ret None
      else
        push_to_minio stored_path "datalake" upload_prefix ;;;
        (match table_for_zip with
         | Some table =>
             if PyStr.truthy table && PyStr.endswith (PyStr.lower stored_path) ".zip"
             then
               let extract_dir := OsPath.join "/tmp" [OsPath.stem stored_path] in
               let* good := extractall stored_path extract_dir in
               if good
               then move_to_warehouse_and_upload extract_dir table day_for_partition
               else modify (add_log (LogBadZip stored_path))
             else ret tt
         | None => ret tt
         end) ;;;
        ret (Some stored_path)
  end.

(** *** The run *)

Definition file_keys : list (string * string) :=
  [ ("Data File Link", "Data File");
    ("Tick Data Structure File Link", "Tick Data Structure File");
    ("TC Data File Link", "TC Data File");
    ("TC Data Structure File Link", "TC Data Structure File") ].

(** The four values the loop body derives from the file name. *)
Definition is_schema (filename : string) : bool :=
  PyStr.endswith filename "_structure.dat".

Definition final_dir_for (filename : string) : string :=
  if is_schema filename then REFERENCE_DIR E else DOWNLOAD_DIR E.

Definition upload_prefix_for (filename : string) : string :=
  if is_schema filename then "derivative_reference" else "raw".

Definition table_for_zip (filename : string) : option string :=
  if PyStr.endswith (PyStr.lower filename) ".zip" then Some "WEBPXTICK_DT" else None.

(** The body of the loop over [file_keys]; the result is what the
    iteration appends to [new_files]. *)
Definition process_artifact (selected : Item) (selected_key : string)
    (selected_day : date) (kind : string * string) : M (list string) :=
  let link := selected !! kind.1 in
  let filename := selected !! kind.2 in
  match filename with
  | Some filename =>
      if negb (truthy_opt link && PyStr.truthy filename) then ret []
      else
        let direct_url := build_download_url selected_key filename in
        let* temp_file := download direct_url filename (DOWNLOAD_DIR E) in
        match temp_file with
        | Some temp_file =>
            if negb (PyStr.truthy temp_file) then ret []
            else
              let* stored_path :=
                process_file temp_file (final_dir_for filename) (upload_prefix_for filename)
                  selected_day (table_for_zip filename) in
              ret (match stored_path with
                   | Some p => if PyStr.truthy p then [p] else []
                   | None => []
                   end)
        | None => ret []
        end
  | None => ret []
  end.

Fixpoint collect {A B} (l : list A) (body : A → M (list B)) : M (list B) :=
  match l with
  | [] => ret []
  | x :: l' =>
      let* ys := body x in
      let* rest := collect l' body in
      ret (ys ++ rest)
  end.

(** The files of one run that were stored, in order: [new_files]. *)
Definition run_artifacts (selected : Item) : M (list string) :=
  let* selected_disp_date := item_get selected "Date" in
  let* selected_key := item_get selected "key" in
  let* selected_day := _parse_item_date selected_disp_date in
  collect file_keys (process_artifact selected selected_key selected_day).

(** [_parse_input_date(target_date) if target_date else None] *)
Definition target_of (target_date : option string) : option date :=
  match target_date with
  | Some s => if PyStr.truthy s then _parse_input_date s else None
  | None => None
  end.

Definition download_all_files (target_date : option string) : M (option string) :=
  let* items := _available_items in
  match items with
  | [] => modify (add_log LogNoData) ;;; ret None
  | _ =>
      let target := target_of target_date in
      let* selected := _select_item_for_date items target in
      match selected with
      | None => ret None
      | Some selected =>
          if bool_decide (selected = ∅) then ret None
          else
            let* selected_disp_date := item_get selected "Date" in
            let* new_files := run_artifacts selected in
            ret (match new_files with
                 | [] => None
                 | _ => Some selected_disp_date
                 end)
      end
  end.

End Pipeline.

(** ** The older flat script

    [sgx_downloader.py] at the top of the source tree: no version table, no
    object store; it extracts an archive next to itself and removes it. *)

Module Flat.

(** The errors that [download_all_files] of this script logs and for which
    the log of the pipeline has no event: a target that is not on offer,
    with the dates of all items, and an exception of [download], with the
    file name. They are returned beside the result of the function. *)
Inductive flat_error :=
| DateNotAvailable (target : string) (dates : list string)
| DownloadError (filename : string) (e : exn).

Global Instance flat_error_eq_dec : EqDecision flat_error.
Proof. solve_decision. Defined.

Section Flat.

Variable E : Env.

Definition DOWNLOAD_DIR : string := "downloads".

Definition extract_if_zip (filepath : string) : M unit :=
  if negb (PyStr.endswith (PyStr.lower filepath) ".zip") then ret tt
  else
    let* good := extractall E filepath (OsPath.dirname filepath) in
    if good then os_remove filepath
    else modify (add_log (LogBadZip filepath)).

Definition download (url filename : string) : M unit :=
  let path := OsPath.join DOWNLOAD_DIR [filename] in
  let* present := gets (λ w, Fs.exists_ (fs w) path) in
  if present then ret tt
  else
    let* r := lift (http_get E url) in
    if negb (status_code r =? 200) then
      modify (add_log (LogDownloadFailed filename (status_code r)))
    else
      match stream_breaks r with
      | Some _ => raise RequestException
      | None =>
          if String.length (content r) <? 10 then
            modify (add_log (LogEmptyResponse filename))
          else
            write_file path "" ;;;
            for_each (iter_content 8192 (content r)) (append_file path) ;;;
            extract_if_zip path
      end.

Definition fetch_items : M (list Item) :=
  let* items := lift (api_items E) in
  ret (List.filter has_date_and_key items).

Definition available_dates : M (list string) :=
  let* items := fetch_items in
  dates_of items.

(** [next((i for i in items if i.get("Date") == target_date), None)] *)
Definition first_of_date (target_date : string) (items : list Item) : option Item :=
  List.find (λ i : Item, bool_decide (i !! "Date" = Some target_date)) items.

(** One turn of the loop over [file_keys]: the download inside its
    [try], with the error it logs when [download] raises. *)
Definition fetch_artifact (selected : Item) (kind : string * string)
  : M (list flat_error) :=
  match selected !! kind.2 with
  | Some filename =>
      if negb (truthy_opt (selected !! kind.1) && PyStr.truthy filename) then ret []
      else
        λ w,
          match
            (let* key := item_get selected "key" in
             download (build_download_url key filename) filename) w
          with
          | (Ok _, w') => (Ok [], w')
          | (Raise e, w') => (Ok [DownloadError filename e], w')
          end
  | None => ret []
  end.

(** What follows the selection of an item. *)
Definition fetch_selected (selected : Item) : M (option string * list flat_error) :=
  let* _ := item_get selected "Date" in
  let* _ := item_get selected "key" in
  let* errors := collect file_keys (fetch_artifact selected) in
  let* disp := item_get selected "Date" in
  ret (Some disp, errors).

Definition download_all_files (target_date : option string)
  : M (option string * list flat_error) :=
  let* items := fetch_items in
  match items with
  | [] => modify (add_log LogNoData) ;;; ret (None, [])
  | first :: _ =>
      match target_date with
      | Some t =>
          if PyStr.truthy t then
            match first_of_date t items with
            | Some selected =>
                if bool_decide (selected = ∅)
                then
                  let* dates := dates_of items in
                  ret (None, [DateNotAvailable t dates])
                else fetch_selected selected
            | None =>
                let* dates := dates_of items in
                ret (None, [DateNotAvailable t dates])
            end
          else fetch_selected first
      | None => fetch_selected first
      end
  end.

End Flat.

End Flat.

(** ** Notions used in the statements *)

Fixpoint count_current (name : string) (rows : list VersionRecord) : nat :=
  match rows with
  | [] => 0
  | r :: rows' => (if is_current name r then 1 else 0) + count_current name rows'
  end.

Definition run_commits (calls : list (Env * string * string)) (w : world) : world :=
  fold_left (λ w c, (store_if_changed c.1.1 c.1.2 c.2 w).2) calls w.

(** What a commit that gets as far as the table writes into it. *)
Definition committed_rows (latest : option (nat * string)) (name day sum : string)
    (rows : list VersionRecord) : list VersionRecord :=
  match latest with
  | Some (rowid, _) => update_valid_to day rowid rows
  | None => rows
  end ++ [mkrow name day sum day None].

Definition final_path_of (E : Env) (file_path final_dir : string) : string :=
  let name := OsPath.basename file_path in
  OsPath.join final_dir
    [OsPath.stem name +:+ "_" +:+ str_date (today E) +:+ OsPath.suffix name].

Definition same_checksum (latest : option (nat * string)) (sum : string) : bool :=
  match latest with
  | Some (_, c) => String.eqb c sum
  | None => false
  end.

(** The calendar date of a feed item, when its date field has one. *)
Definition item_day (i : Item) : option date :=
  i !! "Date" ≫= Strptime.strptime Strptime.fmt_dbY.

(** Every key of the list is at most [d]. *)
Definition below (d : date) (l : list (date * Item)) : Prop :=
  Forall (λ x, date_leb x.1 d = true) l.

Inductive sorted_desc : list (date * Item) → Prop :=
| sorted_nil : sorted_desc []
| sorted_cons x l : below x.1 l → sorted_desc l → sorted_desc (x :: l).

(** The value a dict comprehension keyed by date ends with under [t]: the
    last item of that date. *)
Fixpoint pick (t : date) (acc : option Item) (items : list Item) : option Item :=
  match items with
  | [] => acc
  | i :: items' =>
      pick t (if decide (item_day i = Some t) then Some i else acc) items'
  end.

Definition date_fields (items : list Item) : list string :=
  omap (λ i : Item, i !! "Date") items.

Definition all_dated (items : list Item) : Prop :=
  Forall (λ i, is_Some (item_day i)) items.

(** ** The three notations of a date *)

(** [d.strftime("%d/%m/%Y")] *)
Definition strftime_dmY (d : date) : string :=
  PyStr.fmt_0d 2 (day d) +:+ "/" +:+ PyStr.fmt_0d 2 (month d) +:+ "/"
    +:+ PyStr.fmt_0d 4 (year d).

(** Environments and worlds for the examples. *)
Definition demo_item : Item :=
  list_to_map
    [ ("Date", "07 Mar 2024"); ("key", "k7");
      ("Data File Link", "l1"); ("Data File", "WEBPXTICK_DT-20240307.zip");
      ("Tick Data Structure File Link", "l2");
      ("Tick Data Structure File", "TickData_structure.dat");
      ("TC Data File Link", "l3"); ("TC Data File", "TC_20240307.txt");
      ("TC Data Structure File Link", "l4");
      ("TC Data Structure File", "TC_structure.dat") ].

Definition demo_item_old : Item :=
  list_to_map [ ("Date", "06 Mar 2024"); ("key", "k6") ].

Definition demo_env (flt : store_fault) : Env :=
  mkenv "/data/raw" "/data/reference" "/data/warehouse"
    (λ bytes, "sha:" +:+ bytes) (mkdate 2024 3 8)
    (Ok [demo_item_old; demo_item])
    (λ url, Ok (mkresponse 200 ("body of " +:+ url) None))
    (λ _, mkzip [("a.csv", "A"); ("b.csv", "B"); ("c.csv", "C")] false)
    (λ _, true) (λ _, true) (λ _, flt).

Definition staged_world (bytes : string) (rows : list VersionRecord) : world :=
  mkworld {[ "/data/raw/a.zip" := bytes ]} rows [] [].

Definition net_env (resp : response) : Env :=
  mkenv "/data/raw" "/data/reference" "/data/warehouse"
    (λ bytes, "sha:" +:+ bytes) (mkdate 2024 3 8) (Ok [])
    (λ _, Ok resp) (λ _, mkzip [] true) (λ _, true) (λ _, true) (λ _, NoFault).

Definition empty_world : world := mkworld ∅ [] [] [].

(** The catalog with eleven days on offer, most recent first. *)
Definition march_item (n : nat) : Item :=
  list_to_map [ ("Date", PyStr.fmt_0d 2 n +:+ " Mar 2024"); ("key", "k" +:+ PyStr.str_nat n) ].

Definition eleven_days : list Item := map march_item (reverse (seq 1 11)).

(** C8 on a target that matches no item, as the specification words it: the
    answer is none and the dates on offer are reported, all of them. *)
Definition no_match_reports_all_dates : Prop :=
  ∀ items t w,
    all_dated items → items ≠ [] → (∀ i, i ∈ items → item_day i ≠ Some t) →
    _select_item_for_date items (Some t) w
    = (Ok None, add_log (LogDateNotAvailable t (PyStr.join ", " (date_fields items))) w).

(** A directory path that [os.path.join] extends with a separator. *)
Definition proper_dir (p : string) : bool :=
  PyStr.truthy p && negb (PyStr.endswith p "/").

(** A name that [os.path.join] appends as it is, and that ends a component. *)
Definition relative_name (t : string) : bool :=
  PyStr.truthy t && negb (PyStr.startswith t "/") && negb (PyStr.endswith t "/").

(** The partition of a table and a day, relative to a root. *)
Definition partition_rel (table : string) (d : date) : string :=
  table +:+ "/" +:+ year_part d +:+ "/" +:+ month_part d +:+ "/" +:+ day_part d.

(** C6 on the partition path, as the specification words it. *)
Definition partition_path_as_specified : Prop :=
  ∀ E table d,
    valid_date d = true →
    _partition_dir E table d = WAREHOUSE_DIR E +:+ "/" +:+ partition_rel table d +:+ "/".

Definition partition_path_injective : Prop :=
  ∀ E t1 d1 t2 d2,
    valid_date d1 = true → valid_date d2 = true →
    _partition_dir E t1 d1 = _partition_dir E t2 d2 → t1 = t2 ∧ d1 = d2.

(** A staging directory with the three members of an archive. *)
Definition staging_world : world :=
  mkworld (list_to_map [ ("/tmp/x/a.csv", "A"); ("/tmp/x/b.csv", "B"); ("/tmp/x/c.csv", "C") ])
    [] [] [].

Abbreviation chars := list_ascii_of_string.

(** What [os.path.join] puts in front of a relative name. *)
Definition dir_prefix (a : string) : string :=
  if negb (PyStr.truthy a) || PyStr.endswith a "/" then a else a +:+ "/".

Definition is_digit (c : ascii) : Prop := is_Some (Strptime.digit_val c).

(** A string that ends a component: not empty, no separator at its end. *)
Definition proper_tail (b : string) : Prop := b ≠ "" ∧ PyStr.endswith b "/" = false.

Definition plain (fn : string) : Prop := "/"%char ∉ chars fn.

(** What the loop of [move_to_warehouse_and_upload] does for one member, with
    the paths it moves from and to. *)
Definition member_upload (E : Env) (table : string) (d : date) (dst : string → string)
    (fn : string) : upload :=
  let key := warehouse_key "derivative_data" table d (dst fn) in
  mkupload (dst fn) "datalake" key (s3_ok E key).

Definition member_log (E : Env) (table : string) (d : date) (dst : string → string)
    (fn : string) : option log_event :=
  if s3_ok E (warehouse_key "derivative_data" table d (dst fn)) then None
  else Some (LogWarehouseUploadFailed (dst fn)).

Definition move_member (E : Env) (table : string) (d : date) (src dst : string → string)
    (fn : string) : M unit :=
  bind (shutil_move (src fn) (dst fn))
    (λ _, upload_warehouse_file E (dst fn) table d "datalake" "derivative_data").

(** The version table is the same in [w'] as in [w], and so is every file
    whose path starts with none of [dirs]. *)
Definition same_outside (dirs : list string) (w w' : world) : Prop :=
  db w' = db w
  ∧ ∀ p, Forall (λ dir, PyStr.startswith p dir = false) dirs → fs w' !! p = fs w !! p.

(** A computation that touches files below [dirs] only, whatever it returns. *)
Definition steady (dirs : list string) {A} (c : M A) : Prop :=
  ∀ w, same_outside dirs w (c w).2.

(** A member that [zipfile] can extract: a directory entry, or a file whose
    name keeps a component. *)
Definition extractable (m : string * string) : bool :=
  PyStr.endswith m.1 "/" || PyStr.truthy (arcname m.1).

(** A path that starts with one of [dirs]. *)
Definition inside (dirs : list string) (q : string) : Prop :=
  Exists (λ dir, PyStr.startswith q dir = true) dirs.

(** The extraction directory of a stored container. *)
Definition extract_dir_of (stored_path : string) : string :=
  OsPath.join "/tmp" [OsPath.stem stored_path].

(** What [process_file] does with a container once it is stored and
    published: the [try] block. *)
Definition load_container (E : Env) (stored_path table : string) (day : date) : M unit :=
  bind (extractall E stored_path (extract_dir_of stored_path)) (λ good,
    if good then move_to_warehouse_and_upload E (extract_dir_of stored_path) table day
    else modify (add_log (LogBadZip stored_path))).

Definition is_container (stored_path : string) (table_for_zip : option string) : bool :=
  match table_for_zip with
  | Some table => PyStr.truthy table && PyStr.endswith (PyStr.lower stored_path) ".zip"
  | None => false
  end.

(** A container staged for its commit. *)
Definition container_world : world :=
  mkworld {[ "/data/raw/WEBPXTICK_DT-20240307.zip" := "PK" ]} [] [] [].

(** The same file where the flat script puts it. *)
Definition flat_world : world :=
  mkworld {[ "downloads/WEBPXTICK_DT-20240307.zip" := "PK" ]} [] [] [].


(** What an iteration of the loop adds to [new_files]. *)
Definition stored_list (stored_path : option string) : list string :=
  match stored_path with
  | Some p => if PyStr.truthy p then [p] else []
  | None => []
  end.

(** The world after a first run of the demonstration feed. *)
Definition after_first_run : world :=
  (download_all_files (demo_env NoFault) None empty_world).2.

(** The name fields of the two structure files. *)
Definition schema_kinds : list string :=
  ["Tick Data Structure File"; "TC Data Structure File"].

(** C9, as the specification words it: the kind of an artifact decides where
    it goes, and only the primary data file is partitioned. *)
Definition routed_by_kind : Prop :=
  ∀ (E : Env) (selected : Item) (kind : string * string) (filename : string),
    kind ∈ file_keys → selected !! kind.2 = Some filename →
    (kind.2 ∈ schema_kinds →
       final_dir_for E filename = REFERENCE_DIR E
       ∧ upload_prefix_for filename = "derivative_reference")
    ∧ (kind.2 ∉ schema_kinds →
         final_dir_for E filename = DOWNLOAD_DIR E ∧ upload_prefix_for filename = "raw")
    ∧ (kind.2 ≠ "Data File" → table_for_zip filename = None).

(** A day whose secondary data file is an archive and whose structure file
    has another name than usual. *)
Definition odd_item : Item :=
  list_to_map
    [ ("Date", "07 Mar 2024"); ("key", "k7");
      ("Tick Data Structure File Link", "l2");
      ("Tick Data Structure File", "TickData_layout.dat");
      ("TC Data File Link", "l3"); ("TC Data File", "TC_20240307.zip") ].

Definition odd_env : Env :=
  mkenv "/data/raw" "/data/reference" "/data/warehouse"
    (λ bytes, "sha:" +:+ bytes) (mkdate 2024 3 8)
    (Ok [odd_item])
    (λ url, Ok (mkresponse 200 ("body of " +:+ url) None))
    (λ _, mkzip [("a.csv", "A"); ("b.csv", "B"); ("c.csv", "C")] false)
    (λ _, true) (λ _, true) (λ _, NoFault).

(** C4, as the specification words it. *)
Definition commit_is_all_or_nothing : Prop :=
  ∀ E file_path final_dir w e w',
    store_if_changed E file_path final_dir w = (Raise e, w') → w' = w.

(** C5, as the specification words it: a response that is not a success, or
    whose body is all but empty, gives no staged file and writes nothing. *)
Definition fetch_fails_cleanly : Prop :=
  ∀ E url filename target_dir w resp,
    http_get E url = Ok resp →
    status_code resp ≠ 200 ∨ String.length (content resp) < 10 →
    (download E url filename target_dir w).1 = Ok None
    ∧ fs (download E url filename target_dir w).2 = fs w.

(** The first match of a parser. *)
Definition starts {A} (p : Strptime.parser A) (s : string) (a : A) (r : string) : Prop :=
  ∃ l, p s = (a, r) :: l.

(** A year printed on four digits reads back as itself. *)
Definition year_chars_ok (y : nat) : bool :=
  match PyStr.fmt_0d 4 y with
  | String a (String b (String c (String d EmptyString))) =>
      match Strptime.digit_val a, Strptime.digit_val b, Strptime.digit_val c,
            Strptime.digit_val d with
      | Some va, Some vb, Some vc, Some vd => 1000 * va + 100 * vb + 10 * vc + vd =? y
      | _, _, _, _ => false
      end
  | _ => false
  end.

(** ** Notions used in the further properties *)

(** No day comes before a later day. *)
Fixpoint days_descend (ds : list date) : bool :=
  match ds with
  | [] => true
  | d :: ds' => forallb (λ d', date_leb d' d) ds' && days_descend ds'
  end.

(** The items come most recent first, as far as their dates can be read. *)
Definition newest_first (items : list Item) : bool :=
  days_descend (omap item_day items).

(** A feed whose second entry gives its day in ISO notation. *)
Definition iso_item : Item :=
  list_to_map [ ("Date", "2024-03-07"); ("key", "k7") ].

Definition feed_env (raw : list Item) : Env :=
  mkenv "/data/raw" "/data/reference" "/data/warehouse"
    (λ bytes, "sha:" +:+ bytes) (mkdate 2024 3 8)
    (Ok raw)
    (λ url, Ok (mkresponse 200 ("body of " +:+ url) None))
    (λ _, mkzip [("a.csv", "A"); ("b.csv", "B"); ("c.csv", "C")] false)
    (λ _, true) (λ _, true) (λ _, NoFault).

(** A second entry for 7 March 2024, under another key. *)
Definition demo_item_again : Item :=
  list_to_map [ ("Date", "7 mar 2024"); ("key", "k7b") ].

(** An entry without a key. *)
Definition keyless_item : Item := list_to_map [ ("Date", "07 Mar 2024") ].

(** The same environment on another day. *)
Definition on_day (d : date) (E : Env) : Env :=
  mkenv (DOWNLOAD_DIR E) (REFERENCE_DIR E) (WAREHOUSE_DIR E) (sha256 E) d (api_items E)
    (http_get E) (unzip E) (s3_ok E) (rmtree_ok E) (fault_at E).

(** A download directory that holds a staged container and a file of
    another day. *)
Definition busy_world : world :=
  mkworld (list_to_map [ ("/data/raw/WEBPXTICK_DT-20240307.zip", "PK");
                         ("/data/raw/notes.txt", "keep") ]) [] [] [].

(** A string of white space only. *)
Definition blank (s : string) : bool := forallb PyStr.is_space (chars s).

(** The two ways a day or a month is written: as it is, or on two digits. *)
Definition numeral_forms (n : nat) : list string := [PyStr.str_nat n; PyStr.fmt_0d 2 n].

(** An environment whose downloads all break, over a given feed. *)
Definition offline_env (raw : list Item) : Env :=
  mkenv "/data/raw" "/data/reference" "/data/warehouse"
    (λ bytes, "sha:" +:+ bytes) (mkdate 2024 3 8)
    (Ok raw) (λ _, Raise RequestException)
    (λ _, mkzip [] true) (λ _, true) (λ _, true) (λ _, NoFault).

(** The same environment with other outcomes of the uploads. *)
Definition with_uploads (ok : string → bool) (E : Env) : Env :=
  mkenv (DOWNLOAD_DIR E) (REFERENCE_DIR E) (WAREHOUSE_DIR E) (sha256 E) (today E)
    (api_items E) (http_get E) (unzip E) ok (rmtree_ok E) (fault_at E).

(** Two worlds with the same files and the same version table. *)
Definition same_local (w1 w2 : world) : Prop := fs w1 = fs w2 ∧ db w1 = db w2.

(** Two computations that, from worlds with the same files and table,
    return the same and leave the same files and table. *)
Definition alike {A} (c1 c2 : M A) : Prop :=
  ∀ w1 w2, same_local w1 w2 →
    (c1 w1).1 = (c2 w2).1 ∧ same_local (c1 w1).2 (c2 w2).2.

(** A staging directory whose archive kept its members in a directory. *)
Definition nested_world : world :=
  mkworld (list_to_map [ ("/tmp/x/2024/a.csv", "A"); ("/tmp/x/2024/b.csv", "B") ]) [] [] [].

(** A day whose primary data file is named by the extension alone. *)
Definition bare_item : Item :=
  list_to_map
    [ ("Date", "07 Mar 2024"); ("key", "k7");
      ("Data File Link", "l1"); ("Data File", ".zip") ].

(** * Proofs *)

(** A closed decidable statement, settled by evaluation. *)
Ltac by_compute := apply (bool_decide_unpack _); vm_compute; reflexivity.

(** ** Facts on strings and paths *)

Lemma str_app_nil_l s : "" +:+ s = s.
Proof. reflexivity. Qed.

Lemma str_app_cons a s t : String a s +:+ t = String a (s +:+ t).
Proof. reflexivity. Qed.

Ltac str_simpl := rewrite ?str_app_cons, ?str_app_nil_l.

Lemma str_app_nil_r s : s +:+ "" = s.
Proof. induction s as [|a s IH]; str_simpl; congruence. Qed.

Lemma str_app_assoc s1 s2 s3 : (s1 +:+ s2) +:+ s3 = s1 +:+ (s2 +:+ s3).
Proof. induction s1 as [|a s1 IH]; str_simpl; congruence. Qed.

Lemma str_length_app s1 s2 :
  String.length (s1 +:+ s2) = String.length s1 + String.length s2.
Proof. induction s1 as [|a s1 IH]; str_simpl; cbn; congruence. Qed.

Lemma rsplit_char_app c s b r :
  PyStr.rsplit_char c s = Some (b, r) → s = b +:+ String c r.
Proof.
  revert b r. induction s as [|a s IH]; intros b r; cbn; [done|].
  destruct (PyStr.rsplit_char c s) as [[b' r']|].
  - intros [= <- <-]. str_simpl. by rewrite (IH b' r').
  - destruct (Ascii.eqb_spec a c) as [->|]; [|done]. by intros [= <- <-].
Qed.

(** The versioned name is the name with the date put before its extension. *)
Lemma stem_suffix p : OsPath.stem p +:+ OsPath.suffix p = OsPath.path_name p.
Proof.
  unfold OsPath.stem, OsPath.suffix, OsPath.split_ext.
  destruct (PyStr.rsplit_char "." (OsPath.path_name p)) as [[b r]|] eqn:Hs; cbn.
  - apply rsplit_char_app in Hs.
    destruct b as [|a b], r as [|c r]; cbn; rewrite ?str_app_nil_r; try done.
  - by rewrite str_app_nil_r.
Qed.

(** ** The version store *)

Section StoreFacts.
Variable E : Env.
Local Arguments commit_rows : simpl never.
Local Arguments Fs.move : simpl never.

Lemma commit_rows_ok flt latest name day sum rows rows' :
  commit_rows flt latest name day sum rows = Ok rows' →
  rows' = committed_rows latest name day sum rows.
Proof.
  unfold commit_rows, committed_rows.
  destruct latest as [[i c]|]; repeat case_decide; congruence.
Qed.

Lemma commit_rows_nofault latest name day sum rows :
  commit_rows NoFault latest name day sum rows
  = Ok (committed_rows latest name day sum rows).
Proof. unfold commit_rows, committed_rows. by destruct latest as [[i c]|]. Qed.

(** One step of symbolic execution of [store_if_changed]. *)
Lemma store_if_changed_unfold file_path final_dir w :
  store_if_changed E file_path final_dir w =
  match fs w !! file_path with
  | None => (Raise (FileNotFoundError file_path), w)
  | Some c =>
      let name := OsPath.basename file_path in
      let sum := sha256 E c in
      let day := str_date (today E) in
      let latest := select_latest name (db w) in
      if same_checksum latest sum
      then (Ok None, set_fs (delete file_path (fs w)) w)
      else if decide (fault_at E file_path = FailMove) then (Raise OSError, w)
      else match Fs.move file_path (final_path_of E file_path final_dir) (fs w) with
           | Raise e => (Raise e, w)
           | Ok f' =>
               match commit_rows (fault_at E file_path) latest name day sum (db w) with
               | Raise e => (Raise e, set_fs f' w)
               | Ok rows' =>
                   (Ok (Some (final_path_of E file_path final_dir)),
                    set_db rows' (set_fs f' w))
               end
           end
  end.
Proof.
  unfold store_if_changed, compute_checksum, read_file, bind, ret, gets, os_remove,
    same_checksum, final_path_of.
  destruct (fs w !! file_path) as [c|] eqn:Hc; [|done]. cbn.
  destruct (select_latest _ _) as [[i c']|] eqn:Hl; cbn.
  - destruct (String.eqb c' (sha256 E c)); cbn; [by rewrite Hc|].
    case_decide; [done|]. unfold shutil_move, raise, lift, modify.
    destruct (Fs.move _ _ _); [|done]. cbn.
    by destruct (commit_rows _ _ _ _ _ _).
  - case_decide; [done|]. unfold shutil_move, raise, lift, modify.
    destruct (Fs.move _ _ _); [|done]. cbn.
    by destruct (commit_rows _ _ _ _ _ _).
Qed.
End StoreFacts.

Lemma select_latest_from_None i name rows :
  select_latest_from i name rows = None → count_current name rows = 0.
Proof.
  revert i. induction rows as [|r rows IH]; intros i; cbn; [done|].
  destruct (select_latest_from (S i) name rows) eqn:Hs; [done|].
  destruct (is_current name r); [done|]. intros _. by rewrite (IH (S i)).
Qed.

Lemma select_latest_from_Some i name rows j c :
  select_latest_from i name rows = Some (j, c) →
  ∃ r, i ≤ j ∧ rows !! (j - i) = Some r ∧ is_current name r = true ∧ checksum r = c.
Proof.
  revert i. induction rows as [|r rows IH]; intros i; cbn; [done|].
  destruct (select_latest_from (S i) name rows) as [[j' c']|] eqn:Hs.
  - intros [= -> ->]. destruct (IH _ Hs) as (r' & Hle & Hr & Hcur & Hsum).
    exists r'. split; [lia|]. split; [|done].
    replace (j - i) with (S (j - S i)) by lia. done.
  - destruct (is_current name r) eqn:Hcur; [|done]. intros [= <- <-].
    exists r. rewrite Nat.sub_diag. done.
Qed.

Lemma is_current_close name day r : is_current name (close_row day r) = false.
Proof. unfold is_current, close_row; cbn. by rewrite andb_false_r. Qed.

Lemma count_current_app name l1 l2 :
  count_current name (l1 ++ l2) = count_current name l1 + count_current name l2.
Proof. induction l1 as [|r l1 IH]; cbn; [done|]. rewrite IH. lia. Qed.

Lemma count_current_close_le name day j rows :
  count_current name (update_valid_to day j rows) ≤ count_current name rows.
Proof.
  unfold update_valid_to. revert j. induction rows as [|r rows IH]; intros [|j]; cbn; try lia.
  - rewrite is_current_close. lia.
  - specialize (IH j). lia.
Qed.

Lemma count_current_close_lt name day j rows r :
  rows !! j = Some r → is_current name r = true →
  S (count_current name (update_valid_to day j rows)) = count_current name rows.
Proof.
  unfold update_valid_to. revert j. induction rows as [|r' rows IH]; intros [|j]; cbn; try done.
  - intros [= ->] ->. rewrite is_current_close. done.
  - intros Hr Hc. rewrite <- (IH j Hr Hc). lia.
Qed.

Lemma is_current_name name r : is_current name r = true → file_name r = name.
Proof. unfold is_current. intros [H _]%andb_true_iff. by apply String.eqb_eq. Qed.

(** Writing the rows of a commit keeps at most one current row per name. *)
Lemma committed_rows_unique name day sum rows :
  (∀ n, count_current n rows ≤ 1) →
  ∀ n, count_current n (committed_rows (select_latest name rows) name day sum rows) ≤ 1.
Proof.
  intros Hinv n. unfold committed_rows. rewrite count_current_app.
  change (count_current n [mkrow name day sum day None])
    with ((if String.eqb name n && true then 1 else 0) + 0).
  destruct (String.eqb_spec name n) as [->|Hne]; cbn.
  - destruct (select_latest n rows) as [[j c]|] eqn:Hs.
    + apply select_latest_from_Some in Hs as (r & _ & Hr & Hcur & _).
      rewrite Nat.sub_0_r in Hr.
      pose proof (count_current_close_lt n day j rows r Hr Hcur).
      specialize (Hinv n). lia.
    + apply select_latest_from_None in Hs. rewrite Hs. lia.
  - destruct (select_latest name rows) as [[j c]|].
    + pose proof (count_current_close_le n day j rows). specialize (Hinv n). lia.
    + specialize (Hinv n). lia.
Qed.

Lemma store_if_changed_db E file_path final_dir w :
  let w' := (store_if_changed E file_path final_dir w).2 in
  db w' = db w ∨
  ∃ sum, db w' = committed_rows (select_latest (OsPath.basename file_path) (db w))
                   (OsPath.basename file_path) (str_date (today E)) sum (db w).
Proof.
  rewrite store_if_changed_unfold.
  destruct (fs w !! file_path) as [c|]; [|by left]. cbn zeta.
  destruct (same_checksum _ _); [by left|].
  case_decide; [by left|].
  destruct (Fs.move _ _ _); [|by left].
  destruct (commit_rows _ _ _ _ _ _) eqn:Hc; [|by left].
  right. eexists. cbn. by apply commit_rows_ok in Hc.
Qed.

Lemma store_if_changed_unique E file_path final_dir w :
  (∀ n, count_current n (db w) ≤ 1) →
  ∀ n, count_current n (db (store_if_changed E file_path final_dir w).2) ≤ 1.
Proof.
  intros Hinv. destruct (store_if_changed_db E file_path final_dir w) as [->|[sum ->]]; [done|].
  by apply committed_rows_unique.
Qed.

Lemma run_commits_unique calls w :
  (∀ n, count_current n (db w) ≤ 1) →
  ∀ n, count_current n (db (run_commits calls w)) ≤ 1.
Proof.
  revert w. induction calls as [|[[E fp] fd] calls IH]; intros w Hinv; [done|].
  cbn. apply IH. by apply store_if_changed_unique.
Qed.

(** C1. For every file name and every sequence of calls of
    [store_if_changed] run one after the other from an empty version table,
    whatever the file system holds and whether a call stores, skips or fails,
    at most one record of that file name has an empty [valid_to] after any
    number of the calls. *)
Theorem at_most_one_current_record (calls : list (Env * string * string))
    (files : gmap string string) (uploads : list upload) (events : list log_event)
    (observed : nat) (name : string) :
  count_current name
    (db (run_commits (take observed calls) (mkworld files [] uploads events))) ≤ 1.
Proof. apply run_commits_unique. intros n. cbn. lia. Qed.

Lemma Fs_move_file src dst f c :
  f !! src = Some c → Fs.is_dir f dst = false →
  Fs.move src dst f = Ok (<[dst := c]> (delete src f)).
Proof. intros Hs Hd. unfold Fs.move. by rewrite Hd, Hs. Qed.

Lemma count_current_pos name r rows :
  r ∈ rows → is_current name r = true → 1 ≤ count_current name rows.
Proof.
  induction 1 as [r rows|r r' rows _ IH]; cbn; intros Hc.
  - rewrite Hc. lia.
  - specialize (IH Hc). lia.
Qed.

Lemma update_valid_to_lookup day i rows j :
  update_valid_to day i rows !! j =
  (λ r, if decide (i = j) then close_row day r else r) <$> rows !! j.
Proof.
  unfold update_valid_to. destruct (decide (i = j)) as [->|Hne].
  - by rewrite list_lookup_alter_eq.
  - rewrite list_lookup_alter_ne by done. by destruct (rows !! j).
Qed.

(** C3. When the staged file hashes to something else than the checksum of
    the current record of its name, or the name has no current record,
    [store_if_changed] returns the stored path, which is the final directory
    joined with the name where today's date comes between stem and extension;
    the staged bytes are moved there; the table gains exactly one row, with
    today as version date and as [valid_from], no [valid_to], and the hash of
    the stored bytes as checksum; the former current record, when there is
    one, gets today as [valid_to], which is the [valid_from] of the new row;
    all other rows stay as they are; and the new row is the only current one
    of its name when the table had at most one current record per name. *)
Theorem store_if_changed_stores_new_version (E : Env) (w : world)
    (file_path final_dir c : string) :
  let name := OsPath.basename file_path in
  let day := str_date (today E) in
  let final_path :=
    OsPath.join final_dir [OsPath.stem name +:+ "_" +:+ day +:+ OsPath.suffix name] in
  let new := mkrow name day (sha256 E c) day None in
  fs w !! file_path = Some c →
  fault_at E file_path = NoFault →
  Fs.is_dir (fs w) final_path = false →
  (∀ i sum, select_latest name (db w) = Some (i, sum) → sum ≠ sha256 E c) →
  ∃ rows',
    store_if_changed E file_path final_dir w
    = (Ok (Some final_path),
       mkworld (<[final_path := c]> (delete file_path (fs w))) rows' (s3calls w) (logs w))
    ∧ OsPath.stem name +:+ OsPath.suffix name = OsPath.path_name name
    ∧ sha256 E <$> (<[final_path := c]> (delete file_path (fs w)) !! final_path)
      = Some (checksum new)
    ∧ length rows' = S (length (db w))
    ∧ rows' !! length (db w) = Some new
    ∧ (∀ j r, db w !! j = Some r →
         rows' !! j = Some (if decide (fst <$> select_latest name (db w) = Some j)
                            then close_row day r else r))
    ∧ (∀ i sum, select_latest name (db w) = Some (i, sum) →
         ∃ r, db w !! i = Some r ∧ file_name r = name ∧ valid_to r = None
              ∧ rows' !! i = Some (close_row day r)
              ∧ valid_to (close_row day r) = Some (valid_from new))
    ∧ ((∀ n, count_current n (db w) ≤ 1) →
         ∀ r, r ∈ rows' → is_current name r = true → r = new).
Proof.
  intros name day final_path new Hfile Hflt Hdir Hdiff.
  exists (committed_rows (select_latest name (db w)) name day (sha256 E c) (db w)).
  split.
  { rewrite store_if_changed_unfold, Hfile. cbn zeta.
    replace (same_checksum _ _) with false; cycle 1.
    { unfold same_checksum. fold name. destruct (select_latest name (db w)) as [[i s]|] eqn:Hs; [|done].
      symmetry. apply String.eqb_neq. by eapply Hdiff. }
    rewrite Hflt. case_decide; [done|].
    unfold final_path_of. fold name day final_path.
    rewrite (Fs_move_file _ _ _ c) by done.
    rewrite commit_rows_nofault. done. }
  split; [apply stem_suffix|].
  split; [by rewrite lookup_insert_eq|].
  assert (Hlen : ∀ l, length (committed_rows l name day (sha256 E c) (db w)) = S (length (db w))).
  { intros [[i s]|]; unfold committed_rows, update_valid_to;
      rewrite length_app, ?length_alter; cbn; lia. }
  assert (Hpre : ∀ j, j < length (db w) →
     committed_rows (select_latest name (db w)) name day (sha256 E c) (db w) !! j
     = (λ r, if decide (fst <$> select_latest name (db w) = Some j)
             then close_row day r else r) <$> db w !! j).
  { intros j Hj. unfold committed_rows.
    destruct (select_latest name (db w)) as [[i s]|]; cbn.
    - rewrite lookup_app_l by (unfold update_valid_to; by rewrite length_alter).
      rewrite update_valid_to_lookup. destruct (db w !! j); [|done]. cbn.
      repeat case_decide; congruence.
    - rewrite lookup_app_l by done. destruct (db w !! j); [|done]. cbn.
      by case_decide. }
  split; [apply Hlen|].
  split.
  { unfold committed_rows.
    rewrite lookup_app_r;
      destruct (select_latest name (db w)) as [[i s]|]; unfold update_valid_to;
      rewrite ?length_alter; try lia; by rewrite Nat.sub_diag. }
  split.
  { intros j r Hr. rewrite Hpre by (by eapply lookup_lt_Some). by rewrite Hr. }
  split.
  { intros i sum Hs. pose proof Hs as Hs'.
    apply select_latest_from_Some in Hs' as (r & _ & Hr & Hcur & _).
    rewrite Nat.sub_0_r in Hr. exists r. split; [done|].
    split; [by apply is_current_name|].
    split.
    { unfold is_current in Hcur. apply andb_true_iff in Hcur as [_ Hv].
      by apply bool_decide_eq_true in Hv. }
    split; [|done].
    rewrite Hpre by (by eapply lookup_lt_Some). rewrite Hr, Hs. cbn.
    by case_decide. }
  intros Hinv r Hin Hcur.
  pose proof (committed_rows_unique name day (sha256 E c) (db w) Hinv name) as Hone.
  unfold committed_rows in Hin, Hone. rewrite count_current_app in Hone.
  change (count_current name [mkrow name day (sha256 E c) day None])
    with ((if String.eqb name name && true then 1 else 0) + 0) in Hone.
  rewrite String.eqb_refl in Hone. cbn in Hone.
  apply elem_of_app in Hin as [Hin|Hin].
  - pose proof (count_current_pos _ _ _ Hin Hcur). lia.
  - by apply list_elem_of_singleton in Hin.
Qed.

(** C4, counterexample. When the INSERT fails, the staged file has already
    been moved to its versioned path and stays there, with no record for it
    in the table: the state is not the one before the call. *)
Lemma commit_is_all_or_nothing_fails :
  let w := staged_world "v1" [] in
  let r := store_if_changed (demo_env FailInsert) "/data/raw/a.zip" "/data/raw" w in
  r.1 = Raise SqliteError
  ∧ db r.2 = []
  ∧ fs r.2 !! "/data/raw/a.zip" = None
  ∧ fs r.2 !! "/data/raw/a_2024-03-08.zip" = Some "v1"
  ∧ ¬ commit_is_all_or_nothing.
Proof.
  cbv zeta. do 4 (split; [by_compute|]).
  intros Hall.
  assert (Hne : (store_if_changed (demo_env FailInsert) "/data/raw/a.zip" "/data/raw"
                   (staged_world "v1" [])).2 ≠ staged_world "v1" []) by by_compute.
  apply Hne. apply (Hall (demo_env FailInsert) "/data/raw/a.zip" "/data/raw" _ SqliteError).
  by_compute.
Qed.

(** The statements of a commit fail on their faults only. *)
Lemma commit_rows_raises flt latest name day sum rows e :
  commit_rows flt latest name day sum rows = Raise e ↔
  e = SqliteError
  ∧ (flt = FailUpdate ∧ is_Some latest ∨ flt = FailInsert ∨ flt = FailCommit).
Proof.
  unfold commit_rows. split.
  - destruct latest as [[i c]|]; repeat case_decide; intros [= <-]; split; eauto.
  - intros [-> [[-> [[i c] ->]]|[->| ->]]]; [done|..];
      destruct latest as [[i c]|]; by repeat case_decide.
Qed.

(** C4, as the code has it. Whenever [store_if_changed] raises, the version
    table, the uploads and the log are those before the call: no close and
    no insert is applied by halves. The move of the file is not part of that
    unit. When the staged file holds new content, the move has succeeded and
    the UPDATE (there being a current record to close), the INSERT or the
    COMMIT fails, the call raises the table's error in a world where only the
    file system has changed: the staged file is gone from its staged path and
    its bytes are at the versioned path, without a record. The table's error
    is raised in no other case. When there is no staged file to read, the
    call raises with the world as it was. *)
Theorem store_if_changed_failure_keeps_table (E : Env) (w : world)
    (file_path final_dir : string) :
  let latest := select_latest (OsPath.basename file_path) (db w) in
  let final_path := final_path_of E file_path final_dir in
  let flt := fault_at E file_path in
  let table_fails :=
    flt = FailUpdate ∧ is_Some latest ∨ flt = FailInsert ∨ flt = FailCommit in
  let r := store_if_changed E file_path final_dir w in
  (∀ e, r.1 = Raise e → db r.2 = db w ∧ s3calls r.2 = s3calls w ∧ logs r.2 = logs w)
  ∧ (∀ c f', fs w !! file_path = Some c →
       same_checksum latest (sha256 E c) = false →
       Fs.move file_path final_path (fs w) = Ok f' →
       table_fails →
       r = (Raise SqliteError, set_fs f' w)
       ∧ f' = <[(if Fs.is_dir (fs w) final_path
                 then OsPath.join2 final_path (OsPath.basename file_path)
                 else final_path) := c]> (delete file_path (fs w)))
  ∧ (r.1 = Raise SqliteError →
       table_fails
       ∧ ∃ c, fs w !! file_path = Some c
              ∧ same_checksum latest (sha256 E c) = false
              ∧ Fs.move file_path final_path (fs w) = Ok (fs r.2))
  ∧ (fs w !! file_path = None → r = (Raise (FileNotFoundError file_path), w)).
Proof.
  cbv zeta. rewrite store_if_changed_unfold.
  destruct (fs w !! file_path) as [c|] eqn:Hfile; cbv zeta.
  2: { split; [by intros e [= _]|]. split; [done|]. split; [done|done]. }
  destruct (same_checksum _ _) eqn:Hsame.
  { split; [done|]. split; [by intros c' f' [= <-]; rewrite Hsame|]. split; done. }
  case_decide as Hmv.
  { split; [by intros e _|]. split.
    { intros c' f' _ _ _ [[? _]|[?|?]]; congruence. }
    split; done. }
  destruct (Fs.move _ _ _) as [f'|e'] eqn:Hmove.
  2: { split; [by intros e _|]. split; [done|]. split; [|done].
       cbn. intros [= ->]. exfalso. revert Hmove. unfold Fs.move. rewrite Hfile.
       by destruct (_ && _). }
  destruct (commit_rows _ _ _ _ _ _) as [rows'|e'] eqn:Hc.
  { split; [done|]. split; [|split; done].
    intros c' f'' _ _ _ Hf. exfalso.
    assert (∃ e, commit_rows (fault_at E file_path)
                   (select_latest (OsPath.basename file_path) (db w))
                   (OsPath.basename file_path) (str_date (today E)) (sha256 E c) (db w)
                 = Raise e) as [e He]; [|congruence].
    exists SqliteError. by apply commit_rows_raises. }
  apply commit_rows_raises in Hc as [-> Hf].
  split; [by intros e _|]. split.
  { intros c' f'' [= <-] _ [= <-] _. split; [done|].
    revert Hmove. unfold Fs.move. rewrite Hfile.
    destruct (Fs.is_dir (fs w) _); cbn [andb]; [|by intros [= <-]].
    destruct (Fs.exists_ _ _); [done|by intros [= <-]]. }
  split; [|done]. intros _. split; [done|]. by exists c.
Qed.

(** A second version whose COMMIT fails: the record of the first version is
    still the current one, and the file is at its versioned path. *)
Lemma store_if_changed_failure_keeps_table_witness :
  let old := mkrow "a.zip" "2024-03-01" "sha:v1" "2024-03-01" None in
  let w := staged_world "v2" [old] in
  store_if_changed (demo_env FailCommit) "/data/raw/a.zip" "/data/raw" w
  = (Raise SqliteError, mkworld {[ "/data/raw/a_2024-03-08.zip" := "v2" ]} [old] [] []).
Proof.
  cbv zeta.
  etrans;
    [apply (proj1 (proj2 (store_if_changed_failure_keeps_table (demo_env FailCommit)
              (staged_world "v2" [mkrow "a.zip" "2024-03-01" "sha:v1" "2024-03-01" None])
              "/data/raw/a.zip" "/data/raw")) "v2"
             {[ "/data/raw/a_2024-03-08.zip" := "v2" ]})|].
  - by_compute.
  - by_compute.
  - by_compute.
  - right; right; reflexivity.
  - by_compute.
Defined.

(** A second version of a.zip: the first record is closed on the day the new one opens. *)
Lemma store_if_changed_stores_new_version_witness :
  let old := mkrow "a.zip" "2024-03-01" "sha:v1" "2024-03-01" None in
  let run := store_if_changed (demo_env NoFault) "/data/raw/a.zip" "/data/raw"
               (staged_world "v2" [old]) in
  run.1 = Ok (Some "/data/raw/a_2024-03-08.zip")
  ∧ fs run.2 = {[ "/data/raw/a_2024-03-08.zip" := "v2" ]}
  ∧ db run.2 !! 0 = Some (mkrow "a.zip" "2024-03-01" "sha:v1" "2024-03-01" (Some "2024-03-08"))
  ∧ db run.2 !! 1 = Some (mkrow "a.zip" "2024-03-08" "sha:v2" "2024-03-08" None).
Proof.
  cbv zeta.
  destruct (store_if_changed_stores_new_version (demo_env NoFault)
              (staged_world "v2" [mkrow "a.zip" "2024-03-01" "sha:v1" "2024-03-01" None])
              "/data/raw/a.zip" "/data/raw" "v2")
    as (rows' & Hrun & _ & _ & _ & Hnew & Hold & _).
  - vm_compute; reflexivity.
  - reflexivity.
  - vm_compute; reflexivity.
  - intros i sum Hsel. vm_compute in Hsel. injection Hsel as _ <-. vm_compute. discriminate.
  - rewrite Hrun. cbn [fst snd fs db].
    split; [vm_compute; reflexivity|]. split; [vm_compute; reflexivity|].
    split.
    + rewrite (Hold 0 _ eq_refl). vm_compute; reflexivity.
    + exact Hnew.
Defined.

(** ** Streaming a body into a file *)

Lemma str_take_drop n s : str_take n s +:+ str_drop n s = s.
Proof.
  revert s. induction n as [|n IH]; intros [|a s]; cbn; try done.
  str_simpl. by rewrite IH.
Qed.

Lemma str_drop_length n s : String.length (str_drop n s) = String.length s - n.
Proof. revert s. induction n as [|n IH]; intros [|a s]; cbn; try done. Qed.

Lemma concat_nil_cons x (l : list string) :
  String.concat "" (x :: l) = x +:+ String.concat "" l.
Proof. destruct l; cbn [String.concat]; [by rewrite str_app_nil_r|done]. Qed.

Lemma concat_chunks fuel n s :
  0 < n → String.length s ≤ fuel → String.concat "" (chunks_fuel fuel n s) = s.
Proof.
  intros Hn. revert s. induction fuel as [|fuel IH]; intros [|a s] Hlen; try done.
  { cbn in Hlen. lia. }
  change (chunks_fuel (S fuel) n (String a s))
    with (str_take n (String a s) :: chunks_fuel fuel n (str_drop n (String a s))).
  rewrite concat_nil_cons, IH; [apply str_take_drop|].
  rewrite str_drop_length. cbn in *. lia.
Qed.

Lemma concat_iter_content body : String.concat "" (iter_content 8192 body) = body.
Proof. apply concat_chunks; [|done]. apply Nat.ltb_lt. by vm_compute. Qed.

Lemma concat_nil_app (l1 l2 : list string) :
  String.concat "" (l1 ++ l2) = String.concat "" l1 +:+ String.concat "" l2.
Proof.
  induction l1 as [|x l1 IH]; [done|].
  change ((x :: l1) ++ l2) with (x :: (l1 ++ l2)).
  by rewrite !concat_nil_cons, IH, str_app_assoc.
Qed.

Lemma for_each_append path l w :
  for_each l (append_file path) w
  = (Ok tt,
     match l with
     | [] => w
     | _ => set_fs (<[path := default "" (fs w !! path) +:+ String.concat "" l]> (fs w)) w
     end).
Proof.
  revert w. induction l as [|x l IH]; intros w; [done|].
  cbn [for_each]. unfold bind, append_file at 1, modify. rewrite IH.
  destruct l as [|y l]; [done|].
  destruct w as [f d s lg]. unfold set_fs. cbn [fs db s3calls logs].
  rewrite lookup_insert_eq, insert_insert_eq. cbn [default].
  rewrite (concat_nil_cons x (y :: l)), <- str_app_assoc. done.
Qed.

(** Writing a fresh file and appending pieces leaves their concatenation. *)
Lemma write_then_append {A} path l (k : unit → M A) w :
  bind (write_file path "") (λ _, bind (for_each l (append_file path)) k) w
  = k tt (set_fs (<[path := String.concat "" l]> (fs w)) w).
Proof.
  unfold bind, write_file, modify. rewrite for_each_append.
  destruct w as [f d s lg]. unfold set_fs. cbn [fs db s3calls logs].
  destruct l; [done|]. by rewrite lookup_insert_eq, insert_insert_eq.
Qed.

Section DownloadFacts.
Variable E : Env.

Lemma download_unfold url filename target_dir w :
  download E url filename target_dir w =
  let path := OsPath.join target_dir [filename] in
  match http_get E url with
  | Raise e => (Raise e, w)
  | Ok r =>
      if status_code r =? 200 then
        match stream_breaks r with
        | None => (Ok (Some path), set_fs (<[path := content r]> (fs w)) w)
        | Some k =>
            (Raise RequestException,
             set_fs (<[path := String.concat "" (take k (iter_content 8192 (content r)))]>
                       (fs w)) w)
        end
      else (Ok None, add_log (LogDownloadFailed filename (status_code r)) w)
  end.
Proof.
  unfold download. cbv zeta. unfold bind at 1, lift.
  destruct (http_get E url) as [r|e]; [|done].
  destruct (status_code r =? 200); cbn [negb]; [|done].
  destruct (stream_breaks r) as [k|]; rewrite write_then_append; [done|].
  by rewrite concat_iter_content.
Qed.
End DownloadFacts.

(** C5, counterexample. An empty body with status 200 is staged as a file
    and reported as a success, and a stream that breaks before its first
    chunk leaves an empty file under the staged name. *)
Lemma fetch_fails_cleanly_fails :
  let short := download (net_env (mkresponse 200 "" None)) "u" "a.zip" "/data/raw" empty_world in
  let broken :=
    download (net_env (mkresponse 200 "0123456789abcdef" (Some 0))) "u" "a.zip" "/data/raw"
      empty_world in
  short.1 = Ok (Some "/data/raw/a.zip")
  ∧ fs short.2 !! "/data/raw/a.zip" = Some ""
  ∧ broken.1 = Raise RequestException
  ∧ fs broken.2 !! "/data/raw/a.zip" = Some ""
  ∧ ¬ fetch_fails_cleanly.
Proof.
  cbv zeta. do 4 (split; [by_compute|]).
  intros Hclaim.
  assert (Hne : (download (net_env (mkresponse 200 "" None)) "u" "a.zip" "/data/raw"
                   empty_world).1 ≠ Ok None) by by_compute.
  apply Hne.
  apply (Hclaim (net_env (mkresponse 200 "" None)) "u" "a.zip" "/data/raw" empty_world
           (mkresponse 200 "" None) eq_refl).
  right. cbn. lia.
Qed.

(** C5, as the code has it. A status other than 200 gives no staged path,
    logs the failure and writes nothing. With status 200 and a stream that
    comes whole, the body, whatever its length, an empty one included, is
    written under the staged name itself, with no temporary name in between,
    and that name is returned. With status 200 and a stream that breaks after
    [k] chunks, the call raises and the chunks read so far stay under the
    staged name. *)
Theorem download_outcomes (E : Env) (url filename target_dir : string) (w : world)
    (resp : response) :
  let path := OsPath.join target_dir [filename] in
  http_get E url = Ok resp →
  (status_code resp ≠ 200 →
     download E url filename target_dir w
     = (Ok None, add_log (LogDownloadFailed filename (status_code resp)) w))
  ∧ (status_code resp = 200 → stream_breaks resp = None →
     download E url filename target_dir w
     = (Ok (Some path), set_fs (<[path := content resp]> (fs w)) w))
  ∧ (∀ k, status_code resp = 200 → stream_breaks resp = Some k →
     download E url filename target_dir w
     = (Raise RequestException,
        set_fs (<[path := String.concat "" (take k (iter_content 8192 (content resp)))]>
                  (fs w)) w)).
Proof.
  intros path Hget. rewrite download_unfold, Hget. cbv zeta. fold path.
  repeat split.
  - intros Hne. by apply Nat.eqb_neq in Hne as ->.
  - intros -> ->. done.
  - intros k -> ->. done.
Qed.

(** A refused request, a body of three bytes, an empty body, and a stream
    that breaks before its first chunk. *)
Lemma download_outcomes_witness :
  download (net_env (mkresponse 404 "not found" None)) "u" "a.zip" "/data/raw" empty_world
  = (Ok None, add_log (LogDownloadFailed "a.zip" 404) empty_world)
  ∧ download (net_env (mkresponse 200 "abc" None)) "u" "a.zip" "/data/raw" empty_world
    = (Ok (Some "/data/raw/a.zip"), set_fs (<["/data/raw/a.zip" := "abc"]> ∅) empty_world)
  ∧ download (net_env (mkresponse 200 "" None)) "u" "a.zip" "/data/raw" empty_world
    = (Ok (Some "/data/raw/a.zip"), set_fs (<["/data/raw/a.zip" := ""]> ∅) empty_world)
  ∧ download (net_env (mkresponse 200 "0123456789abcdef" (Some 0))) "u" "a.zip" "/data/raw"
      empty_world
    = (Raise RequestException, set_fs (<["/data/raw/a.zip" := ""]> ∅) empty_world).
Proof.
  split.
  { refine (proj1 (download_outcomes (net_env (mkresponse 404 "not found" None))
              "u" "a.zip" "/data/raw" empty_world _ eq_refl) _). discriminate. }
  split.
  { exact (proj1 (proj2 (download_outcomes (net_env (mkresponse 200 "abc" None))
             "u" "a.zip" "/data/raw" empty_world _ eq_refl)) eq_refl eq_refl). }
  split.
  { exact (proj1 (proj2 (download_outcomes (net_env (mkresponse 200 "" None))
             "u" "a.zip" "/data/raw" empty_world _ eq_refl)) eq_refl eq_refl). }
  exact (proj2 (proj2 (download_outcomes
           (net_env (mkresponse 200 "0123456789abcdef" (Some 0)))
           "u" "a.zip" "/data/raw" empty_world _ eq_refl)) 0 eq_refl eq_refl).
Defined.

(** The flat script does reject a body of fewer than ten bytes. *)
Lemma Flat_download_short_body (E : Env) (url filename : string) (w : world) (resp : response) :
  Fs.exists_ (fs w) (OsPath.join Flat.DOWNLOAD_DIR [filename]) = false →
  http_get E url = Ok resp → status_code resp = 200 → stream_breaks resp = None →
  String.length (content resp) < 10 →
  Flat.download E url filename w = (Ok tt, add_log (LogEmptyResponse filename) w).
Proof.
  intros Hex Hget Hst Hbr Hlen. unfold Flat.download. cbv zeta.
  unfold bind at 1, gets. rewrite Hex. unfold bind at 1, lift.
  rewrite Hget, Hst, Hbr, Nat.eqb_refl. cbn [negb].
  by apply Nat.ltb_lt in Hlen as ->.
Qed.

(** ** Parsing dates *)

Module ParseFacts.
Import Strptime.

Lemma starts_bind {A B} (p : parser A) (k : A → parser B) s a r b r' :
  starts p s a r → starts (k a) r b r' → starts (p_bind p k) s b r'.
Proof.
  intros [l Hl] [l' Hl']. unfold starts, p_bind. rewrite Hl.
  cbn [flat_map fst snd]. rewrite Hl'. by eexists.
Qed.

Lemma starts_ret {A} (a : A) s : starts (p_ret a) s a s.
Proof. by eexists. Qed.

Lemma starts_lit c r : starts (p_lit c) (String c r) tt r.
Proof. unfold starts, p_lit. rewrite Ascii.eqb_refl. by eexists. Qed.

Lemma strptime_starts fmt s d :
  starts fmt s d "" → valid_date d = true → strptime fmt s = Some d.
Proof. intros [l Hl] Hv. unfold strptime. by rewrite Hl, Hv. Qed.

Lemma strptime_nil fmt s : fmt s = [] → strptime fmt s = None.
Proof. intros Hl. unfold strptime. by rewrite Hl. Qed.

Lemma digit_val_range c v :
  digit_val c = Some v → 48 ≤ nat_of_ascii c ≤ 57 ∧ v = nat_of_ascii c - 48.
Proof.
  unfold digit_val.
  destruct (48 <=? nat_of_ascii c) eqn:H1; [|done].
  destruct (nat_of_ascii c <=? 57) eqn:H2; [|done].
  apply Nat.leb_le in H1, H2. intros [= <-]. lia.
Qed.

Lemma digit_not_space c v : digit_val c = Some v → PyStr.is_space c = false.
Proof.
  intros [Hr _]%digit_val_range. unfold PyStr.is_space. cbv zeta.
  apply orb_false_iff. split; apply andb_false_iff.
  - right. apply Nat.leb_gt. lia.
  - right. apply Nat.leb_gt. lia.
Qed.

Lemma digit_not_lit c v (x : ascii) :
  digit_val c = Some v → digit_val x = None → Ascii.eqb c x = false.
Proof. intros Hc Hx. destruct (Ascii.eqb_spec c x) as [->|]; [congruence|done]. Qed.

Lemma p_digit_any c v r : digit_val c = Some v → p_digit 0 9 (String c r) = [(v, r)].
Proof.
  intros Hc. pose proof (digit_val_range _ _ Hc) as [Hr ->].
  unfold p_digit. rewrite Hc. cbn [Nat.leb andb].
  replace (nat_of_ascii c - 48 <=? 9) with true; [done|].
  symmetry. apply Nat.leb_le. lia.
Qed.

(** *** The year *)

Lemma year_chars_all : forallb year_chars_ok (seq 0 10000) = true.
Proof. by vm_compute. Qed.

Lemma year_shape y :
  y ≤ 9999 →
  ∃ a b c d va vb vc vd,
    PyStr.fmt_0d 4 y = String a (String b (String c (String d "")))
    ∧ digit_val a = Some va ∧ digit_val b = Some vb
    ∧ digit_val c = Some vc ∧ digit_val d = Some vd
    ∧ y = 1000 * va + 100 * vb + 10 * vc + vd.
Proof.
  intros Hy. pose proof year_chars_all as Hall.
  rewrite forallb_forall in Hall. specialize (Hall y).
  assert (Hin : In y (seq 0 10000)).
  { apply in_seq. change (0 + 10000) with (S 9999). lia. }
  apply Hall in Hin. unfold year_chars_ok in Hin.
  destruct (PyStr.fmt_0d 4 y) as [|a [|b [|c [|d [|]]]]]; try done.
  destruct (digit_val a) as [va|] eqn:Ha; [|done].
  destruct (digit_val b) as [vb|] eqn:Hb; [|done].
  destruct (digit_val c) as [vc|] eqn:Hc; [|done].
  destruct (digit_val d) as [vd|] eqn:Hd; [|done].
  apply Nat.eqb_eq in Hin. exists a, b, c, d, va, vb, vc, vd. by repeat split.
Qed.

Lemma p_year_digits a b c d va vb vc vd r :
  digit_val a = Some va → digit_val b = Some vb →
  digit_val c = Some vc → digit_val d = Some vd →
  p_year (String a (String b (String c (String d r))))
  = [(1000 * va + 100 * vb + 10 * vc + vd, r)].
Proof.
  intros Ha Hb Hc Hd. unfold p_year, p_bind, p_ret.
  rewrite (p_digit_any a va) by done. cbn [flat_map fst snd].
  rewrite (p_digit_any b vb) by done. cbn [flat_map fst snd].
  rewrite (p_digit_any c vc) by done. cbn [flat_map fst snd].
  rewrite (p_digit_any d vd) by done. cbn [flat_map fst snd app]. done.
Qed.

Lemma starts_year y r :
  y ≤ 9999 → starts p_year (PyStr.fmt_0d 4 y +:+ r) y r.
Proof.
  intros (a & b & c & d & va & vb & vc & vd & -> & Ha & Hb & Hc & Hd & ->)%year_shape.
  str_simpl. unfold starts. rewrite (p_year_digits a b c d va vb vc vd) by done.
  by eexists.
Qed.

(** *** Day and month *)

Lemma starts_day dd r :
  1 ≤ dd ≤ 31 → starts p_day (PyStr.fmt_0d 2 dd +:+ r) dd r.
Proof.
  intros Hd.
  do 32 (destruct dd as [|dd]; [first [lia | by eexists]|]). lia.
Qed.

Lemma starts_month m r :
  1 ≤ m ≤ 12 → starts p_month (PyStr.fmt_0d 2 m +:+ r) m r.
Proof.
  intros Hm.
  do 13 (destruct m as [|m]; [first [lia | by eexists]|]). lia.
Qed.

Lemma starts_month_abbr m r :
  1 ≤ m ≤ 12 → starts p_month_abbr (nth (m - 1) month_abbr "" +:+ r) m r.
Proof.
  intros Hm.
  do 13 (destruct m as [|m]; [first [lia | by eexists]|]). lia.
Qed.

Lemma starts_space c r :
  PyStr.is_space c = false → starts p_spaces (String " " (String c r)) tt (String c r).
Proof. intros Hc. unfold starts, p_spaces. cbn. rewrite Hc. by eexists. Qed.

Lemma starts_space_month m r :
  1 ≤ m ≤ 12 →
  starts p_spaces (" " +:+ nth (m - 1) month_abbr "" +:+ r) tt
    (nth (m - 1) month_abbr "" +:+ r).
Proof.
  intros Hm.
  do 13 (destruct m as [|m]; [first [lia | by apply starts_space]|]). lia.
Qed.

Lemma two_digit_shape n :
  n ≤ 31 →
  ∃ a b va vb,
    PyStr.fmt_0d 2 n = String a (String b "")
    ∧ digit_val a = Some va ∧ digit_val b = Some vb.
Proof.
  intros Hn.
  do 32 (destruct n as [|n]; [by eexists _, _, _, _|]). lia.
Qed.

(** *** Formats that do not fit *)

(** [%d] uses one or two characters. *)
Lemma p_day_consumes a b r v r' :
  (v, r') ∈ p_day (String a (String b r)) → r' = String b r ∨ r' = r.
Proof.
  unfold p_day, p_alt, p_bind, p_ret, p_digit, p_lit. cbn [flat_map fst snd app].
  rewrite !app_nil_r.
  repeat (match goal with
          | |- context [match ?x with _ => _ end] => destruct x eqn:?
          end; cbn [flat_map fst snd app]);
    rewrite ?elem_of_app, ?elem_of_cons, ?elem_of_nil; intuition congruence.
Qed.

Lemma fmt_dmY_needs_slash a b c r :
  Ascii.eqb b "/" = false → Ascii.eqb c "/" = false →
  fmt_dmY (String a (String b (String c r))) = [].
Proof.
  intros Hb Hc. unfold fmt_dmY. unfold p_bind at 1.
  assert (Hall : ∀ x, x ∈ p_day (String a (String b (String c r))) →
                      x.2 = String b (String c r) ∨ x.2 = String c r).
  { intros [v r']. apply p_day_consumes. }
  induction (p_day (String a (String b (String c r)))) as [|x l IH]; [done|].
  cbn [flat_map]. rewrite IH by (intros y Hy; apply Hall; by right).
  rewrite app_nil_r. unfold p_bind at 1, p_lit.
  destruct (Hall x) as [->| ->]; [by left|..]; by rewrite ?Hb, ?Hc.
Qed.

Lemma fmt_dmY_rejects_day_space dd r :
  1 ≤ dd ≤ 31 → fmt_dmY (PyStr.fmt_0d 2 dd +:+ String " " r) = [].
Proof.
  intros Hd. do 32 (destruct dd as [|dd]; [first [lia | done]|]). lia.
Qed.

Lemma fmt_Ymd_rejects_day_space dd r :
  1 ≤ dd ≤ 31 → fmt_Ymd (PyStr.fmt_0d 2 dd +:+ String " " r) = [].
Proof.
  intros Hd. do 32 (destruct dd as [|dd]; [first [lia | done]|]). lia.
Qed.

(** *** White space around a notation *)

Lemma rstrip_cons c s : s ≠ "" → PyStr.rstrip s = s → PyStr.rstrip (String c s) = String c s.
Proof. intros Hne Hs. cbn. rewrite Hs. by destruct s. Qed.

Lemma rstrip_last c : PyStr.is_space c = false → PyStr.rstrip (String c "") = String c "".
Proof. intros Hc. cbn. by rewrite Hc. Qed.

Lemma strip_cons c s :
  PyStr.is_space c = false → s ≠ "" → PyStr.rstrip s = s →
  PyStr.strip (String c s) = String c s.
Proof.
  intros Hc Hne Hs. unfold PyStr.strip. cbn [PyStr.lstrip]. rewrite Hc.
  by apply rstrip_cons.
Qed.

Lemma valid_date_bounds d :
  valid_date d = true →
  1 ≤ year d ≤ 9999 ∧ 1 ≤ month d ≤ 12 ∧ 1 ≤ day d ≤ 31.
Proof.
  unfold valid_date. rewrite !andb_true_iff, !Nat.leb_le.
  intros [[[[[? ?] ?] ?] ?] Hd].
  assert (days_in_month (year d) (month d) ≤ 31).
  { unfold days_in_month. repeat case_match; lia. }
  lia.
Qed.

Ltac rstrip_explicit :=
  repeat (apply rstrip_cons; [done|]);
  apply rstrip_last; by eapply digit_not_space.

Lemma parse_dmY d : valid_date d = true → _parse_input_date (strftime_dmY d) = Some d.
Proof.
  intros Hv. destruct (valid_date_bounds d Hv) as (Hy & Hm & Hd).
  assert (Hst : starts fmt_dmY (strftime_dmY d) d "").
  { destruct d as [y m dd]. cbn [year month day] in *. unfold fmt_dmY, strftime_dmY.
    cbn [year month day].
    eapply starts_bind; [by apply starts_day|].
    eapply starts_bind; [apply starts_lit|].
    eapply starts_bind; [by apply starts_month|].
    eapply starts_bind; [apply starts_lit|].
    eapply starts_bind; [|apply starts_ret].
    rewrite <- (str_app_nil_r (PyStr.fmt_0d 4 y)). apply starts_year. lia. }
  unfold _parse_input_date.
  assert (Hs : PyStr.truthy (strftime_dmY d) = true ∧ PyStr.strip (strftime_dmY d) = strftime_dmY d).
  { unfold strftime_dmY.
    destruct (two_digit_shape (day d)) as (a1 & b1 & ? & ? & -> & Ha1 & _); [lia|].
    destruct (two_digit_shape (month d)) as (a2 & b2 & ? & ? & -> & _ & _); [lia|].
    destruct (year_shape (year d)) as (a & b & c & e & ? & ? & ? & ? & -> & _ & _ & _ & He & _);
      [lia|].
    str_simpl. split; [done|].
    apply strip_cons; [by eapply digit_not_space|done|]. rstrip_explicit. }
  destruct Hs as [-> ->]. cbn [negb].
  by rewrite (strptime_starts _ _ d).
Qed.

Lemma parse_iso d : valid_date d = true → _parse_input_date (str_date d) = Some d.
Proof.
  intros Hv. destruct (valid_date_bounds d Hv) as (Hy & Hm & Hd).
  assert (Hst : starts fmt_Ymd (str_date d) d "").
  { destruct d as [y m dd]. cbn [year month day] in *. unfold fmt_Ymd, str_date.
    cbn [year month day].
    eapply starts_bind; [apply starts_year; lia|].
    eapply starts_bind; [apply starts_lit|].
    eapply starts_bind; [by apply starts_month|].
    eapply starts_bind; [apply starts_lit|].
    eapply starts_bind; [|apply starts_ret].
    rewrite <- (str_app_nil_r (PyStr.fmt_0d 2 dd)). by apply starts_day. }
  unfold _parse_input_date.
  assert (Hs : PyStr.truthy (str_date d) = true ∧ PyStr.strip (str_date d) = str_date d
               ∧ fmt_dmY (str_date d) = []).
  { unfold str_date.
    destruct (two_digit_shape (day d)) as (a1 & b1 & ? & ? & -> & _ & Hb1); [lia|].
    destruct (two_digit_shape (month d)) as (a2 & b2 & ? & ? & -> & _ & _); [lia|].
    destruct (year_shape (year d)) as (a & b & c & e & ? & ? & ? & ? & -> & Ha & Hb & Hc & _ & _);
      [lia|].
    str_simpl. split; [done|]. split.
    - apply strip_cons; [by eapply digit_not_space|done|]. rstrip_explicit.
    - apply fmt_dmY_needs_slash; by eapply digit_not_lit. }
  destruct Hs as (-> & -> & Hno). cbn [negb].
  rewrite (strptime_nil fmt_dmY) by done.
  by rewrite (strptime_starts _ _ d).
Qed.

Lemma parse_dbY d : valid_date d = true → _parse_input_date (strftime_dbY d) = Some d.
Proof.
  intros Hv. destruct (valid_date_bounds d Hv) as (Hy & Hm & Hd).
  destruct (year_shape (year d)) as (a & b & c & e & va & vb & vc & vd & HY & Ha & Hb & Hc & He & Hval);
    [lia|].
  assert (Hst : starts fmt_dbY (strftime_dbY d) d "").
  { destruct d as [y m dd]. cbn [year month day] in *. unfold fmt_dbY, strftime_dbY.
    cbn [year month day].
    eapply starts_bind; [by apply starts_day|].
    eapply starts_bind; [by apply starts_space_month|].
    eapply starts_bind; [by apply starts_month_abbr|].
    eapply starts_bind.
    { rewrite HY. str_simpl. apply starts_space. by eapply digit_not_space. }
    eapply starts_bind; [|apply starts_ret].
    rewrite <- HY. rewrite <- (str_app_nil_r (PyStr.fmt_0d 4 y)). apply starts_year. lia. }
  unfold _parse_input_date.
  assert (Hs : PyStr.truthy (strftime_dbY d) = true
               ∧ PyStr.strip (strftime_dbY d) = strftime_dbY d).
  { unfold strftime_dbY. rewrite HY.
    destruct (two_digit_shape (day d)) as (a1 & b1 & ? & ? & -> & Ha1 & _); [lia|].
    clear Hv Hst.
    destruct d as [y m dd]. cbn [year month day] in *.
    do 13 (destruct m as [|m];
           [first [lia | split; [done|];
              apply strip_cons; [by eapply digit_not_space|done|]; rstrip_explicit]|]).
    lia. }
  destruct Hs as [-> ->]. cbn [negb].
  rewrite (strptime_nil fmt_dmY) by (by apply fmt_dmY_rejects_day_space).
  rewrite (strptime_nil fmt_Ymd) by (by apply fmt_Ymd_rejects_day_space).
  by rewrite (strptime_starts _ _ d).
Qed.

End ParseFacts.

(** ** The catalog *)

Lemma date_leb_iff a b :
  date_leb a b = true ↔
  year a < year b ∨ (year a = year b ∧ (month a < month b ∨ (month a = month b ∧ day a ≤ day b))).
Proof.
  unfold date_leb.
  rewrite orb_true_iff, andb_true_iff, orb_true_iff, andb_true_iff,
    !Nat.ltb_lt, !Nat.eqb_eq, Nat.leb_le. done.
Qed.

Lemma date_leb_total a b : date_leb a b = false → date_leb b a = true.
Proof.
  intros H. apply date_leb_iff. apply not_true_iff_false in H.
  rewrite date_leb_iff in H. lia.
Qed.

Lemma date_leb_trans a b c : date_leb a b = true → date_leb b c = true → date_leb a c = true.
Proof. rewrite !date_leb_iff. lia. Qed.

Lemma date_leb_refl a : date_leb a a = true.
Proof. apply date_leb_iff. lia. Qed.

Lemma insert_desc_perm x l : insert_desc x l ≡ₚ x :: l.
Proof.
  induction l as [|y l IH]; cbn; [done|].
  destruct (date_ltb x.1 y.1); [|done]. rewrite IH. apply Permutation_swap.
Qed.

Lemma insert_desc_sorted x l : sorted_desc l → sorted_desc (insert_desc x l).
Proof.
  induction 1 as [|y l Hb Hs IH]; cbn.
  - repeat constructor.
  - unfold date_ltb. destruct (date_leb y.1 x.1) eqn:Hle; cbn.
    + constructor; [|by constructor]. constructor; [done|].
      eapply Forall_impl; [exact Hb|]. cbn. intros z Hz. by eapply date_leb_trans.
    + constructor; [|done]. unfold below. rewrite insert_desc_perm.
      constructor; [|done]. by apply date_leb_total.
Qed.

Lemma sort_desc_perm l : sort_desc l ≡ₚ l.
Proof. induction l as [|x l IH]; cbn; [done|]. by rewrite insert_desc_perm, IH. Qed.

Lemma sort_desc_sorted l : sorted_desc (sort_desc l).
Proof. induction l as [|x l IH]; cbn; [constructor|]. by apply insert_desc_sorted. Qed.

Lemma with_keys_spec items w :
  match with_keys items w with
  | (Ok keyed, w') =>
      w' = w ∧ map snd keyed = items ∧ Forall (λ x, item_day x.2 = Some x.1) keyed
  | (Raise _, w') => w' = w ∧ ¬ Forall (λ i, is_Some (item_day i)) items
  end.
Proof.
  induction items as [|i items IH]; cbn; [by repeat split|].
  unfold bind at 1, item_date, item_get, _parse_item_date. unfold bind at 1.
  assert (Hday : item_day i = (i !! "Date") ≫= Strptime.strptime Strptime.fmt_dbY) by done.
  destruct (i !! "Date") as [s|]; cbn in *.
  2: { split; [done|]. intros [[? Hd] _]%Forall_cons. by rewrite Hday in Hd. }
  destruct (Strptime.strptime Strptime.fmt_dbY s) as [d|]; cbn.
  2: { split; [done|]. intros [[? Hd] _]%Forall_cons. by rewrite Hday in Hd. }
  unfold bind at 1. destruct (with_keys items w) as [[keyed|e] w'].
  - destruct IH as (-> & <- & HF). cbn. repeat split; try done. by constructor.
  - destruct IH as (-> & HF). split; [done|]. by intros [_ ?]%Forall_cons.
Qed.

Section CatalogFacts.
Variable E : Env.

(** What [_available_items] returns: the feed items that carry a date and
    a key, most recent first. *)
Lemma available_items_spec w items w' :
  _available_items E w = (Ok items, w') →
  w' = w ∧
  ∃ raw keyed,
    api_items E = Ok raw
    ∧ items = map snd keyed
    ∧ items ≡ₚ List.filter has_date_and_key raw
    ∧ sorted_desc keyed
    ∧ Forall (λ x, item_day x.2 = Some x.1) keyed.
Proof.
  unfold _available_items, bind at 1, lift.
  destruct (api_items E) as [raw|e]; [|done].
  unfold bind at 1.
  pose proof (with_keys_spec (List.filter has_date_and_key raw) w) as Hk.
  destruct (with_keys _ w) as [[keyed|e] w1]; [|done].
  destruct Hk as (-> & Hmap & HF). cbn. intros [= <- <-]. split; [done|].
  exists raw, (sort_desc keyed). repeat split; try done.
  - rewrite <- Hmap. by rewrite sort_desc_perm.
  - apply sort_desc_sorted.
  - by rewrite sort_desc_perm.
Qed.
End CatalogFacts.

Lemma pick_Some t acc items i :
  pick t acc items = Some i → (i ∈ items ∧ item_day i = Some t) ∨ acc = Some i.
Proof.
  revert acc. induction items as [|j items IH]; intros acc; cbn; [by right|].
  intros [[Hin Hd]|Hacc]%IH.
  - left. split; [by right|done].
  - case_decide; [|by right]. injection Hacc as <-. left. split; [by left|done].
Qed.

Lemma pick_None t acc items :
  pick t acc items = None → acc = None ∧ ∀ i, i ∈ items → item_day i ≠ Some t.
Proof.
  revert acc. induction items as [|j items IH]; intros acc; cbn.
  - intros ->. split; [done|]. by intros i ?%elem_of_nil.
  - intros [Hacc Hall]%IH. case_decide; [done|]. split; [done|].
    intros i [->|Hin]%elem_of_cons; [done|by apply Hall].
Qed.

Lemma by_date_from_spec m items w :
  all_dated items →
  ∃ m', by_date_from m items w = (Ok m', w) ∧ ∀ t, m' !! t = pick t (m !! t) items.
Proof.
  intros Hall. revert m. induction Hall as [|i items [d Hd] _ IH]; intros m;
    cbn [by_date_from pick].
  - by exists m.
  - unfold bind at 1, item_date, item_get, _parse_item_date. unfold bind at 1.
    pose proof Hd as Hd'. unfold item_day in Hd'.
    destruct (i !! "Date") as [s|]; [|done]. cbn [mbind option_bind] in Hd'.
    unfold ret at 1. rewrite Hd'. unfold ret at 1.
    destruct (IH (<[d := i]> m)) as (m' & -> & Hm'). exists m'. split; [done|].
    intros t. rewrite Hm', Hd. f_equal.
    destruct (decide (d = t)) as [->|Hne].
    + rewrite lookup_insert_eq. by rewrite decide_True.
    + rewrite lookup_insert_ne by done. rewrite decide_False; [done|congruence].
Qed.

Lemma dates_of_spec items w :
  all_dated items → dates_of items w = (Ok (date_fields items), w).
Proof.
  induction 1 as [|i items [d Hd] _ IH]; [done|].
  cbn [dates_of]. unfold date_fields. cbn [omap list_omap]. fold (date_fields items).
  unfold bind at 1, item_get. unfold item_day in Hd.
  destruct (i !! "Date") as [s|]; [|done]. unfold ret at 1. unfold bind at 1. by rewrite IH.
Qed.

Lemma select_item_spec items target w :
  all_dated items →
  _select_item_for_date items target w =
  match items, target with
  | [], _ => (Ok None, w)
  | first :: _, None => (Ok (Some first), w)
  | _ :: _, Some t =>
      match pick t None items with
      | Some i => (Ok (Some i), w)
      | None =>
          (Ok None,
           add_log (LogDateNotAvailable t (PyStr.join ", " (date_fields (take 10 items)))) w)
      end
  end.
Proof.
  intros Hall. unfold _select_item_for_date.
  destruct items as [|first items]; [done|]. destruct target as [t|]; [|done].
  unfold bind at 1. destruct (by_date_from_spec ∅ (first :: items) w Hall) as (m' & -> & Hm').
  rewrite Hm', lookup_empty. destruct (pick t None (first :: items)); [done|].
  unfold bind at 1, _summarize_available_dates. unfold bind at 1.
  rewrite dates_of_spec; [done|]. by apply Forall_take.
Qed.

Lemma sorted_desc_head_max x l :
  sorted_desc (x :: l) → ∀ y, y ∈ x :: l → date_leb y.1 x.1 = true.
Proof.
  inversion 1 as [|? ? Hb Hs]; subst. intros y [->|Hy]%elem_of_cons.
  - apply date_leb_refl.
  - unfold below in Hb. rewrite Forall_forall in Hb. by apply Hb.
Qed.

(** C8, counterexample. With eleven days on offer and a target that is none
    of them, the report names ten days and leaves out the oldest. *)
Lemma no_match_reports_all_dates_fails :
  let t := mkdate 2024 3 20 in
  let r := _select_item_for_date eleven_days (Some t) empty_world in
  r.1 = Ok None
  ∧ logs r.2 =
      [LogDateNotAvailable t
         "11 Mar 2024, 10 Mar 2024, 09 Mar 2024, 08 Mar 2024, 07 Mar 2024, 06 Mar 2024, 05 Mar 2024, 04 Mar 2024, 03 Mar 2024, 02 Mar 2024"]
  ∧ march_item 1 ∈ eleven_days
  ∧ ¬ no_match_reports_all_dates.
Proof.
  cbv zeta. do 2 (split; [by_compute|]).
  split; [by_compute|].
  intros Hclaim.
  specialize (Hclaim eleven_days (mkdate 2024 3 20) empty_world).
  assert (Hlog : logs (_select_item_for_date eleven_days (Some (mkdate 2024 3 20)) empty_world).2
                 = logs (add_log (LogDateNotAvailable (mkdate 2024 3 20)
                                    (PyStr.join ", " (date_fields eleven_days))) empty_world)).
  { rewrite Hclaim; [done|..].
    - by_compute.
    - done.
    - assert (HF : Forall (λ i, item_day i ≠ Some (mkdate 2024 3 20)) eleven_days).
      { by_compute. }
      rewrite Forall_forall in HF. intros i Hi. by apply HF. }
  revert Hlog. by_compute.
Qed.

(** C8, as the code has it. The items that [_available_items] returns are
    the feed's entries that have a date and a key, in descending order of
    their parsed dates. With no target the selection is the first of them,
    whose day no other item exceeds. A valid calendar date written
    day/month/year, in ISO notation or as "DD Mon YYYY" parses to that date. A
    target selects an item exactly when the date field of an item parses to
    it, and the selected item is such an item. When no item matches, the
    answer is none and the log names the dates of the first ten items only. *)
Theorem select_resolves_dates (E : Env) (w : world) (items : list Item) :
  _available_items E w = (Ok items, w) →
  (∃ raw, api_items E = Ok raw ∧ items ≡ₚ List.filter has_date_and_key raw)
  ∧ all_dated items
  ∧ (∀ first rest, items = first :: rest →
       _select_item_for_date items None w = (Ok (Some first), w)
       ∧ ∀ i, i ∈ items →
           ∃ d d0, item_day i = Some d ∧ item_day first = Some d0 ∧ date_leb d d0 = true)
  ∧ (∀ d, valid_date d = true →
       _parse_input_date (strftime_dmY d) = Some d
       ∧ _parse_input_date (str_date d) = Some d
       ∧ _parse_input_date (Strptime.strftime_dbY d) = Some d)
  ∧ (∀ t i w', _select_item_for_date items (Some t) w = (Ok (Some i), w') →
       w' = w ∧ i ∈ items ∧ item_day i = Some t)
  ∧ (∀ t i, i ∈ items → item_day i = Some t →
       ∃ j, _select_item_for_date items (Some t) w = (Ok (Some j), w))
  ∧ (∀ t, items ≠ [] → (∀ i, i ∈ items → item_day i ≠ Some t) →
       _select_item_for_date items (Some t) w
       = (Ok None,
          add_log (LogDateNotAvailable t (PyStr.join ", " (date_fields (take 10 items)))) w)).
Proof.
  intros Hav. apply available_items_spec in Hav as (_ & raw & keyed & Hraw & -> & Hperm & Hsort & Hkeys).
  assert (Hall : all_dated (map snd keyed)).
  { unfold all_dated. rewrite Forall_map. eapply Forall_impl; [exact Hkeys|].
    cbn. intros x ->. by eexists. }
  split; [by exists raw|]. split; [done|]. split.
  { intros first rest Hit. split; [by rewrite Hit|].
    destruct keyed as [|x keyed]; [done|]. injection Hit as <- <-.
    intros i (y & <- & Hy%list_elem_of_In)%list_elem_of_In%in_map_iff.
    rewrite Forall_forall in Hkeys.
    exists y.1, x.1. split; [by apply Hkeys|]. split; [apply Hkeys; by left|].
    by apply (sorted_desc_head_max x keyed). }
  split.
  { intros d Hd. split; [by apply ParseFacts.parse_dmY|].
    split; [by apply ParseFacts.parse_iso|by apply ParseFacts.parse_dbY]. }
  split.
  { intros t i w'. rewrite select_item_spec by done.
    destruct (map snd keyed) as [|first rest] eqn:Hit; [done|].
    destruct (pick t None (first :: rest)) as [j|] eqn:Hp; [|done].
    intros [= <- <-]. by apply pick_Some in Hp as [[? ?]|?]. }
  split.
  { intros t i Hi Hd. rewrite select_item_spec by done.
    destruct (map snd keyed) as [|first rest] eqn:Hit; [by apply elem_of_nil in Hi|].
    destruct (pick t None (first :: rest)) as [j|] eqn:Hp; [by exists j|].
    apply pick_None in Hp as [_ Hp]. by destruct (Hp i Hi). }
  intros t Hne Hno. rewrite select_item_spec by done.
  destruct (map snd keyed) as [|first rest] eqn:Hit; [done|].
  destruct (pick t None (first :: rest)) as [j|] eqn:Hp; [|done].
  apply pick_Some in Hp as [[Hj Hd]|?]; [|done]. by destruct (Hno j Hj).
Qed.

(** The example of the specification: two days on offer. *)
Lemma select_resolves_dates_witness :
  let E := demo_env NoFault in
  _select_item_for_date [demo_item; demo_item_old] None empty_world
  = (Ok (Some demo_item), empty_world)
  ∧ _select_item_for_date [demo_item; demo_item_old] (target_of (Some "2024-03-05")) empty_world
    = (Ok None,
       add_log (LogDateNotAvailable (mkdate 2024 3 5) "07 Mar 2024, 06 Mar 2024") empty_world).
Proof.
  cbv zeta.
  assert (Hav : _available_items (demo_env NoFault) empty_world
                = (Ok [demo_item; demo_item_old], empty_world)) by by_compute.
  destruct (select_resolves_dates _ _ _ Hav) as (_ & _ & Hnone & _ & _ & _ & Hmiss).
  split; [by apply (Hnone demo_item [demo_item_old])|].
  change (target_of (Some "2024-03-05")) with (Some (mkdate 2024 3 5)).
  apply (Hmiss (mkdate 2024 3 5)); [done|].
  assert (HF : Forall (λ i, item_day i ≠ Some (mkdate 2024 3 5)) [demo_item; demo_item_old]).
  { by_compute. }
  rewrite Forall_forall in HF. exact HF.
Defined.

(** C10. A target string that [_parse_input_date] reads in none of its three
    notations becomes no target: the run is the run without a target, and the
    selection is the first item of the catalog, or none when it is empty,
    with nothing logged. *)
Theorem unparseable_target_selects_latest (E : Env) (s : string) (w : world) :
  _parse_input_date s = None →
  target_of (Some s) = None
  ∧ download_all_files E (Some s) w = download_all_files E None w
  ∧ ∀ items, _select_item_for_date items (target_of (Some s)) w = (Ok (head items), w).
Proof.
  intros Hs.
  assert (Ht : target_of (Some s) = None).
  { unfold target_of. rewrite Hs. by destruct (PyStr.truthy s). }
  split; [done|]. split.
  - unfold download_all_files. by rewrite Ht.
  - intros items. rewrite Ht. by destruct items.
Qed.

(** A target that is no date selects the most recent day. *)
Lemma unparseable_target_selects_latest_witness :
  download_all_files (demo_env NoFault) (Some "garbage") empty_world
  = download_all_files (demo_env NoFault) None empty_world.
Proof.
  refine (proj1 (proj2 (unparseable_target_selects_latest (demo_env NoFault) "garbage"
                          empty_world _))).
  by_compute.
Defined.

(** ** Paths *)

Lemma chars_app a b : chars (a +:+ b) = chars a ++ chars b.
Proof. induction a as [|c a IH]; str_simpl; cbn; congruence. Qed.

Lemma chars_inj a b : chars a = chars b → a = b.
Proof.
  intros H. rewrite <- (string_of_list_ascii_of_string a), H.
  apply string_of_list_ascii_of_string.
Qed.

Lemma str_app_inv_head x a b : x +:+ a = x +:+ b → a = b.
Proof. induction x as [|c x IH]; str_simpl; [done|]. intros [= ?]. auto. Qed.

Lemma startswith_spec s p : PyStr.startswith s p = true ↔ ∃ r, s = p +:+ r.
Proof.
  unfold PyStr.startswith. revert s. induction p as [|a p IH]; intros [|b s]; cbn.
  - split; [intros _; by exists ""|done].
  - split; [intros _; by exists (String b s)|done].
  - split; [done|]. intros [r Hr]. by rewrite str_app_cons in Hr.
  - destruct (ascii_dec a b) as [->|Hne].
    + rewrite IH. split; intros [r Hr]; exists r; rewrite ?str_app_cons in *; congruence.
    + split; [done|]. intros [r Hr]. rewrite str_app_cons in Hr. congruence.
Qed.

Lemma startswith_app x s p : PyStr.startswith (x +:+ s) (x +:+ p) = PyStr.startswith s p.
Proof.
  unfold PyStr.startswith. induction x as [|c x IH]; str_simpl; [done|]. cbn.
  by destruct (ascii_dec c c).
Qed.

Lemma endswith_spec s suf : PyStr.endswith s suf = true ↔ ∃ p, s = p +:+ suf.
Proof.
  induction s as [|a s IH]; cbn [PyStr.endswith].
  - rewrite orb_false_r, String.eqb_eq. split.
    + intros <-. by exists "".
    + intros [p Hp]. destruct p; [|by rewrite str_app_cons in Hp].
      by rewrite str_app_nil_l in Hp.
  - rewrite orb_true_iff, IH, String.eqb_eq. split.
    + intros [->|[p ->]]; [by exists ""|]. by exists (String a p).
    + intros [[|b p] Hp]; [by left|]. right. exists p. rewrite str_app_cons in Hp. congruence.
Qed.

Lemma endswith_char s c :
  PyStr.endswith s (String c "") = true ↔ last (chars s) = Some c.
Proof.
  rewrite endswith_spec. split.
  - intros [p ->]. rewrite chars_app. cbn. by rewrite last_snoc.
  - intros Hl. apply last_Some in Hl as [l Hl].
    exists (string_of_list_ascii l). apply chars_inj.
    by rewrite chars_app, list_ascii_of_string_of_list_ascii.
Qed.

Lemma endswith_char_app a b c :
  b ≠ "" → PyStr.endswith (a +:+ b) (String c "") = PyStr.endswith b (String c "").
Proof.
  intros Hb. apply eq_true_iff_eq. rewrite !endswith_char, chars_app, last_app.
  destruct (last (chars b)) eqn:Hl; [done|].
  apply last_None in Hl. destruct b; done.
Qed.

Lemma join2_relative a b :
  PyStr.startswith b "/" = false → OsPath.join2 a b = dir_prefix a +:+ b.
Proof.
  intros Hb. unfold OsPath.join2, dir_prefix. rewrite Hb.
  destruct (negb (PyStr.truthy a) || PyStr.endswith a "/"); [done|].
  by rewrite str_app_assoc.
Qed.

Lemma dir_prefix_proper a : proper_dir a = true → dir_prefix a = a +:+ "/".
Proof.
  unfold proper_dir, dir_prefix. intros [Ht He]%andb_true_iff.
  rewrite Ht. apply negb_true_iff in He. by rewrite He.
Qed.

(** *** Decimal numerals *)

Lemma string_of_uint_digits d : Forall is_digit (chars (NilEmpty.string_of_uint d)).
Proof. induction d; cbn; constructor; try done; by eexists. Qed.

Lemma str_nat_digits n : Forall is_digit (chars (PyStr.str_nat n)).
Proof. apply string_of_uint_digits. Qed.

Lemma str_nat_nonempty n : PyStr.str_nat n ≠ "".
Proof.
  unfold PyStr.str_nat. intros H.
  assert (Hn : Nat.to_uint n = Decimal.Nil).
  { destruct (Nat.to_uint n); cbn in H; congruence. }
  pose proof (Unsigned.of_to n) as Hof. rewrite Hn in Hof. cbn in Hof. subst n. done.
Qed.

Lemma str_nat_inj n m : PyStr.str_nat n = PyStr.str_nat m → n = m.
Proof.
  unfold PyStr.str_nat. intros H. apply Unsigned.to_uint_inj.
  pose proof (NilEmpty.usu (Nat.to_uint n)) as Hn.
  pose proof (NilEmpty.usu (Nat.to_uint m)) as Hm. congruence.
Qed.

Lemma digit_last s :
  s ≠ "" → Forall is_digit (chars s) → PyStr.endswith s "/" = false.
Proof.
  intros Hne Hd. apply not_true_iff_false. rewrite endswith_char. intros Hl.
  apply last_Some_elem_of in Hl. rewrite Forall_forall in Hd. by destruct (Hd _ Hl).
Qed.

Lemma chars_length s : length (chars s) = String.length s.
Proof. induction s; cbn; congruence. Qed.

Lemma str_app_inj_tail a1 b1 a2 b2 :
  String.length b1 = String.length b2 → a1 +:+ b1 = a2 +:+ b2 → a1 = a2 ∧ b1 = b2.
Proof.
  intros Hlen Heq. apply (f_equal chars) in Heq. rewrite !chars_app in Heq.
  apply app_inj_2 in Heq as [H1 H2]; [|by rewrite !chars_length].
  split; by apply chars_inj.
Qed.

Lemma str_app_inj_head a1 b1 a2 b2 :
  String.length a1 = String.length a2 → a1 +:+ b1 = a2 +:+ b2 → a1 = a2 ∧ b1 = b2.
Proof.
  intros Hlen Heq. apply (f_equal chars) in Heq. rewrite !chars_app in Heq.
  apply app_inj_1 in Heq as [H1 H2]; [|by rewrite !chars_length].
  split; by apply chars_inj.
Qed.

(** Two strings that end in a numeral after the same mark agree on the
    numeral and on what precedes the mark. *)
Lemma numeral_suffix_inj (c : ascii) (a1 a2 l1 l2 : list ascii) :
  ¬ is_digit c → Forall is_digit l1 → Forall is_digit l2 →
  a1 ++ c :: l1 = a2 ++ c :: l2 → a1 = a2 ∧ l1 = l2.
Proof.
  intros Hc H1 H2. revert a2. induction a1 as [|x a1 IH]; intros [|y a2]; cbn.
  - intros [= ?]. done.
  - intros [= -> ->]. rewrite Forall_app, Forall_cons in H1. tauto.
  - intros [= -> <-]. rewrite Forall_app, Forall_cons in H2. tauto.
  - intros [= -> Heq]. destruct (IH _ Heq) as [-> ->]. done.
Qed.

Lemma fmt2_decode n :
  n ≤ 31 →
  String.length (PyStr.fmt_0d 2 n) = 2
  ∧ Nat.of_uint <$> NilEmpty.uint_of_string (PyStr.fmt_0d 2 n) = Some n
  ∧ Forall is_digit (chars (PyStr.fmt_0d 2 n)).
Proof.
  intros Hn.
  do 32 (destruct n as [|n];
         [split; [done|split; [done|repeat constructor; by eexists]]|]).
  lia.
Qed.

Lemma fmt2_inj n m : n ≤ 31 → m ≤ 31 → PyStr.fmt_0d 2 n = PyStr.fmt_0d 2 m → n = m.
Proof.
  intros Hn Hm Heq.
  destruct (fmt2_decode n Hn) as (_ & Hdn & _), (fmt2_decode m Hm) as (_ & Hdm & _).
  rewrite Heq in Hdn. congruence.
Qed.

Lemma truthy_app_r a b : b ≠ "" → PyStr.truthy (a +:+ b) = true.
Proof. intros Hb. destruct a, b; done. Qed.

Lemma proper_tail_app a b : proper_tail b → proper_tail (a +:+ b).
Proof.
  intros [Hb He]. split; [by destruct a, b|]. by rewrite endswith_char_app.
Qed.

Lemma proper_tail_dir b : proper_tail b → proper_dir b = true.
Proof. intros [Hb He]. unfold proper_dir. rewrite He. by destruct b. Qed.

Lemma join2_proper a b :
  proper_dir a = true → PyStr.startswith b "/" = false →
  OsPath.join2 a b = a +:+ "/" +:+ b.
Proof.
  intros Ha Hb. rewrite join2_relative by done.
  by rewrite dir_prefix_proper, str_app_assoc.
Qed.

Section PartitionFacts.
Variable E : Env.

Lemma year_part_tail d : proper_tail (year_part d).
Proof.
  apply proper_tail_app. split; [apply str_nat_nonempty|].
  apply digit_last; [apply str_nat_nonempty|apply str_nat_digits].
Qed.

Lemma fmt2_tail n : n ≤ 31 → proper_tail (PyStr.fmt_0d 2 n).
Proof.
  intros Hn. destruct (fmt2_decode n Hn) as (Hl & _ & Hd).
  assert (PyStr.fmt_0d 2 n ≠ "") by (intros H; by rewrite H in Hl).
  split; [done|]. by apply digit_last.
Qed.

(** The partition directory of a table that is a relative name. *)
Lemma partition_dir_format table d :
  proper_dir (WAREHOUSE_DIR E) = true → relative_name table = true →
  valid_date d = true →
  _partition_dir E table d = WAREHOUSE_DIR E +:+ "/" +:+ partition_rel table d.
Proof.
  intros HW Ht Hv. destruct (ParseFacts.valid_date_bounds d Hv) as (_ & Hm & _).
  apply andb_true_iff in Ht as [[Ht1 Ht2]%andb_true_iff Ht3].
  apply negb_true_iff in Ht2, Ht3.
  assert (Htt : proper_tail table) by (split; [by destruct table|done]).
  unfold _partition_dir, OsPath.join, partition_rel. cbn [fold_left].
  rewrite (join2_proper (WAREHOUSE_DIR E) table) by done.
  rewrite (join2_proper _ (year_part d));
    [|by apply proper_tail_dir; do 2 apply proper_tail_app|done].
  rewrite (join2_proper _ (month_part d));
    [|apply proper_tail_dir; do 2 apply proper_tail_app; apply year_part_tail|done].
  rewrite (join2_proper _ (day_part d));
    [|apply proper_tail_dir; do 3 apply proper_tail_app; apply fmt2_tail; lia|done].
  by rewrite !str_app_assoc.
Qed.

Lemma partition_rel_inj t1 d1 t2 d2 :
  valid_date d1 = true → valid_date d2 = true →
  partition_rel t1 d1 = partition_rel t2 d2 → t1 = t2 ∧ d1 = d2.
Proof.
  intros Hv1 Hv2 Heq.
  destruct (ParseFacts.valid_date_bounds d1 Hv1) as (_ & Hm1 & Hd1).
  destruct (ParseFacts.valid_date_bounds d2 Hv2) as (_ & Hm2 & Hd2).
  assert (Hshape : ∀ t d,
    partition_rel t d =
    ((t +:+ "/year") +:+ String "=" (PyStr.str_nat (year d)))
      +:+ ("/month=" +:+ PyStr.fmt_0d 2 (month d) +:+ "/day=" +:+ PyStr.fmt_0d 2 (day d))).
  { intros t d. unfold partition_rel, year_part, month_part, day_part.
    rewrite !str_app_assoc. by str_simpl. }
  rewrite !Hshape in Heq.
  destruct (fmt2_decode (month d1)) as (Hlm1 & _); [lia|].
  destruct (fmt2_decode (month d2)) as (Hlm2 & _); [lia|].
  destruct (fmt2_decode (day d1)) as (Hld1 & _); [lia|].
  destruct (fmt2_decode (day d2)) as (Hld2 & _); [lia|].
  apply str_app_inj_tail in Heq as [Hhead Htail].
  2: { rewrite !str_length_app, Hlm1, Hlm2, Hld1, Hld2. done. }
  apply str_app_inv_head in Htail.
  apply str_app_inj_head in Htail as [HM Htail]; [|congruence].
  apply str_app_inv_head in Htail.
  apply fmt2_inj in HM; [|lia..]. apply fmt2_inj in Htail; [|lia..].
  apply (f_equal chars) in Hhead. rewrite !chars_app in Hhead. cbn [chars] in Hhead.
  apply numeral_suffix_inj in Hhead as [Ht HY];
    [|by intros [? ?]|apply str_nat_digits..].
  apply chars_inj, str_nat_inj in HY.
  assert (t1 +:+ "/year" = t2 +:+ "/year") as [-> _]%str_app_inj_tail
    by (apply chars_inj; by rewrite !chars_app); [|done].
  split; [done|]. destruct d1, d2; cbn in *; congruence.
Qed.
End PartitionFacts.

(** ** The warehouse *)

Lemma is_dir_false f p :
  Fs.is_dir f p = false ↔ ∀ k, is_Some (f !! k) → OsPath.under p k = false.
Proof.
  unfold Fs.is_dir, Fs.paths. rewrite <- not_true_iff_false, existsb_exists. split.
  - intros Hno k [c Hk]. apply not_true_iff_false. intros Hu. apply Hno. exists k.
    split; [|done]. apply list_elem_of_In, list_elem_of_fmap. exists (k, c).
    split; [done|]. by apply elem_of_map_to_list.
  - intros Hall (k & Hin & Hu).
    apply list_elem_of_In, list_elem_of_fmap in Hin as ([k' c] & -> & Hin).
    apply elem_of_map_to_list in Hin. cbn [fst] in Hu.
    rewrite Hall in Hu; [done|by eexists].
Qed.

Section Distribute.
Variable E : Env.
Variables (table : string) (d : date).
Variables (src dst : string → string).

Lemma move_member_file fn c w :
  fs w !! src fn = Some c → Fs.is_dir (fs w) (dst fn) = false →
  (move_member E table d src dst) fn w
  = (Ok tt,
     mkworld (<[dst fn := c]> (delete (src fn) (fs w))) (db w)
       (s3calls w ++ [(member_upload E table d dst) fn])
       (logs w ++ from_option (λ e, [e]) [] ((member_log E table d dst) fn))).
Proof.
  intros Hs Hd. unfold move_member, bind, shutil_move.
  rewrite (Fs_move_file _ _ _ c) by done.
  unfold upload_warehouse_file, s3_upload, member_upload, member_log.
  cbn [fs set_fs]. unfold Fs.is_file. rewrite lookup_insert_eq.
  rewrite bool_decide_eq_true_2 by (by eexists). cbn [andb].
  destruct (s3_ok E _); cbn; [by rewrite app_nil_r|done].
Qed.

Lemma move_members l w :
  NoDup l →
  (∀ fn, fn ∈ l → is_Some (fs w !! src fn)) →
  (∀ fn, fn ∈ l → Fs.is_dir (fs w) (dst fn) = false) →
  (∀ fn fn', fn ∈ l → fn' ∈ l → dst fn ≠ src fn') →
  (∀ fn fn', fn ∈ l → fn' ∈ l → src fn = src fn' → fn = fn') →
  (∀ fn fn', fn ∈ l → fn' ∈ l → dst fn = dst fn' → fn = fn') →
  (∀ fn fn', fn ∈ l → fn' ∈ l → OsPath.under (dst fn) (dst fn') = false) →
  ∃ w',
    for_each l (move_member E table d src dst) w = (Ok tt, w')
    ∧ db w' = db w
    ∧ s3calls w' = s3calls w ++ map (member_upload E table d dst) l
    ∧ logs w' = logs w ++ omap (member_log E table d dst) l
    ∧ (∀ fn, fn ∈ l → fs w' !! dst fn = fs w !! src fn ∧ fs w' !! src fn = None)
    ∧ (∀ p, (∀ fn, fn ∈ l → p ≠ src fn ∧ p ≠ dst fn) → fs w' !! p = fs w !! p).
Proof.
  intros Hnd. revert w. induction Hnd as [|fn l Hfn Hnd IH];
    intros w Hsrc Hdir Hsep Hisrc Hidst Hnest.
  { exists w. cbn [map omap list_omap]. rewrite !app_nil_r.
    do 4 (split; [done|]). split; [|done]. by intros a ?%elem_of_nil. }
  destruct (Hsrc fn) as [c Hc]; [by left|].
  cbn [for_each]. unfold bind at 1.
  rewrite (move_member_file fn c) by (auto; apply Hdir; by left).
  set (w1 := mkworld _ _ _ _).
  assert (Hother : ∀ fn', fn' ∈ l → fs w1 !! src fn' = fs w !! src fn').
  { intros fn' Hin. cbn.
    rewrite lookup_insert_ne by (apply Hsep; [by left|by right]).
    rewrite lookup_delete_ne; [done|].
    intros Heq. apply Hisrc in Heq; [|by left|by right]. by subst. }
  destruct (IH w1) as (w' & Hrun & Hdb & Hs3 & Hlog & Hmoved & Hframe).
  - intros fn' Hin. rewrite Hother by done. apply Hsrc. by right.
  - intros fn' Hin. apply is_dir_false. intros k [v Hk]. cbn in Hk.
    destruct (decide (k = dst fn)) as [->|Hne].
    + apply Hnest; [by right|by left].
    + rewrite lookup_insert_ne in Hk by done.
      apply lookup_delete_Some in Hk as [_ Hk].
      eapply is_dir_false; [apply Hdir; by right|by eexists].
  - intros a b Ha Hb. apply Hsep; by right.
  - intros a b Ha Hb. apply Hisrc; by right.
  - intros a b Ha Hb. apply Hidst; by right.
  - intros a b Ha Hb. apply Hnest; by right.
  - exists w'. split; [exact Hrun|]. split; [by rewrite Hdb|].
    split; [rewrite Hs3; cbn; by rewrite <- app_assoc|].
    split.
    { rewrite Hlog. cbn [omap list_omap logs w1]. rewrite <- app_assoc. f_equal.
      by destruct ((member_log E table d dst) fn). }
    split.
    + intros fn' [->|Hin]%elem_of_cons.
      * assert (Hfr : ∀ p, p = dst fn ∨ p = src fn → fs w' !! p = fs w1 !! p).
        { intros p Hp. apply Hframe. intros fn' Hin. split.
          - destruct Hp as [->| ->].
            + apply Hsep; [by left|by right].
            + intros Heq. apply Hisrc in Heq; [|by left|by right]. by subst.
          - destruct Hp as [->| ->].
            + intros Heq. apply Hidst in Heq; [|by left|by right]. by subst.
            + intros Heq. symmetry in Heq. revert Heq. apply Hsep; [by right|by left]. }
        rewrite !Hfr by auto. cbn. rewrite lookup_insert_eq.
        rewrite lookup_insert_ne by (apply Hsep; by left).
        by rewrite lookup_delete_eq.
      * destruct (Hmoved fn' Hin) as [-> ->]. by rewrite Hother.
    + intros p Hp. rewrite Hframe by (intros fn' Hin; apply Hp; by right).
      destruct (Hp fn) as [Hp1 Hp2]; [by left|]. cbn.
      rewrite lookup_insert_ne by done. by rewrite lookup_delete_ne.
Qed.
End Distribute.

(** *** Listing a directory *)

Lemma split_char_plain s a r :
  PyStr.split_char "/" s = Some (a, r) → plain a.
Proof.
  unfold plain. revert a r. induction s as [|c s IH]; intros a r; cbn; [done|].
  destruct (Ascii.eqb_spec c "/") as [->|Hne].
  - intros [= <- <-]. cbn. apply not_elem_of_nil.
  - destruct (PyStr.split_char "/" s) as [[a' r']|]; [|done].
    intros [= <- <-]. cbn. rewrite not_elem_of_cons. split; [done|]. by eapply IH.
Qed.

Lemma split_char_None s : PyStr.split_char "/" s = None → plain s.
Proof.
  unfold plain. induction s as [|c s IH]; cbn; [intros _; apply not_elem_of_nil|].
  destruct (Ascii.eqb_spec c "/") as [->|Hne]; [done|].
  destruct (PyStr.split_char "/" s) as [[a' r']|]; [done|].
  intros _. rewrite not_elem_of_cons. split; [done|]. by apply IH.
Qed.

Lemma listdir_plain f dir fn : fn ∈ Fs.listdir f dir → plain fn.
Proof.
  unfold Fs.listdir. rewrite elem_of_remove_dups, list_elem_of_omap.
  intros (k & _ & Hk). destruct (PyStr.strip_prefix _ k) as [rest|]; [|done].
  cbn in Hk. injection Hk as <-. unfold Fs.first_component, OsPath.sep.
  destruct (PyStr.split_char "/" rest) as [[a r]|] eqn:Hs.
  - by eapply split_char_plain.
  - by apply split_char_None.
Qed.

Lemma listdir_NoDup f dir : NoDup (Fs.listdir f dir).
Proof. apply NoDup_remove_dups. Qed.

Lemma plain_relative fn : plain fn → PyStr.startswith fn "/" = false.
Proof.
  intros Hp. apply not_true_iff_false. intros [r ->]%startswith_spec.
  apply Hp. rewrite str_app_cons. cbn. by left.
Qed.

Lemma join_plain a fn : plain fn → OsPath.join a [fn] = dir_prefix a +:+ fn.
Proof. intros Hp. cbn. by apply join2_relative, plain_relative. Qed.

Lemma rsplit_char_plain fn : plain fn → PyStr.rsplit_char "/" fn = None.
Proof.
  unfold plain. induction fn as [|c fn IH]; cbn; [done|].
  rewrite not_elem_of_cons. intros [Hc Hfn]. rewrite IH by done.
  destruct (Ascii.eqb_spec c "/"); [by subst|done].
Qed.

Lemma rsplit_char_app_sep x fn :
  plain fn → PyStr.rsplit_char "/" (x +:+ String "/" fn) = Some (x, fn).
Proof.
  intros Hp. induction x as [|c x IH]; str_simpl; cbn.
  - by rewrite rsplit_char_plain.
  - by rewrite IH.
Qed.

Lemma basename_join_plain a fn : plain fn → OsPath.basename (OsPath.join a [fn]) = fn.
Proof.
  intros Hp. rewrite join_plain by done. unfold dir_prefix, OsPath.basename, OsPath.sep.
  destruct (negb (PyStr.truthy a) || PyStr.endswith a "/") eqn:Hc.
  - apply orb_true_iff in Hc as [Ha|Ha].
    + destruct a; [|done]. rewrite str_app_nil_l. by rewrite rsplit_char_plain.
    + apply endswith_spec in Ha as [p ->]. rewrite str_app_assoc. str_simpl.
      by rewrite rsplit_char_app_sep.
  - rewrite str_app_assoc. str_simpl. by rewrite rsplit_char_app_sep.
Qed.

Lemma rmtree_lookup dir f p :
  Fs.rmtree dir f !! p = if OsPath.under dir p then None else f !! p.
Proof.
  unfold Fs.rmtree. destruct (OsPath.under dir p) eqn:Hu.
  - apply map_lookup_filter_None. right. intros x _ Hf. cbn [fst] in Hf. congruence.
  - destruct (f !! p) as [x|] eqn:Hp.
    + by apply map_lookup_filter_Some.
    + apply map_lookup_filter_None. by left.
Qed.

Section DistributeFacts.
Variable E : Env.

Lemma move_to_warehouse_and_upload_spec (extract_dir table : string) (d : date) (w : world) :
  let target := _partition_dir E table d in
  let names := Fs.listdir (fs w) extract_dir in
  let src := λ fn, OsPath.join extract_dir [fn] in
  let dst := λ fn, OsPath.join target [fn] in
  (∀ fn, fn ∈ names →
     is_Some (fs w !! src fn) ∧ OsPath.under extract_dir (src fn) = true) →
  (∀ fn, fn ∈ names →
     OsPath.under extract_dir (dst fn) = false ∧ Fs.is_dir (fs w) (dst fn) = false) →
  ∃ w',
    move_to_warehouse_and_upload E extract_dir table d w = (Ok tt, w')
    ∧ db w' = db w
    ∧ s3calls w' =
        s3calls w ++
        map (λ fn,
               let key := "derivative_data/" +:+ partition_rel table d +:+ "/" +:+ fn in
               mkupload (dst fn) "datalake" key (s3_ok E key)) names
    ∧ (∀ fn, fn ∈ names → fs w' !! dst fn = fs w !! src fn ∧ fs w' !! src fn = None)
    ∧ (rmtree_ok E extract_dir = true →
         ∀ p, OsPath.under extract_dir p = true → fs w' !! p = None)
    ∧ (∀ p, OsPath.under extract_dir p = false → (∀ fn, fn ∈ names → p ≠ dst fn) →
         fs w' !! p = fs w !! p).
Proof.
  intros target names src dst H1 H2.
  assert (Hplain : ∀ fn, fn ∈ names → plain fn) by (intros fn; apply listdir_plain).
  destruct (move_members E table d src dst names w) as (w1 & Hrun & Hdb & Hs3 & _ & Hmv & Hfr).
  - apply listdir_NoDup.
  - intros fn Hin. by apply H1.
  - intros fn Hin. by apply H2.
  - intros fn fn' Hin Hin' Heq.
    destruct (H1 fn' Hin') as [_ Hu], (H2 fn Hin) as [Hu' _]. congruence.
  - intros fn fn' Hin Hin'. unfold src. rewrite !join_plain by auto.
    apply str_app_inv_head.
  - intros fn fn' Hin Hin'. unfold dst. rewrite !join_plain by auto.
    apply str_app_inv_head.
  - intros fn fn' Hin Hin'. unfold dst, OsPath.under. rewrite !join_plain by auto.
    rewrite str_app_assoc, startswith_app. apply not_true_iff_false.
    intros [r Hr]%startswith_spec. apply (Hplain fn' Hin'). rewrite Hr, !chars_app.
    cbn [chars]. rewrite !elem_of_app, elem_of_cons. left. right. by left.
  - unfold move_to_warehouse_and_upload. unfold bind at 1, gets. unfold bind at 1.
    fold target names.
    change (for_each names _ w) with (for_each names (move_member E table d src dst) w).
    rewrite Hrun.
    assert (Hkeys : map (member_upload E table d dst) names =
                    map (λ fn,
                           let key := "derivative_data/" +:+ partition_rel table d
                                        +:+ "/" +:+ fn in
                           mkupload (dst fn) "datalake" key (s3_ok E key)) names).
    { apply map_ext_in. intros fn Hin%list_elem_of_In. unfold member_upload, warehouse_key.
      cbv zeta. unfold dst. rewrite (basename_join_plain target fn) by auto.
      unfold partition_rel. by rewrite !str_app_assoc. }
    destruct (rmtree_ok E extract_dir) eqn:Hrm.
    + eexists. split; [reflexivity|]. cbn [db fs s3calls set_fs].
      split; [done|]. split; [by rewrite Hs3, Hkeys|]. split.
      { intros fn Hin. rewrite !rmtree_lookup.
        destruct (H1 fn Hin) as [_ ->], (H2 fn Hin) as [-> _].
        split; [by apply Hmv|done]. }
      split.
      { intros _ p Hp. by rewrite rmtree_lookup, Hp. }
      intros p Hp Hnd. rewrite rmtree_lookup, Hp. apply Hfr.
      intros fn Hin. split; [|by apply Hnd].
      intros ->. destruct (H1 fn Hin) as [_ Hu]. congruence.
    + exists w1. split; [done|]. split; [done|]. split; [by rewrite Hs3, Hkeys|].
      split; [done|]. split; [done|].
      intros p Hp Hnd. apply Hfr. intros fn Hin. split; [|by apply Hnd].
      intros ->. destruct (H1 fn Hin) as [_ Hu]. congruence.
Qed.
End DistributeFacts.

(** C6, counterexample. The path of table WEBPXTICK_DT on 2024-03-07 does
    not end in a separator, and the table names "T" and "T/" share their
    path. *)
Lemma partition_path_as_specified_fails :
  let E := demo_env NoFault in
  let d := mkdate 2024 3 7 in
  _partition_dir E "WEBPXTICK_DT" d = "/data/warehouse/WEBPXTICK_DT/year=2024/month=03/day=07"
  ∧ PyStr.endswith (_partition_dir E "WEBPXTICK_DT" d)
      "WEBPXTICK_DT/year=2024/month=03/day=07/" = false
  ∧ _partition_dir E "T" d = _partition_dir E "T/" d
  ∧ ¬ partition_path_as_specified
  ∧ ¬ partition_path_injective.
Proof.
  cbv zeta. do 3 (split; [by_compute|]). split.
  - intros Hclaim.
    assert (Hne : _partition_dir (demo_env NoFault) "WEBPXTICK_DT" (mkdate 2024 3 7)
                  ≠ WAREHOUSE_DIR (demo_env NoFault) +:+ "/"
                    +:+ partition_rel "WEBPXTICK_DT" (mkdate 2024 3 7) +:+ "/") by by_compute.
    apply Hne. by apply Hclaim.
  - intros Hclaim.
    destruct (Hclaim (demo_env NoFault) "T" (mkdate 2024 3 7) "T/" (mkdate 2024 3 7))
      as [Heq _]; [done|done|by_compute|]. discriminate.
Qed.

(** C6, as the code has it. For a warehouse root that is not empty and does
    not end in a separator, a table name that is relative and does not end in
    a separator, and a valid date, [_partition_dir] is
    <root>/<table>/year=<Y>/month=<MM>/day=<DD> with month and day on two
    digits and no separator at the end, and two such pairs of table and date
    with the same path are equal. When the members that [os.listdir] gives
    for the staging directory are files, and their destinations lie outside
    of it and are not directories, [move_to_warehouse_and_upload] returns,
    leaves the version table alone, moves every member into the partition
    directory, uploads each moved member once, in the order of the listing,
    under key derivative_data/<table>/year=<Y>/month=<MM>/day=<DD>/<name>,
    empties the staging directory when its removal works and goes on when it
    does not, and touches no other path. *)
Theorem partition_and_distribute (E : Env) :
  proper_dir (WAREHOUSE_DIR E) = true →
  (∀ table d, relative_name table = true → valid_date d = true →
     _partition_dir E table d
     = WAREHOUSE_DIR E +:+ "/" +:+ table +:+ "/year=" +:+ PyStr.str_nat (year d)
         +:+ "/month=" +:+ PyStr.fmt_0d 2 (month d) +:+ "/day=" +:+ PyStr.fmt_0d 2 (day d)
     ∧ _partition_dir E table d = WAREHOUSE_DIR E +:+ "/" +:+ partition_rel table d)
  ∧ (∀ t1 d1 t2 d2,
       relative_name t1 = true → relative_name t2 = true →
       valid_date d1 = true → valid_date d2 = true →
       _partition_dir E t1 d1 = _partition_dir E t2 d2 → t1 = t2 ∧ d1 = d2)
  ∧ (∀ extract_dir table d w,
       let target := _partition_dir E table d in
       let names := Fs.listdir (fs w) extract_dir in
       let src := λ fn, OsPath.join extract_dir [fn] in
       let dst := λ fn, OsPath.join target [fn] in
       (∀ fn, fn ∈ names →
          is_Some (fs w !! src fn) ∧ OsPath.under extract_dir (src fn) = true) →
       (∀ fn, fn ∈ names →
          OsPath.under extract_dir (dst fn) = false ∧ Fs.is_dir (fs w) (dst fn) = false) →
       ∃ w',
         move_to_warehouse_and_upload E extract_dir table d w = (Ok tt, w')
         ∧ db w' = db w
         ∧ s3calls w' =
             s3calls w ++
             map (λ fn,
                    let key := "derivative_data/" +:+ partition_rel table d +:+ "/" +:+ fn in
                    mkupload (dst fn) "datalake" key (s3_ok E key)) names
         ∧ (∀ fn, fn ∈ names → fs w' !! dst fn = fs w !! src fn ∧ fs w' !! src fn = None)
         ∧ (rmtree_ok E extract_dir = true →
              ∀ p, OsPath.under extract_dir p = true → fs w' !! p = None)
         ∧ (∀ p, OsPath.under extract_dir p = false → (∀ fn, fn ∈ names → p ≠ dst fn) →
              fs w' !! p = fs w !! p)).
Proof.
  intros HW. split.
  { intros table d Ht Hv. split; [|by apply partition_dir_format].
    rewrite partition_dir_format by done.
    unfold partition_rel, year_part, month_part, day_part.
    rewrite !str_app_assoc. by str_simpl. }
  split.
  { intros t1 d1 t2 d2 Ht1 Ht2 Hv1 Hv2. rewrite !partition_dir_format by done.
    intros Heq. do 2 apply str_app_inv_head in Heq. by apply partition_rel_inj. }
  intros extract_dir table d w. apply move_to_warehouse_and_upload_spec.
Qed.

(** Three members of a staging directory, moved and uploaded in listing order. *)
Lemma partition_and_distribute_witness :
  let E := demo_env NoFault in
  let d := mkdate 2024 3 7 in
  _partition_dir E "WEBPXTICK_DT" d = "/data/warehouse/WEBPXTICK_DT/year=2024/month=03/day=07"
  ∧ ∃ w',
      move_to_warehouse_and_upload E "/tmp/x" "WEBPXTICK_DT" d staging_world = (Ok tt, w')
      ∧ map up_key (s3calls w')
        = [ "derivative_data/WEBPXTICK_DT/year=2024/month=03/day=07/c.csv";
            "derivative_data/WEBPXTICK_DT/year=2024/month=03/day=07/a.csv";
            "derivative_data/WEBPXTICK_DT/year=2024/month=03/day=07/b.csv" ].
Proof.
  cbv zeta.
  destruct (partition_and_distribute (demo_env NoFault) eq_refl) as (Hfmt & _ & Hdist).
  split.
  { exact (proj1 (Hfmt "WEBPXTICK_DT" (mkdate 2024 3 7) eq_refl eq_refl)). }
  pose proof (Hdist "/tmp/x" "WEBPXTICK_DT" (mkdate 2024 3 7) staging_world) as Hd.
  cbv zeta in Hd.
  destruct Hd as (w' & Hrun & _ & Hs3 & _).
  - apply Forall_forall. by_compute.
  - apply Forall_forall. by_compute.
  - exists w'. split; [done|]. rewrite Hs3. by_compute.
Defined.

(** ** What a run leaves alone *)

Lemma startswith_refl p : PyStr.startswith p p = true.
Proof. apply startswith_spec. exists "". by rewrite str_app_nil_r. Qed.

Lemma startswith_trans s p q :
  PyStr.startswith s p = true → PyStr.startswith p q = true → PyStr.startswith s q = true.
Proof.
  intros [r ->]%startswith_spec [r' ->]%startswith_spec. apply startswith_spec.
  exists (r' +:+ r). by rewrite str_app_assoc.
Qed.

Lemma startswith_app_l p r : PyStr.startswith (p +:+ r) p = true.
Proof. apply startswith_spec. by exists r. Qed.

(** A path that does not start with [a] does not start with an extension
    of [a]. *)
Lemma not_startswith_ext s a b :
  PyStr.startswith s a = false → PyStr.startswith b a = true → PyStr.startswith s b = false.
Proof.
  intros Hs Hb. apply not_true_iff_false. intros Hsb. apply not_true_iff_false in Hs.
  apply Hs. by eapply startswith_trans.
Qed.

Lemma startswith_ne s a : PyStr.startswith s a = false → s ≠ a.
Proof. intros Hs ->. by rewrite startswith_refl in Hs. Qed.

Lemma dir_prefix_starts a : PyStr.startswith (dir_prefix a) a = true.
Proof.
  unfold dir_prefix. destruct (negb _ || _); [apply startswith_refl|apply startswith_app_l].
Qed.

Lemma join2_starts a b :
  PyStr.startswith b "/" = false → PyStr.startswith (OsPath.join2 a b) a = true.
Proof.
  intros Hb. rewrite join2_relative by done.
  eapply startswith_trans; [apply startswith_app_l|apply dir_prefix_starts].
Qed.

Lemma rsplit_char_tail_plain s h r : PyStr.rsplit_char "/" s = Some (h, r) → plain r.
Proof.
  unfold plain. revert h r. induction s as [|c s IH]; intros h r; cbn; [done|].
  destruct (PyStr.rsplit_char "/" s) as [[h' r']|] eqn:Hs.
  - intros [= <- <-]. by eapply IH.
  - destruct (Ascii.eqb_spec c "/") as [->|Hne]; [|done]. intros [= <- <-].
    clear IH. induction s as [|x s IH]; cbn in *; [apply not_elem_of_nil|].
    destruct (PyStr.rsplit_char "/" s) as [[h' r']|]; [done|].
    destruct (Ascii.eqb_spec x "/"); [done|]. rewrite not_elem_of_cons. split; [done|].
    by apply IH.
Qed.

Lemma rsplit_char_None_plain s : PyStr.rsplit_char "/" s = None → plain s.
Proof.
  unfold plain. induction s as [|x s IH]; cbn; [intros _; apply not_elem_of_nil|].
  destruct (PyStr.rsplit_char "/" s) as [[h' r']|]; [done|].
  destruct (Ascii.eqb_spec x "/"); [done|]. intros _. rewrite not_elem_of_cons.
  split; [done|]. by apply IH.
Qed.

Lemma basename_is_plain p : plain (OsPath.basename p).
Proof.
  unfold OsPath.basename, OsPath.sep.
  destruct (PyStr.rsplit_char "/" p) as [[h r]|] eqn:Hs.
  - by eapply rsplit_char_tail_plain.
  - by apply rsplit_char_None_plain.
Qed.

Lemma strip_prefix_spec p s r : PyStr.strip_prefix p s = Some r → s = p +:+ r.
Proof.
  revert s. induction p as [|a p IH]; intros [|b s]; cbn; try done.
  - by intros [= <-].
  - by intros [= <-].
  - destruct (Ascii.eqb_spec a b) as [->|]; [|done]. intros ->%IH. by str_simpl.
Qed.

Lemma rename_tree_frame src dst f p :
  PyStr.startswith p src = false → PyStr.startswith p dst = false →
  Fs.rename_tree src dst f !! p = f !! p.
Proof.
  intros Hsrc Hdst. unfold Fs.rename_tree.
  assert (Hkey : ∀ k, Fs.rename_key src dst k = p → k = p).
  { intros k. unfold Fs.rename_key.
    destruct (PyStr.strip_prefix (src +:+ "/") k) as [rest|] eqn:Hs; [|done].
    intros <-. rewrite startswith_app_l in Hdst. done. }
  assert (Hin : ∀ y, (p, y) ∈ map (λ kv, (Fs.rename_key src dst kv.1, kv.2)) (map_to_list f)
                      → f !! p = Some y).
  { intros y ([k v'] & Heq & Hin)%list_elem_of_In%in_map_iff.
    cbn [fst snd] in Heq. injection Heq as Hk <-.
    apply list_elem_of_In, elem_of_map_to_list in Hin. by apply Hkey in Hk as ->. }
  destruct (f !! p) as [v|] eqn:Hp.
  - apply elem_of_list_to_map_1'.
    + intros y Hy%Hin. congruence.
    + apply list_elem_of_In, in_map_iff. exists (p, v). split.
      * cbn [fst snd]. f_equal. unfold Fs.rename_key.
        destruct (PyStr.strip_prefix (src +:+ "/") p) as [rest|] eqn:Hs; [|done].
        apply strip_prefix_spec in Hs. rewrite Hs, str_app_assoc, startswith_app_l in Hsrc.
        done.
      * by apply list_elem_of_In, elem_of_map_to_list.
  - apply not_elem_of_list_to_map_1.
    intros ([k v'] & Hk & Hkv)%list_elem_of_fmap. cbn [fst] in Hk. subst k.
    apply Hin in Hkv. congruence.
Qed.

Lemma Fs_move_frame src dst f f' p :
  Fs.move src dst f = Ok f' →
  PyStr.startswith p src = false → PyStr.startswith p dst = false →
  f' !! p = f !! p.
Proof.
  unfold Fs.move. intros Hmv Hsrc Hdst.
  set (real_dst := if Fs.is_dir f dst then OsPath.join2 dst (OsPath.basename src) else dst) in *.
  assert (Hreal : PyStr.startswith p real_dst = false).
  { unfold real_dst. destruct (Fs.is_dir f dst); [|done].
    eapply not_startswith_ext; [exact Hdst|].
    apply join2_starts, plain_relative, basename_is_plain. }
  destruct (Fs.is_dir f dst && Fs.exists_ f real_dst); [done|].
  destruct (f !! src) as [c|].
  - injection Hmv as <-. rewrite lookup_insert_ne by (intros ->; by rewrite startswith_refl in Hreal).
    apply lookup_delete_ne. intros ->. by rewrite startswith_refl in Hsrc.
  - destruct (Fs.is_dir f src); [|done]. destruct (Fs.is_file f real_dst); [done|].
    injection Hmv as <-. by apply rename_tree_frame.
Qed.

Section Steady.
Variable dirs : list string.

Lemma same_outside_refl w : same_outside dirs w w.
Proof. by split. Qed.

Lemma same_outside_trans w1 w2 w3 :
  same_outside dirs w1 w2 → same_outside dirs w2 w3 → same_outside dirs w1 w3.
Proof.
  intros [Hd1 Hf1] [Hd2 Hf2]. split; [congruence|].
  intros p Hp. by rewrite Hf2, Hf1.
Qed.

Lemma steady_ret {A} (a : A) : steady dirs (ret a).
Proof. intros w. apply same_outside_refl. Qed.

Lemma steady_raise {A} e : steady dirs (raise (A := A) e).
Proof. intros w. apply same_outside_refl. Qed.

Lemma steady_gets {A} (f : world → A) : steady dirs (gets f).
Proof. intros w. apply same_outside_refl. Qed.

Lemma steady_bind {A B} (c : M A) (k : A → M B) :
  steady dirs c → (∀ a, steady dirs (k a)) → steady dirs (bind c k).
Proof.
  intros Hc Hk w. unfold bind. specialize (Hc w).
  destruct (c w) as [[a|e] w1]; [|done].
  eapply same_outside_trans; [exact Hc|apply Hk].
Qed.

Lemma steady_for_each {A} (l : list A) (body : A → M unit) :
  (∀ x, x ∈ l → steady dirs (body x)) → steady dirs (for_each l body).
Proof.
  induction l as [|x l IH]; intros Hb; cbn [for_each]; [apply steady_ret|].
  apply steady_bind; [apply Hb; by left|]. intros _. apply IH.
  intros y Hy. apply Hb. by right.
Qed.

Lemma steady_if {A} (b : bool) (c1 c2 : M A) :
  steady dirs c1 → steady dirs c2 → steady dirs (if b then c1 else c2).
Proof. by destruct b. Qed.

Lemma steady_log e : steady dirs (modify (add_log e)).
Proof. intros w. by split. Qed.

Lemma steady_s3_upload E local bucket key e : steady dirs (s3_upload E local bucket key e).
Proof. intros w. unfold s3_upload. cbn. by destruct (_ && _). Qed.

Lemma steady_read path : steady dirs (read_file path).
Proof. intros w. unfold read_file. destruct (fs w !! path); apply same_outside_refl. Qed.

Lemma outside_ne p q :
  Forall (λ dir, PyStr.startswith p dir = false) dirs → inside dirs q →
  PyStr.startswith p q = false.
Proof.
  intros Hp Hq. apply Exists_exists in Hq as (dir & Hin & Hq).
  rewrite Forall_forall in Hp. eapply not_startswith_ext; [by apply Hp|done].
Qed.

Lemma steady_write path c : inside dirs path → steady dirs (write_file path c).
Proof.
  intros Hin w. split; [done|]. intros p Hp. cbn.
  apply lookup_insert_ne. intros ->.
  pose proof (outside_ne _ _ Hp Hin) as Hne. by rewrite startswith_refl in Hne.
Qed.

Lemma steady_move src dst : inside dirs src → inside dirs dst → steady dirs (shutil_move src dst).
Proof.
  intros Hs Hd w. unfold shutil_move.
  destruct (Fs.move src dst (fs w)) as [f'|e] eqn:Hmv; [|apply same_outside_refl].
  split; [done|]. intros p Hp. cbn.
  eapply Fs_move_frame; [exact Hmv|by apply outside_ne..].
Qed.

Lemma steady_rmtree dir : inside dirs dir → steady dirs (modify (λ w, set_fs (Fs.rmtree dir (fs w)) w)).
Proof.
  intros Hd w. split; [done|]. intros p Hp. cbn. rewrite rmtree_lookup.
  destruct (OsPath.under dir p) eqn:Hu; [|done].
  pose proof (outside_ne _ _ Hp Hd) as Hne.
  apply startswith_spec in Hu as [r ->]. rewrite str_app_assoc, startswith_app_l in Hne.
  done.
Qed.
End Steady.

Lemma inside_join dirs a fn :
  plain fn → a ∈ dirs → inside dirs (OsPath.join a [fn]).
Proof.
  intros Hp Ha. apply Exists_exists. exists a. split; [done|].
  cbn. by apply join2_starts, plain_relative.
Qed.

Lemma inside_self dirs a : a ∈ dirs → inside dirs a.
Proof. intros Ha. apply Exists_exists. exists a. split; [done|apply startswith_refl]. Qed.

(** *** Members of an archive *)

Lemma split_sep_plain p c : c ∈ OsPath.split_sep p → plain c.
Proof.
  unfold plain. revert c. induction p as [|a p IH]; intros c; cbn.
  - intros ->%list_elem_of_singleton. apply not_elem_of_nil.
  - destruct (Ascii.eqb_spec a OsPath.sep) as [->|Hne].
    + intros [->|Hin]%elem_of_cons; [apply not_elem_of_nil|by apply IH].
    + destruct (OsPath.split_sep p) as [|h t] eqn:Hs.
      * intros ->%list_elem_of_singleton. cbn. rewrite not_elem_of_cons.
        split; [done|apply not_elem_of_nil].
      * intros [->|Hin]%elem_of_cons.
        -- cbn. rewrite not_elem_of_cons. split; [done|]. apply IH. by left.
        -- apply IH. by right.
Qed.

Lemma concat_sep_relative (l : list string) :
  (∀ c, c ∈ l → plain c ∧ c ≠ "") →
  PyStr.startswith (String.concat "/" l) "/" = false.
Proof.
  intros Hl. destruct l as [|c l]; [done|].
  destruct (Hl c) as [Hp Hne]; [by left|].
  assert (Hc : PyStr.startswith c "/" = false) by by apply plain_relative.
  destruct c as [|x c]; [done|].
  apply not_true_iff_false. intros [r Hr]%startswith_spec.
  apply not_true_iff_false in Hc. apply Hc, startswith_spec. exists c.
  destruct l; cbn [String.concat] in Hr; rewrite ?str_app_cons in Hr;
    injection Hr as -> _; done.
Qed.

Lemma arcname_relative member : PyStr.startswith (arcname member) "/" = false.
Proof.
  unfold arcname, PyStr.join. apply concat_sep_relative.
  intros c [Hin%list_elem_of_In Hc]%list_elem_of_In%filter_In. split.
  - by eapply split_sep_plain.
  - intros ->. done.
Qed.

Lemma steady_bind_gets dirs {A B} (f : world → A) (k : A → M B) :
  (∀ w, steady dirs (k (f w))) → steady dirs (bind (gets f) k).
Proof. intros Hk w. unfold bind, gets. apply Hk. Qed.

Section ProcessFacts.
Variable E : Env.

Lemma steady_extractall path dir : steady [dir] (extractall E path dir).
Proof.
  unfold extractall. apply steady_bind; [apply steady_read|]. intros bytes.
  apply steady_bind; [|intros _; apply steady_ret].
  apply steady_for_each. intros m _. unfold extract_member.
  apply steady_if; [apply steady_ret|]. apply steady_if; [|apply steady_raise].
  apply steady_write. apply Exists_exists. exists dir. split; [by left|].
  apply join2_starts, arcname_relative.
Qed.

Lemma steady_distribute extract_dir table d :
  steady [extract_dir; _partition_dir E table d]
    (move_to_warehouse_and_upload E extract_dir table d).
Proof.
  unfold move_to_warehouse_and_upload. apply steady_bind_gets. intros w.
  apply steady_bind.
  - apply steady_for_each. intros fn Hfn%listdir_plain.
    apply steady_bind.
    + apply steady_move; apply inside_join; try done; [by left|right; by left].
    + intros _. apply steady_s3_upload.
  - intros _. apply steady_if; [|apply steady_ret].
    apply steady_rmtree, inside_self. by left.
Qed.

Lemma same_outside_weaken dirs dirs' w w' :
  dirs ⊆ dirs' → same_outside dirs w w' → same_outside dirs' w w'.
Proof.
  intros Hsub [Hdb Hfs]. split; [done|]. intros p Hp. apply Hfs.
  rewrite Forall_forall in *. intros dir Hdir. apply Hp. by apply Hsub.
Qed.

Lemma process_file_unfold file_path final_dir prefix day table_for_zip w :
  process_file E file_path final_dir prefix day table_for_zip w =
  match store_if_changed E file_path final_dir w with
  | (Raise e, w1) => (Raise e, w1)
  | (Ok None, w1) => (Ok None, w1)
  | (Ok (Some stored_path), w1) =>
      if negb (PyStr.truthy stored_path) then (Ok None, w1)
      else
        let w2 := (push_to_minio E stored_path "datalake" prefix w1).2 in
        match table_for_zip with
        | Some table =>
            if is_container stored_path table_for_zip then
              match load_container E stored_path table day w2 with
              | (Ok _, w3) => (Ok (Some stored_path), w3)
              | (Raise e, w3) => (Raise e, w3)
              end
            else (Ok (Some stored_path), w2)
        | None => (Ok (Some stored_path), w2)
        end
  end.
Proof.
  unfold process_file. unfold bind at 1.
  destruct (store_if_changed E file_path final_dir w) as [[[sp|]|e] w1]; try done.
  destruct (PyStr.truthy sp); cbn [negb]; [|done].
  unfold bind at 1. unfold push_to_minio at 1, s3_upload at 1. cbv zeta.
  unfold bind at 1.
  destruct table_for_zip as [table|]; [|done].
  unfold is_container.
  destruct (PyStr.truthy table && PyStr.endswith (PyStr.lower sp) ".zip"); [|done].
  unfold load_container, extract_dir_of. cbv zeta.
  by destruct (bind _ _ _) as [[[]|e] w3].
Qed.

Lemma steady_load_container stored_path table day :
  steady [extract_dir_of stored_path; _partition_dir E table day]
    (load_container E stored_path table day).
Proof.
  unfold load_container. apply steady_bind.
  - intros w. eapply same_outside_weaken; [|apply steady_extractall].
    intros x ->%list_elem_of_singleton. by left.
  - intros good. apply steady_if; [apply steady_distribute|apply steady_log].
Qed.
End ProcessFacts.

Section ContainerFacts.
Variable E : Env.

Lemma extract_members_ok dir entries w :
  Forall (λ m, extractable m = true) entries →
  ∃ w', for_each entries (extract_member dir) w = (Ok tt, w')
        ∧ db w' = db w ∧ s3calls w' = s3calls w ∧ logs w' = logs w.
Proof.
  intros Hall. revert w. induction Hall as [|m entries Hm _ IH]; intros w.
  { by exists w. }
  cbn [for_each]. unfold bind at 1, extract_member at 1. unfold extractable in Hm.
  destruct (PyStr.endswith m.1 "/"); cbn [orb] in Hm.
  - apply IH.
  - rewrite Hm. unfold write_file, modify.
    destruct (IH (set_fs (<[OsPath.join2 dir (arcname m.1) := m.2]> (fs w)) w))
      as (w' & -> & ? & ? & ?). by exists w'.
Qed.

Lemma final_path_truthy file_path final_dir :
  PyStr.truthy (final_path_of E file_path final_dir) = true.
Proof.
  unfold final_path_of. cbn. unfold OsPath.join2.
  set (v := _ +:+ "_" +:+ _).
  assert (Hv : PyStr.truthy v = true) by (apply truthy_app_r; by intros ?).
  destruct (PyStr.startswith v "/"); [done|].
  destruct (negb _ || _); apply truthy_app_r; intros Heq; try by rewrite Heq in Hv.
  by destruct v.
Qed.

Lemma store_if_changed_stored file_path final_dir w stored_path w1 :
  store_if_changed E file_path final_dir w = (Ok (Some stored_path), w1) →
  stored_path = final_path_of E file_path final_dir.
Proof.
  rewrite store_if_changed_unfold.
  destruct (fs w !! file_path); [|done]. cbv zeta.
  destruct (same_checksum _ _); [done|]. case_decide; [done|].
  destruct (Fs.move _ _ _); [|done]. destruct (commit_rows _ _ _ _ _ _); [|done].
  by intros [= <- _].
Qed.
End ContainerFacts.

(** C7. When [store_if_changed] has stored a file that [process_file] goes
    on to treat as an archive of a table, and neither the extraction
    directory nor the partition directory is a prefix of the stored path, the
    stored file is still there with the same bytes after [process_file],
    whether extraction and distribution succeed, fail or are skipped, and
    the version table is untouched. On a malformed archive whose members
    before the defect can be written, [process_file] logs the bad archive,
    returns the stored path, and has made the one upload of the raw file and
    no other. *)
Theorem process_file_keeps_container (E : Env) (w w1 : world)
    (file_path final_dir upload_prefix table stored_path bytes : string) (day : date) :
  let done := process_file E file_path final_dir upload_prefix day (Some table) w in
  let raw_key := upload_prefix +:+ "/" +:+ OsPath.basename stored_path in
  store_if_changed E file_path final_dir w = (Ok (Some stored_path), w1) →
  fs w1 !! stored_path = Some bytes →
  PyStr.startswith stored_path (OsPath.join "/tmp" [OsPath.stem stored_path]) = false →
  PyStr.startswith stored_path (_partition_dir E table day) = false →
  fs done.2 !! stored_path = Some bytes
  ∧ db done.2 = db w1
  ∧ (∀ v, done.1 = Ok v → v = Some stored_path)
  ∧ (PyStr.truthy table && PyStr.endswith (PyStr.lower stored_path) ".zip" = true →
     zip_bad (unzip E bytes) = true →
     Forall (λ m, extractable m = true) (zip_entries (unzip E bytes)) →
     done.1 = Ok (Some stored_path)
     ∧ LogBadZip stored_path ∈ logs done.2
     ∧ s3calls done.2
       = s3calls w1 ++ [mkupload stored_path "datalake" raw_key (s3_ok E raw_key)]).
Proof.
  intros done raw_key Hstore Hfile Hx Hp. subst done.
  pose proof (store_if_changed_stored E _ _ _ _ _ Hstore) as Hsp.
  assert (Htruthy : PyStr.truthy stored_path = true)
    by (rewrite Hsp; apply final_path_truthy).
  rewrite process_file_unfold, Hstore, Htruthy. cbn [negb]. cbv zeta.
  set (w2 := (push_to_minio E stored_path "datalake" upload_prefix w1).2).
  assert (Hw2 : fs w2 = fs w1 ∧ db w2 = db w1
                ∧ s3calls w2 = s3calls w1 ++ [mkupload stored_path "datalake" raw_key (s3_ok E raw_key)]
                ∧ ∀ e, e ∈ logs w1 → e ∈ logs w2).
  { unfold w2, push_to_minio, s3_upload. cbn [snd]. fold raw_key. unfold Fs.is_file.
    rewrite Hfile, bool_decide_eq_true_2 by (by eexists). cbn [andb].
    destruct (s3_ok E raw_key); cbn; repeat split; try done.
    intros e He. apply elem_of_app. by left. }
  destruct Hw2 as (Hfs2 & Hdb2 & Hs32 & _).
  fold (extract_dir_of stored_path) in Hx.
  unfold is_container.
  destruct (PyStr.truthy table && PyStr.endswith (PyStr.lower stored_path) ".zip") eqn:Hzip.
  2: { cbn [fst snd]. rewrite Hfs2, Hdb2. repeat split; try done.
       by intros v [= <-]. }
  pose proof (steady_load_container E stored_path table day w2) as [Hdb Hfs].
  assert (Hkept : fs (load_container E stored_path table day w2).2 !! stored_path = Some bytes).
  { rewrite Hfs, Hfs2; [done|]. by repeat constructor. }
  split; [by destruct (load_container _ _ _ _ _) as [[[]|e] w3]|].
  split; [destruct (load_container _ _ _ _ _) as [[[]|e] w3]; cbn in *; congruence|].
  split; [destruct (load_container _ _ _ _ _) as [[[]|e] w3]; cbn; [by intros v [= <-]|done]|].
  intros _ Hbad Hentries.
  destruct (extract_members_ok (extract_dir_of stored_path) _ w2 Hentries)
    as (w3 & Hw3 & _ & Hs33 & Hl3).
  assert (Hload : load_container E stored_path table day w2
                  = (Ok tt, add_log (LogBadZip stored_path) w3)).
  { unfold load_container, extractall. unfold bind at 1. unfold bind at 1, read_file.
    rewrite Hfs2, Hfile. unfold bind at 1. rewrite Hw3. unfold ret. by rewrite Hbad. }
  rewrite Hload. cbn [fst snd add_log logs s3calls].
  split; [done|]. split; [apply elem_of_app; right; by left|]. by rewrite Hs33.
Qed.

(** An archive of three members: stored, extracted, distributed, and still there. *)
Lemma process_file_keeps_container_witness :
  let E := demo_env NoFault in
  let done :=
    process_file E "/data/raw/WEBPXTICK_DT-20240307.zip" "/data/raw" "raw"
      (mkdate 2024 3 7) (Some "WEBPXTICK_DT") container_world in
  done.1 = Ok (Some "/data/raw/WEBPXTICK_DT-20240307_2024-03-08.zip")
  ∧ length (s3calls done.2) = 4
  ∧ fs done.2 !! "/data/raw/WEBPXTICK_DT-20240307_2024-03-08.zip" = Some "PK".
Proof.
  cbv zeta. do 2 (split; [by_compute|]).
  refine (proj1 (process_file_keeps_container (demo_env NoFault) container_world
            (store_if_changed (demo_env NoFault) "/data/raw/WEBPXTICK_DT-20240307.zip"
               "/data/raw" container_world).2
            "/data/raw/WEBPXTICK_DT-20240307.zip" "/data/raw" "raw" "WEBPXTICK_DT"
            "/data/raw/WEBPXTICK_DT-20240307_2024-03-08.zip" "PK" (mkdate 2024 3 7)
            _ _ _ _)); by_compute.
Defined.

(** The flat script, for comparison, removes the archive it has extracted,
    and keeps one it cannot read. *)
Lemma Flat_extract_if_zip_removes :
  let good := Flat.extract_if_zip (demo_env NoFault) "downloads/WEBPXTICK_DT-20240307.zip"
                flat_world in
  let bad := Flat.extract_if_zip (net_env (mkresponse 200 "" None))
               "downloads/WEBPXTICK_DT-20240307.zip" flat_world in
  good.1 = Ok tt
  ∧ fs good.2 !! "downloads/WEBPXTICK_DT-20240307.zip" = None
  ∧ fs good.2 !! "downloads/a.csv" = Some "A"
  ∧ bad.1 = Ok tt
  ∧ fs bad.2 = fs flat_world
  ∧ logs bad.2 = [LogBadZip "downloads/WEBPXTICK_DT-20240307.zip"].
Proof. cbv zeta. by_compute. Qed.

(** ** One run *)

Section RunFacts.
Variable E : Env.


Lemma store_if_changed_new file_path final_dir w c :
  fs w !! file_path = Some c →
  fault_at E file_path = NoFault →
  Fs.is_dir (fs w) (final_path_of E file_path final_dir) = false →
  same_checksum (select_latest (OsPath.basename file_path) (db w)) (sha256 E c) = false →
  store_if_changed E file_path final_dir w
  = (Ok (Some (final_path_of E file_path final_dir)),
     mkworld (<[final_path_of E file_path final_dir := c]> (delete file_path (fs w)))
       (committed_rows (select_latest (OsPath.basename file_path) (db w))
          (OsPath.basename file_path) (str_date (today E)) (sha256 E c) (db w))
       (s3calls w) (logs w)).
Proof.
  intros Hc Hflt Hdir Hnew. rewrite store_if_changed_unfold, Hc. cbv zeta.
  rewrite Hnew, Hflt. case_decide; [done|].
  rewrite (Fs_move_file _ _ _ c) by done. by rewrite commit_rows_nofault.
Qed.

Lemma process_artifact_unfold selected key day kind w :
  process_artifact E selected key day kind w =
  match selected !! kind.2 with
  | None => (Ok [], w)
  | Some filename =>
      if negb (truthy_opt (selected !! kind.1) && PyStr.truthy filename) then (Ok [], w)
      else
        match download E (build_download_url key filename) filename (DOWNLOAD_DIR E) w with
        | (Raise e, w1) => (Raise e, w1)
        | (Ok None, w1) => (Ok [], w1)
        | (Ok (Some temp_file), w1) =>
            if negb (PyStr.truthy temp_file) then (Ok [], w1)
            else
              match process_file E temp_file (final_dir_for E filename)
                      (upload_prefix_for filename) day (table_for_zip filename) w1 with
              | (Raise e, w2) => (Raise e, w2)
              | (Ok stored_path, w2) => (Ok (stored_list stored_path), w2)
              end
        end
  end.
Proof.
  unfold process_artifact. cbv zeta.
  destruct (selected !! kind.2) as [filename|]; [|done].
  destruct (negb _); [done|]. unfold bind at 1.
  destruct (download _ _ _ _ _) as [[[temp_file|]|e] w1]; try done.
  destruct (negb _); [done|]. unfold bind at 1.
  by destruct (process_file _ _ _ _ _ _ _) as [[[p|]|e] w2].
Qed.

Lemma join_truthy a b : PyStr.truthy b = true → PyStr.truthy (OsPath.join a [b]) = true.
Proof.
  intros Hb. cbn. unfold OsPath.join2. destruct (PyStr.startswith b "/"); [done|].
  destruct (negb _ || _); apply truthy_app_r; intros Heq; try by rewrite Heq in Hb.
  by destruct b.
Qed.


End RunFacts.

Section RunTheorems.
Variable E : Env.

Lemma available_items_dated w items w' :
  _available_items E w = (Ok items, w') →
  all_dated items ∧ ∀ i, i ∈ items → is_Some (i !! "key").
Proof.
  intros (_ & raw & keyed & _ & -> & Hperm & _ & Hkeys)%available_items_spec. split.
  - unfold all_dated. rewrite Forall_map. eapply Forall_impl; [exact Hkeys|].
    cbn. intros x ->. by eexists.
  - intros i Hi. rewrite Hperm in Hi.
    apply list_elem_of_In, filter_In in Hi as [_ Hi].
    unfold has_date_and_key in Hi. apply andb_true_iff in Hi as [_ Hi].
    by apply bool_decide_eq_true in Hi.
Qed.

Lemma select_item_member items target w selected w' :
  all_dated items →
  _select_item_for_date items target w = (Ok (Some selected), w') →
  w' = w ∧ selected ∈ items.
Proof.
  intros Hall. rewrite select_item_spec by done.
  destruct items as [|first rest]; [done|]. destruct target as [t|].
  - destruct (pick t None (first :: rest)) as [j|] eqn:Hp; [|done].
    intros [= <- <-]. by apply pick_Some in Hp as [[? ?]|?].
  - intros [= <- <-]. split; [done|by left].
Qed.

Lemma select_item_total items target w :
  all_dated items →
  ∃ r w', _select_item_for_date items target w = (Ok r, w')
          ∧ db w' = db w ∧ s3calls w' = s3calls w ∧ fs w' = fs w.
Proof.
  intros Hall. rewrite select_item_spec by done.
  destruct items as [|first rest]; [by eexists _, _|]. destruct target as [t|].
  - destruct (pick t None (first :: rest)) as [j|]; by eexists _, _.
  - by eexists _, _.
Qed.

End RunTheorems.



(** C9, counterexample. A secondary data file that is an archive is
    extracted into table WEBPXTICK_DT like the primary one, and a structure
    file whose name does not end in _structure.dat is kept in the raw store
    and uploaded under the raw prefix. *)
Lemma routed_by_kind_fails :
  let done := download_all_files odd_env None empty_world in
  done.1 = Ok (Some "07 Mar 2024")
  ∧ map up_key (s3calls done.2)
    = [ "raw/TickData_layout_2024-03-08.dat";
        "raw/TC_20240307_2024-03-08.zip";
        "derivative_data/WEBPXTICK_DT/year=2024/month=03/day=07/c.csv";
        "derivative_data/WEBPXTICK_DT/year=2024/month=03/day=07/a.csv";
        "derivative_data/WEBPXTICK_DT/year=2024/month=03/day=07/b.csv" ]
  ∧ fs done.2 !! "/data/raw/TickData_layout_2024-03-08.dat"
    = Some "body of https://links.sgx.com/1.0.0/derivatives-historical/k7/TickData_layout.dat"
  ∧ ¬ routed_by_kind.
Proof.
  cbv zeta. do 3 (split; [by_compute|]).
  intros Hclaim.
  destruct (Hclaim odd_env odd_item ("TC Data File Link", "TC Data File") "TC_20240307.zip")
    as (_ & _ & Htable).
  - by_compute.
  - by_compute.
  - assert (Hne : table_for_zip "TC_20240307.zip" ≠ None) by by_compute.
    apply Hne, Htable. by_compute.
Qed.

(** ** Further properties of the catalog *)

Lemma with_keys_raise items w e w' :
  Forall (λ i : Item, is_Some (i !! "Date")) items →
  with_keys items w = (Raise e, w') → e = ValueError.
Proof.
  revert w e w'. induction items as [|i items IH]; intros w e w' HF; [done|].
  apply Forall_cons in HF as [[s Hs] HF]. cbn [with_keys].
  unfold bind at 1, item_date, bind at 1, item_get. rewrite Hs. unfold ret at 1.
  unfold _parse_item_date. destruct (Strptime.strptime Strptime.fmt_dbY s) as [d|].
  - unfold ret at 1. unfold bind at 1.
    destruct (with_keys items w) as [[keyed|e0] w0] eqn:Hk; [done|].
    intros [= <- <-]. by eapply IH.
  - by intros [= <- <-].
Qed.

Lemma filter_has_date raw :
  Forall (λ i : Item, is_Some (i !! "Date")) (List.filter has_date_and_key raw).
Proof.
  apply Forall_forall. intros i Hi.
  apply list_elem_of_In, filter_In in Hi as [_ Hi].
  unfold has_date_and_key in Hi. apply andb_true_iff in Hi as [Hi _].
  by apply bool_decide_eq_true in Hi.
Qed.

(** X1. One entry of the feed that has a date and a key, but whose date is
    not written as "DD Mon YYYY", makes [_available_items] raise
    [ValueError]; the run raises it as well, whatever the target, and nothing
    is logged, fetched or stored. *)
Theorem unreadable_feed_date_fails_the_run (E : Env) (raw : list Item) (bad : Item)
    (target : option string) (w : world) :
  api_items E = Ok raw → bad ∈ raw → has_date_and_key bad = true → item_day bad = None →
  _available_items E w = (Raise ValueError, w)
  ∧ download_all_files E target w = (Raise ValueError, w).
Proof.
  intros Hraw Hin Hdk Hbad.
  assert (Hav : _available_items E w = (Raise ValueError, w)).
  { unfold _available_items, bind at 1, lift. rewrite Hraw. unfold bind at 1.
    pose proof (with_keys_spec (List.filter has_date_and_key raw) w) as Hk.
    destruct (with_keys _ w) as [[keyed|e] w1] eqn:Hwk.
    - destruct Hk as (_ & Hmap & HF). exfalso.
      assert (Hb : bad ∈ map snd keyed).
      { rewrite Hmap. apply list_elem_of_In, filter_In. split; [|done].
        by apply list_elem_of_In. }
      apply list_elem_of_In, in_map_iff in Hb as (x & <- & Hx).
      rewrite Forall_forall in HF. apply list_elem_of_In, HF in Hx. congruence.
    - destruct Hk as [-> _].
      by rewrite (with_keys_raise _ _ _ _ (filter_has_date raw) Hwk). }
  split; [done|]. unfold download_all_files, bind at 1. by rewrite Hav.
Qed.

Lemma unreadable_feed_date_fails_the_run_witness :
  download_all_files (feed_env [demo_item; iso_item]) None empty_world
  = (Raise ValueError, empty_world).
Proof.
  apply (unreadable_feed_date_fails_the_run (feed_env [demo_item; iso_item])
           [demo_item; iso_item] iso_item None empty_world).
  - reflexivity.
  - apply list_elem_of_In. right. by left.
  - vm_compute; reflexivity.
  - vm_compute; reflexivity.
Defined.

Lemma sort_desc_sorted_id l : sorted_desc l → sort_desc l = l.
Proof.
  induction 1 as [|x l Hb Hs IH]; [done|].
  cbn [sort_desc foldr]. fold (sort_desc l). rewrite IH.
  destruct l as [|y l']; [done|]. cbn [insert_desc].
  apply Forall_cons in Hb as [Hy _]. unfold date_ltb. by rewrite Hy.
Qed.

Lemma newest_first_sorted keyed :
  Forall (λ x : date * Item, item_day x.2 = Some x.1) keyed →
  newest_first (map snd keyed) = true → sorted_desc keyed.
Proof.
  unfold newest_first. intros HF.
  assert (Hd : omap item_day (map snd keyed) = map fst keyed).
  { induction HF as [|x l Hx HF IH]; [done|]. cbn. by rewrite Hx, IH. }
  rewrite Hd. clear HF Hd.
  induction keyed as [|x l IH]; [constructor|].
  cbn [map days_descend]. intros [Hx Hl]%andb_true_iff. constructor; [|by apply IH].
  rewrite forallb_forall in Hx. apply Forall_forall. intros y Hy.
  apply Hx, in_map. by apply list_elem_of_In.
Qed.

(** X2. When the entries of the feed that have a date and a key all carry a
    readable date and already come most recent first, [_available_items]
    returns them as they are: the order of the feed is kept, also among
    entries of the same day. *)
Theorem ordered_feed_is_kept (E : Env) (raw : list Item) (w : world) :
  api_items E = Ok raw →
  all_dated (List.filter has_date_and_key raw) →
  newest_first (List.filter has_date_and_key raw) = true →
  _available_items E w = (Ok (List.filter has_date_and_key raw), w).
Proof.
  intros Hraw Hall Hnf.
  unfold _available_items, bind at 1, lift. rewrite Hraw. unfold bind at 1.
  pose proof (with_keys_spec (List.filter has_date_and_key raw) w) as Hk.
  destruct (with_keys _ w) as [[keyed|e] w1]; [|by destruct Hk as [_ []]].
  destruct Hk as (-> & Hmap & HF). unfold ret.
  rewrite sort_desc_sorted_id; [by rewrite Hmap|].
  apply newest_first_sorted; [done|]. by rewrite Hmap.
Qed.

Lemma ordered_feed_is_kept_witness :
  _available_items (feed_env [demo_item; keyless_item; demo_item_again; demo_item_old])
    empty_world
  = (Ok [demo_item; demo_item_again; demo_item_old], empty_world).
Proof.
  apply (ordered_feed_is_kept
           (feed_env [demo_item; keyless_item; demo_item_again; demo_item_old])
           [demo_item; keyless_item; demo_item_again; demo_item_old] empty_world).
  - reflexivity.
  - repeat constructor; by eexists.
  - vm_compute; reflexivity.
Defined.

Lemma pick_app t acc l1 l2 : pick t acc (l1 ++ l2) = pick t (pick t acc l1) l2.
Proof. revert acc. induction l1 as [|i l1 IH]; intros acc; cbn; [done|]. apply IH. Qed.

Lemma pick_none_of t acc l :
  (∀ j, j ∈ l → item_day j ≠ Some t) → pick t acc l = acc.
Proof.
  revert acc. induction l as [|i l IH]; intros acc Hno; cbn; [done|].
  rewrite decide_False by (apply Hno; by left).
  apply IH. intros j Hj. apply Hno. by right.
Qed.

(** X3. When several items of the catalog are of the requested day,
    [_select_item_for_date] returns the last of them in the order of the
    catalog, and logs nothing. *)
Theorem target_selects_last_item_of_day (before after : list Item) (i : Item) (t : date)
    (w : world) :
  all_dated (before ++ i :: after) →
  item_day i = Some t →
  (∀ j, j ∈ after → item_day j ≠ Some t) →
  _select_item_for_date (before ++ i :: after) (Some t) w = (Ok (Some i), w).
Proof.
  intros Hall Hi Hno. rewrite select_item_spec by done.
  assert (Hp : pick t None (before ++ i :: after) = Some i).
  { rewrite pick_app. cbn [pick]. rewrite decide_True by done. by apply pick_none_of. }
  rewrite Hp. by destruct (before ++ i :: after).
Qed.

Lemma target_selects_last_item_of_day_witness :
  _select_item_for_date [demo_item; demo_item_again; demo_item_old]
    (Some (mkdate 2024 3 7)) empty_world
  = (Ok (Some demo_item_again), empty_world).
Proof.
  apply (target_selects_last_item_of_day [demo_item] [demo_item_old] demo_item_again
           (mkdate 2024 3 7) empty_world).
  - repeat constructor; by eexists.
  - vm_compute; reflexivity.
  - intros j Hj. apply list_elem_of_singleton in Hj as ->. vm_compute. discriminate.
Defined.

(** X4. When no entry of the feed has both a date and a key, the run logs
    that no data is available and returns none, whatever the target; it
    fetches and stores nothing. *)
Theorem feed_without_usable_entry (E : Env) (raw : list Item) (target : option string)
    (w : world) :
  api_items E = Ok raw →
  (∀ i, i ∈ raw → has_date_and_key i = false) →
  download_all_files E target w = (Ok None, add_log LogNoData w).
Proof.
  intros Hraw Hno.
  assert (Hf : List.filter has_date_and_key raw = []).
  { clear Hraw. induction raw as [|i raw IH]; [done|]. cbn [List.filter].
    rewrite (Hno i) by (by left). apply IH. intros j Hj. apply Hno. by right. }
  unfold download_all_files, bind at 1, _available_items, bind at 1, lift.
  by rewrite Hraw, Hf.
Qed.

Lemma feed_without_usable_entry_witness :
  download_all_files (feed_env [keyless_item]) (Some "07/03/2024") empty_world
  = (Ok None, add_log LogNoData empty_world).
Proof.
  apply (feed_without_usable_entry (feed_env [keyless_item]) [keyless_item]).
  - reflexivity.
  - intros i Hi. apply list_elem_of_singleton in Hi as ->. vm_compute; reflexivity.
Defined.

(** X5. A target that reads as a day of which the catalog has no item makes
    the run return none: it logs the requested day with the days on offer,
    and fetches, stores and uploads nothing. *)
Theorem target_day_not_on_offer (E : Env) (items : list Item) (s : string) (t : date)
    (w : world) :
  _available_items E w = (Ok items, w) →
  items ≠ [] →
  _parse_input_date s = Some t →
  (∀ i, i ∈ items → item_day i ≠ Some t) →
  download_all_files E (Some s) w
  = (Ok None,
     add_log (LogDateNotAvailable t (PyStr.join ", " (date_fields (take 10 items)))) w).
Proof.
  intros Hav Hne Hs Hno.
  destruct (available_items_dated _ _ _ _ Hav) as [Hall _].
  unfold download_all_files, bind at 1. rewrite Hav.
  destruct items as [|first rest] eqn:Hitems; [done|]. rewrite <- Hitems in *.
  cbv zeta. unfold bind at 1.
  assert (Ht : target_of (Some s) = Some t).
  { unfold target_of. destruct s; [done|]. done. }
  rewrite Ht, select_item_spec by done.
  rewrite pick_none_of by done. rewrite Hitems at 1. done.
Qed.

Lemma target_day_not_on_offer_witness :
  download_all_files (demo_env NoFault) (Some " 5/3/2024 ") empty_world
  = (Ok None,
     add_log (LogDateNotAvailable (mkdate 2024 3 5) "07 Mar 2024, 06 Mar 2024") empty_world).
Proof.
  apply (target_day_not_on_offer (demo_env NoFault) [demo_item; demo_item_old]
           " 5/3/2024 " (mkdate 2024 3 5) empty_world).
  - by_compute.
  - done.
  - vm_compute; reflexivity.
  - intros i Hi. apply elem_of_cons in Hi as [->|Hi].
    + vm_compute. discriminate.
    + apply list_elem_of_singleton in Hi as ->. vm_compute. discriminate.
Defined.

(** ** What a run returns and what it records *)

Lemma committed_rows_length latest name day sum rows :
  length (committed_rows latest name day sum rows) = S (length rows).
Proof.
  unfold committed_rows. rewrite length_app. cbn.
  destruct latest as [[i c]|]; [unfold update_valid_to; rewrite length_alter|]; lia.
Qed.

Section Recorded.
Variable E : Env.

Lemma store_if_changed_rows file_path final_dir w r w' :
  store_if_changed E file_path final_dir w = (Ok r, w') →
  match r with
  | None => db w' = db w
  | Some _ => length (db w') = S (length (db w))
  end.
Proof.
  rewrite store_if_changed_unfold.
  destruct (fs w !! file_path) as [c|]; [|done]. cbv zeta.
  destruct (same_checksum _ _); [by intros [= <- <-]|].
  case_decide; [done|].
  destruct (Fs.move _ _ _) as [f'|e]; [|done].
  destruct (commit_rows _ _ _ _ _ _) as [rows'|e] eqn:Hc; [|done].
  intros [= <- <-]. apply commit_rows_ok in Hc as ->. cbn.
  apply committed_rows_length.
Qed.

Lemma push_to_minio_db path bucket prefix w :
  db (push_to_minio E path bucket prefix w).2 = db w.
Proof. apply (steady_s3_upload [] E). Qed.

Lemma process_file_rows file_path final_dir prefix day tz w r w' :
  process_file E file_path final_dir prefix day tz w = (Ok r, w') →
  match r with
  | None => db w' = db w
  | Some p => PyStr.truthy p = true ∧ length (db w') = S (length (db w))
  end.
Proof.
  rewrite process_file_unfold.
  destruct (store_if_changed E file_path final_dir w) as [[[sp|]|e] w1] eqn:Hs;
    [|intros [= <- <-]; apply (store_if_changed_rows _ _ _ _ _ Hs)|done].
  assert (Hsp : PyStr.truthy sp = true).
  { rewrite (store_if_changed_stored E _ _ _ _ _ Hs). apply final_path_truthy. }
  rewrite Hsp. cbn [negb].
  apply store_if_changed_rows in Hs. cbv zeta.
  set (w2 := (push_to_minio E sp "datalake" prefix w1).2).
  assert (Hw2 : db w2 = db w1) by apply push_to_minio_db.
  assert (Hload : ∀ table, db (load_container E sp table day w2).2 = db w2).
  { intros table. apply (steady_load_container E sp table day w2). }
  destruct tz as [table|].
  - destruct (is_container sp (Some table)).
    + specialize (Hload table).
      destruct (load_container E sp table day w2) as [[[]|e] w3]; [|done].
      intros [= <- <-]. cbn [snd] in Hload. by rewrite Hload, Hw2.
    + intros [= <- <-]. by rewrite Hw2.
  - intros [= <- <-]. by rewrite Hw2.
Qed.

Lemma download_db url filename target_dir w :
  db (download E url filename target_dir w).2 = db w.
Proof.
  rewrite download_unfold. cbv zeta.
  destruct (http_get E url) as [r|e]; [|done].
  destruct (status_code r =? 200); [|done].
  by destruct (stream_breaks r).
Qed.

Lemma process_artifact_rows selected key day kind w l w' :
  process_artifact E selected key day kind w = (Ok l, w') →
  length (db w') = length (db w) + length l ∧ (l = [] → db w' = db w) ∧ length l ≤ 1.
Proof.
  rewrite process_artifact_unfold.
  destruct (selected !! kind.2) as [filename|]; [|intros [= <- <-]; cbn; by auto with lia].
  destruct (negb _); [intros [= <- <-]; cbn; by auto with lia|].
  pose proof (download_db (build_download_url key filename) filename (DOWNLOAD_DIR E) w)
    as Hd.
  destruct (download E _ _ _ w) as [[[temp|]|e] w1]; cbn in Hd;
    [|intros [= <- <-]; rewrite Hd; cbn; by auto with lia|done].
  destruct (negb _); [intros [= <- <-]; rewrite Hd; cbn; by auto with lia|].
  destruct (process_file E temp _ _ day _ w1) as [[sp|e] w2] eqn:Hp; [|done].
  apply process_file_rows in Hp. intros [= <- <-].
  destruct sp as [p|]; cbn [stored_list].
  - destruct Hp as [-> Hp]. cbn [length]. rewrite Hp, Hd. repeat split; [lia|done|lia].
  - rewrite Hp, Hd. repeat split; cbn; lia.
Qed.

Lemma collect_rows selected key day kinds w l w' :
  collect kinds (process_artifact E selected key day) w = (Ok l, w') →
  length (db w') = length (db w) + length l ∧ (l = [] → db w' = db w)
  ∧ length l ≤ length kinds.
Proof.
  revert w l w'. induction kinds as [|kind kinds IH]; intros w l w'.
  { intros [= <- <-]. repeat split; cbn; lia. }
  cbn [collect]. unfold bind at 1.
  destruct (process_artifact E selected key day kind w) as [[ys|e] w1] eqn:Hp; [|done].
  apply process_artifact_rows in Hp as (Hlen1 & Hnil1 & Hone).
  unfold bind at 1.
  destruct (collect kinds _ w1) as [[rest|e] w2] eqn:Hc; [|done].
  apply IH in Hc as (Hlen2 & Hnil2 & Hmax). intros [= <- <-]. repeat split.
  - rewrite length_app. lia.
  - intros [-> ->]%app_eq_nil. rewrite Hnil2, Hnil1; done.
  - rewrite length_app. cbn. lia.
Qed.

End Recorded.

(** X6. A run that returns does so with a date exactly when it has added to
    the version table: on none the table is the one before the run, and on a
    date the table has gained between one and four rows, the date being the
    date field of an entry of the feed. *)
Theorem run_returns_date_iff_stored (E : Env) (target : option string) (w w' : world)
    (r : option string) :
  download_all_files E target w = (Ok r, w') →
  (r = None ↔ db w' = db w)
  ∧ ∀ d, r = Some d →
      length (db w) < length (db w') ≤ length (db w) + 4
      ∧ ∃ raw item, api_items E = Ok raw ∧ item ∈ raw ∧ item !! "Date" = Some d.
Proof.
  unfold download_all_files. unfold bind at 1.
  destruct (_available_items E w) as [[items|e] w0] eqn:Hav; [|done].
  destruct (available_items_dated _ _ _ _ Hav) as [Hall _].
  apply available_items_spec in Hav as (-> & raw & keyed & Hraw & _ & Hperm & _ & _).
  destruct items as [|first rest] eqn:Hitems.
  { intros [= <- <-]. split; [done|]. by intros d. }
  rewrite <- Hitems in *. cbv zeta. unfold bind at 1.
  destruct (select_item_total items (target_of target) w Hall)
    as (sel & w1 & Hsel & Hdb1 & _ & _).
  rewrite Hsel. destruct sel as [selected|].
  2: { intros [= <- <-]. split; [done|]. by intros d. }
  apply select_item_member in Hsel as [-> Hin]; [|done].
  case_bool_decide; [intros [= <- <-]; split; [done|by intros d]|].
  unfold bind at 1, item_get at 1.
  destruct (selected !! "Date") as [disp|] eqn:Hdisp; [|done]. unfold ret at 1.
  unfold bind at 1, run_artifacts.
  unfold bind at 1, item_get at 1. rewrite Hdisp. unfold ret at 1.
  unfold bind at 1, item_get at 1.
  destruct (selected !! "key") as [key|]; [|done]. unfold ret at 1.
  unfold bind at 1, _parse_item_date.
  destruct (Strptime.strptime Strptime.fmt_dbY disp) as [day|]; [|done]. unfold ret at 1.
  destruct (collect file_keys _ w) as [[l|e] w2] eqn:Hc; [|done].
  pose proof (collect_rows _ _ _ _ _ _ _ _ Hc) as (Hlen & Hnil & Hl4).
  change (length file_keys) with 4 in Hl4.
  intros [= <- <-]. split.
  - destruct l; [split; [intros _; by apply Hnil|done]|]. split; [done|]. intros Heq. rewrite Heq in Hlen. cbn in Hlen. lia.
  - intros d Hd. destruct l as [|p l]; [done|]. injection Hd as <-. split.
    + cbn in Hlen, Hl4. lia.
    + exists raw, selected. split; [done|]. split; [|done].
      rewrite Hperm in Hin. apply list_elem_of_In, filter_In in Hin as [Hin _].
      by apply list_elem_of_In.
Qed.

Lemma run_returns_date_iff_stored_witness :
  length (db empty_world) < length (db after_first_run) ≤ length (db empty_world) + 4.
Proof.
  assert (Hrun : download_all_files (demo_env NoFault) None empty_world
                 = (Ok (Some "07 Mar 2024"), after_first_run)) by by_compute.
  destruct (run_returns_date_iff_stored _ _ _ _ _ Hrun) as [_ Hd].
  by destruct (Hd "07 Mar 2024" eq_refl) as [Hlen _].
Defined.

(** ** Stored names *)

Lemma rsplit_char_notin c r : c ∉ chars r → PyStr.rsplit_char c r = None.
Proof.
  induction r as [|a r IH]; [done|]. cbn. intros Hn.
  rewrite IH by (intros ?; apply Hn; by right).
  destruct (Ascii.eqb_spec a c) as [->|]; [|done]. exfalso. apply Hn. by left.
Qed.

Lemma rsplit_char_app_last c x r :
  c ∉ chars r → PyStr.rsplit_char c (x +:+ String c r) = Some (x, r).
Proof.
  intros Hr. induction x as [|a x IH]; str_simpl.
  - cbn. rewrite rsplit_char_notin by done. by rewrite Ascii.eqb_refl.
  - cbn [PyStr.rsplit_char]. by rewrite IH.
Qed.

Lemma split_sep_of_plain n : plain n → OsPath.split_sep n = [n].
Proof.
  induction n as [|a n IH]; [done|]. intros Hp. cbn [OsPath.split_sep].
  destruct (Ascii.eqb_spec a OsPath.sep) as [->|].
  - exfalso. apply Hp. by left.
  - rewrite IH; [done|]. intros ?. apply Hp. by right.
Qed.

Lemma path_name_plain n : plain n → n ≠ "" → n ≠ "." → OsPath.path_name n = n.
Proof.
  intros Hp H1 H2. unfold OsPath.path_name. rewrite split_sep_of_plain by done.
  cbn [List.filter].
  destruct (String.eqb_spec n ""); [done|]. by destruct (String.eqb_spec n ".").
Qed.

Lemma path_name_is_plain p : plain (OsPath.path_name p).
Proof.
  unfold OsPath.path_name.
  set (l := List.filter _ _).
  assert (Hl : ∀ c, c ∈ l → plain c).
  { intros c Hc. apply list_elem_of_In, filter_In in Hc as [Hc _].
    eapply split_sep_plain. by apply list_elem_of_In. }
  clearbody l. induction l as [|c l IH]; [by intros ?%elem_of_nil|].
  destruct l as [|c' l']; [apply Hl; by left|].
  apply IH. intros x Hx. apply Hl. by right.
Qed.

Lemma stem_is_plain p : plain (OsPath.stem p).
Proof.
  pose proof (path_name_is_plain p) as Hp. rewrite <- stem_suffix in Hp.
  unfold plain in *. rewrite chars_app in Hp. intros ?. apply Hp, elem_of_app. by left.
Qed.

Lemma versioned_name_relative p x :
  PyStr.startswith (OsPath.stem p +:+ "_" +:+ x) "/" = false.
Proof.
  pose proof (stem_is_plain p) as Hp. destruct (OsPath.stem p) as [|c s]; [done|].
  str_simpl. destruct (PyStr.startswith _ "/") eqn:Hs; [|done].
  apply startswith_spec in Hs as [r Hr]. revert Hr. str_simpl. intros [= -> _].
  exfalso. apply Hp. by left.
Qed.

Lemma final_path_of_eq E p final_dir :
  final_path_of E p final_dir
  = dir_prefix final_dir +:+ OsPath.stem (OsPath.basename p) +:+ "_" +:+ str_date (today E)
      +:+ OsPath.suffix (OsPath.basename p).
Proof.
  unfold final_path_of. cbn [OsPath.join fold_left].
  rewrite join2_relative by apply versioned_name_relative. done.
Qed.

(** *** Dates in ISO notation *)

Lemma fmt4_length y : y ≤ 9999 → String.length (PyStr.fmt_0d 4 y) = 4.
Proof.
  intros (a & b & c & d & ? & ? & ? & ? & -> & _)%ParseFacts.year_shape. done.
Qed.

Lemma digit_val_inj a b v : Strptime.digit_val a = Some v → Strptime.digit_val b = Some v → a = b.
Proof.
  intros [Ha Hva]%ParseFacts.digit_val_range [Hb Hvb]%ParseFacts.digit_val_range.
  assert (nat_of_ascii a = nat_of_ascii b) as Heq by lia.
  by rewrite <- (ascii_nat_embedding a), <- (ascii_nat_embedding b), Heq.
Qed.

Lemma fmt4_inj y1 y2 :
  y1 ≤ 9999 → y2 ≤ 9999 → PyStr.fmt_0d 4 y1 = PyStr.fmt_0d 4 y2 → y1 = y2.
Proof.
  intros (a & b & c & d & va & vb & vc & vd & -> & Ha & Hb & Hc & Hd & ->)%ParseFacts.year_shape.
  intros (a' & b' & c' & d' & va' & vb' & vc' & vd' & -> & Ha' & Hb' & Hc' & Hd' & ->)
    %ParseFacts.year_shape.
  intros [= <- <- <- <-]. congruence.
Qed.

Lemma fmt2_length n : n ≤ 31 → String.length (PyStr.fmt_0d 2 n) = 2.
Proof. intros Hn. by destruct (fmt2_decode n Hn). Qed.

Lemma str_date_length d : valid_date d = true → String.length (str_date d) = 10.
Proof.
  intros (Hy & Hm & Hd)%ParseFacts.valid_date_bounds. unfold str_date.
  rewrite !str_length_app, fmt4_length, !fmt2_length by lia. done.
Qed.

Lemma str_date_inj d1 d2 :
  valid_date d1 = true → valid_date d2 = true → str_date d1 = str_date d2 → d1 = d2.
Proof.
  intros (Hy1 & Hm1 & Hd1)%ParseFacts.valid_date_bounds
         (Hy2 & Hm2 & Hd2)%ParseFacts.valid_date_bounds.
  destruct d1 as [y1 m1 n1], d2 as [y2 m2 n2]. cbn [year month day] in *.
  unfold str_date. cbn [year month day].
  intros [Hy Hrest]%str_app_inj_head; [|by rewrite !fmt4_length by lia].
  revert Hrest. str_simpl. intros [= Hrest].
  apply str_app_inj_head in Hrest as [Hm Hrest]; [|by rewrite !fmt2_length by lia].
  revert Hrest. str_simpl. intros [= Hd].
  apply fmt4_inj in Hy; [|lia..]. apply fmt2_inj in Hm; [|lia..].
  apply fmt2_inj in Hd; [|lia..]. congruence.
Qed.

(** X7. Two versions of one staged file that [store_if_changed] stores on
    different days never get the same stored path, whatever the worlds they
    are stored in. *)
Theorem versions_of_other_days_have_other_paths (E : Env) (d1 d2 : date)
    (file_path final_dir s1 s2 : string) (w1 w1' w2 w2' : world) :
  valid_date d1 = true → valid_date d2 = true → d1 ≠ d2 →
  store_if_changed (on_day d1 E) file_path final_dir w1 = (Ok (Some s1), w1') →
  store_if_changed (on_day d2 E) file_path final_dir w2 = (Ok (Some s2), w2') →
  s1 ≠ s2.
Proof.
  intros Hv1 Hv2 Hne H1%store_if_changed_stored H2%store_if_changed_stored Heq.
  subst s1 s2. rewrite !final_path_of_eq in Heq. cbn [today on_day] in Heq.
  do 3 apply str_app_inv_head in Heq.
  apply str_app_inj_tail in Heq as [Heq _]; [|done].
  by apply Hne, str_date_inj.
Qed.

Lemma versions_of_other_days_have_other_paths_witness :
  let E := demo_env NoFault in
  let first :=
    store_if_changed (on_day (mkdate 2024 3 8) E) "/data/raw/a.zip" "/data/raw"
      (staged_world "v1" []) in
  let second :=
    store_if_changed (on_day (mkdate 2024 3 9) E) "/data/raw/a.zip" "/data/raw"
      (staged_world "v2" []) in
  first.1 = Ok (Some "/data/raw/a_2024-03-08.zip")
  ∧ second.1 = Ok (Some "/data/raw/a_2024-03-09.zip")
  ∧ "/data/raw/a_2024-03-08.zip" ≠ "/data/raw/a_2024-03-09.zip".
Proof.
  cbv zeta. split; [by_compute|]. split; [by_compute|].
  apply (versions_of_other_days_have_other_paths (demo_env NoFault)
           (mkdate 2024 3 8) (mkdate 2024 3 9) "/data/raw/a.zip" "/data/raw" _ _
           (staged_world "v1" [])
           (store_if_changed (on_day (mkdate 2024 3 8) (demo_env NoFault)) "/data/raw/a.zip"
              "/data/raw" (staged_world "v1" [])).2
           (staged_world "v2" [])
           (store_if_changed (on_day (mkdate 2024 3 9) (demo_env NoFault)) "/data/raw/a.zip"
              "/data/raw" (staged_world "v2" [])).2
           eq_refl eq_refl); [discriminate|by_compute|by_compute].
Defined.

Lemma split_ext_dotted stem ext :
  stem ≠ "" → ext ≠ "" → "."%char ∉ chars ext →
  OsPath.split_ext (stem +:+ "." +:+ ext) = (stem, "." +:+ ext).
Proof.
  intros Hs He Hd. unfold OsPath.split_ext.
  change (stem +:+ "." +:+ ext) with (stem +:+ String "." ext).
  rewrite rsplit_char_app_last by done. by destruct stem, ext.
Qed.

Lemma split_ext_dotless name :
  "."%char ∉ chars name → OsPath.split_ext name = (name, "").
Proof. intros Hd. unfold OsPath.split_ext. by rewrite rsplit_char_notin. Qed.

Lemma plain_app a b : plain a → plain b → plain (a +:+ b).
Proof. unfold plain. rewrite chars_app, elem_of_app. tauto. Qed.

(** X8. The stored path of a new version is the final directory, a
    separator, and the staged name with an underscore and today's date in
    ISO notation put before its last extension: [<stem>.<ext>] is stored as
    [<stem>_<today>.<ext>], whatever dots the stem has, and a name without a
    dot as [<name>_<today>]. *)
Theorem stored_name_has_date_before_extension (E : Env) (w : world)
    (dir final_dir name vname c : string) :
  let staged := OsPath.join dir [name] in
  let stored := final_dir +:+ "/" +:+ vname in
  (∃ stem ext,
     name = stem +:+ "." +:+ ext ∧ plain stem ∧ stem ≠ "" ∧ plain ext ∧ ext ≠ ""
     ∧ ("."%char ∉ chars ext)
     ∧ vname = stem +:+ "_" +:+ str_date (today E) +:+ "." +:+ ext)
  ∨ (plain name ∧ name ≠ "" ∧ ("."%char ∉ chars name)
     ∧ vname = name +:+ "_" +:+ str_date (today E)) →
  proper_dir final_dir = true →
  fs w !! staged = Some c →
  fault_at E staged = NoFault →
  Fs.is_dir (fs w) stored = false →
  same_checksum (select_latest name (db w)) (sha256 E c) = false →
  (store_if_changed E staged final_dir w).1 = Ok (Some stored)
  ∧ fs (store_if_changed E staged final_dir w).2 !! stored = Some c.
Proof.
  intros staged stored Hname Hdir Hfile Hflt Hnd Hnew.
  assert (Hplain : plain name).
  { destruct Hname as [(stem & ext & -> & Hs & _ & He & _)|(Hp & _)]; [|done].
    apply plain_app; [done|]. apply plain_app; [|done].
    intros [[=]|[]%elem_of_nil]%elem_of_cons. }
  assert (Hbase : OsPath.basename staged = name) by by apply basename_join_plain.
  assert (Hfinal : final_path_of E staged final_dir = stored).
  { rewrite final_path_of_eq, Hbase, dir_prefix_proper by done. unfold stored.
    rewrite ?str_app_assoc. f_equal. f_equal. unfold OsPath.stem, OsPath.suffix.
    destruct Hname as [(stem & ext & -> & Hs & Hs0 & He & He0 & Hd & ->)|(_ & Hn0 & Hd & ->)].
    - rewrite path_name_plain; [|done|by destruct stem|].
      + rewrite split_ext_dotted by done. cbn [fst snd]. by rewrite ?str_app_assoc.
      + destruct stem as [|a [|b stem]], ext; try done; by destruct a as [[] [] [] [] [] [] [] []].
    - rewrite path_name_plain; [|done|done|].
      + rewrite split_ext_dotless by done. cbn [fst snd]. by rewrite ?str_app_assoc, ?str_app_nil_r.
      + intros ->. apply Hd. by left. }
  rewrite (store_if_changed_new E staged final_dir w c); rewrite ?Hfinal, ?Hbase; try done.
  cbn [fst snd fs]. split; [done|]. apply lookup_insert_eq.
Qed.

Lemma stored_name_has_date_before_extension_witness :
  let run :=
    store_if_changed (demo_env NoFault) "/data/raw/WEBPXTICK_DT-20240307.tar.gz" "/data/raw"
      (mkworld {[ "/data/raw/WEBPXTICK_DT-20240307.tar.gz" := "v1" ]} [] [] []) in
  run.1 = Ok (Some "/data/raw/WEBPXTICK_DT-20240307.tar_2024-03-08.gz")
  ∧ fs run.2 !! "/data/raw/WEBPXTICK_DT-20240307.tar_2024-03-08.gz" = Some "v1".
Proof.
  apply (stored_name_has_date_before_extension (demo_env NoFault)
           (mkworld {[ "/data/raw/WEBPXTICK_DT-20240307.tar.gz" := "v1" ]} [] [] [])
           "/data/raw" "/data/raw" "WEBPXTICK_DT-20240307.tar.gz"
           "WEBPXTICK_DT-20240307.tar_2024-03-08.gz" "v1").
  - left. exists "WEBPXTICK_DT-20240307.tar", "gz".
    split; [reflexivity|]. split; [by_compute|]. split; [discriminate|].
    split; [by_compute|]. split; [discriminate|]. split; [by_compute|reflexivity].
  - reflexivity.
  - by_compute.
  - reflexivity.
  - by_compute.
  - reflexivity.
Defined.

Lemma select_latest_from_last i name rows r :
  is_current name r = true →
  select_latest_from i name (rows ++ [r]) = Some (i + length rows, checksum r).
Proof.
  intros Hr. revert i. induction rows as [|x rows IH]; intros i.
  - cbn. rewrite Hr. do 2 f_equal. lia.
  - cbn [app select_latest_from length]. rewrite IH. do 2 f_equal. lia.
Qed.

Lemma select_latest_committed latest name day sum rows :
  select_latest name (committed_rows latest name day sum rows)
  = Some (length rows, sum).
Proof.
  unfold select_latest, committed_rows. rewrite select_latest_from_last.
  - do 2 f_equal. destruct latest as [[i c]|]; [|done].
    unfold update_valid_to. by rewrite length_alter.
  - unfold is_current. cbn. by rewrite String.eqb_refl.
Qed.

Lemma under_self d : OsPath.under d d = false.
Proof.
  unfold OsPath.under. destruct (PyStr.startswith d (d +:+ "/")) eqn:Hs; [|done].
  apply startswith_spec in Hs as [r Hr]. apply (f_equal String.length) in Hr.
  rewrite !str_length_app in Hr. cbn in Hr. lia.
Qed.

(** X9. Two versions of one file that are stored on the same day share their
    stored path: the second commit overwrites the file of the first. The
    table then holds both records, the first closed on the day it was
    opened, while the only bytes left on disk are those of the second. *)
Theorem same_day_version_overwrites_stored_file (E : Env) (w : world)
    (file_path final_dir c1 c2 : string) :
  let name := OsPath.basename file_path in
  let day := str_date (today E) in
  let stored := final_path_of E file_path final_dir in
  let first := store_if_changed E file_path final_dir w in
  let second := store_if_changed E file_path final_dir (write_file file_path c2 first.2).2 in
  fs w !! file_path = Some c1 →
  fault_at E file_path = NoFault →
  Fs.is_dir (fs w) stored = false →
  same_checksum (select_latest name (db w)) (sha256 E c1) = false →
  sha256 E c1 ≠ sha256 E c2 →
  first.1 = Ok (Some stored) ∧ fs first.2 !! stored = Some c1
  ∧ second.1 = Ok (Some stored) ∧ fs second.2 !! stored = Some c2
  ∧ fs second.2 = <[stored := c2]> (delete file_path (fs w))
  ∧ length (db second.2) = length (db w) + 2
  ∧ db second.2 !! length (db w) = Some (mkrow name day (sha256 E c1) day (Some day))
  ∧ db second.2 !! S (length (db w)) = Some (mkrow name day (sha256 E c2) day None).
Proof.
  intros name day stored first second Hfile Hflt Hdir Hnew Hsum.
  assert (H1 : first = (Ok (Some stored),
                        mkworld (<[stored := c1]> (delete file_path (fs w)))
                          (committed_rows (select_latest name (db w)) name day (sha256 E c1)
                             (db w)) (s3calls w) (logs w))).
  { unfold first. by rewrite (store_if_changed_new E file_path final_dir w c1). }
  set (rows1 := committed_rows (select_latest name (db w)) name day (sha256 E c1) (db w)) in *.
  set (f1 := <[file_path := c2]> (<[stored := c1]> (delete file_path (fs w)))).
  assert (Hw : (write_file file_path c2 first.2).2 = mkworld f1 rows1 (s3calls w) (logs w)).
  { by rewrite H1. }
  assert (H2 : second = (Ok (Some stored),
                         mkworld (<[stored := c2]> (delete file_path f1))
                           (committed_rows (Some (length (db w), sha256 E c1)) name day
                              (sha256 E c2) rows1) (s3calls w) (logs w))).
  { unfold second. rewrite Hw.
    rewrite (store_if_changed_new E file_path final_dir _ c2); cbn [fs db s3calls logs].
    - fold name day stored. unfold rows1 at 1. by rewrite select_latest_committed.
    - unfold f1. apply lookup_insert_eq.
    - done.
    - fold stored. apply is_dir_false. intros k Hk.
      rewrite is_dir_false in Hdir. unfold f1 in Hk.
      destruct (decide (k = file_path)) as [->|Hk1]; [apply Hdir; by eexists|].
      rewrite lookup_insert_ne in Hk by done.
      destruct (decide (k = stored)) as [->|Hk2]; [apply under_self|].
      rewrite lookup_insert_ne, lookup_delete_ne in Hk by done. by apply Hdir.
    - fold name. unfold rows1. rewrite select_latest_committed. cbn.
      by apply String.eqb_neq. }
  rewrite H1, H2. cbn [fst snd fs db].
  split; [done|]. split; [apply lookup_insert_eq|]. split; [done|].
  split; [apply lookup_insert_eq|]. split.
  { unfold f1. rewrite delete_insert_eq. apply map_eq. intros k.
    destruct (decide (k = stored)) as [->|Hk]; [by rewrite !lookup_insert_eq|].
    rewrite !lookup_insert_ne by done.
    destruct (decide (k = file_path)) as [->|Hk']; [by rewrite !lookup_delete_eq|].
    by rewrite !lookup_delete_ne, lookup_insert_ne, lookup_delete_ne by done. }
  assert (Hlen1 : length rows1 = S (length (db w))) by apply committed_rows_length.
  assert (Hlast : rows1 !! length (db w) = Some (mkrow name day (sha256 E c1) day None)).
  { unfold rows1, committed_rows.
    rewrite lookup_app_r; [|destruct (select_latest _ _) as [[]|];
                            [unfold update_valid_to; rewrite length_alter|]; lia].
    replace (length (db w) - _) with 0; [done|].
    destruct (select_latest _ _) as [[]|]; [unfold update_valid_to; rewrite length_alter|]; lia. }
  split; [rewrite committed_rows_length; lia|].
  unfold committed_rows at 1 2. split.
  - rewrite lookup_app_l by (unfold update_valid_to; rewrite length_alter; lia).
    rewrite update_valid_to_lookup, Hlast. cbn. by rewrite decide_True.
  - rewrite lookup_app_r by (unfold update_valid_to; rewrite length_alter; lia).
    unfold update_valid_to. rewrite length_alter, Hlen1. by rewrite Nat.sub_diag.
Qed.

Lemma same_day_version_overwrites_stored_file_witness :
  let first := store_if_changed (demo_env NoFault) "/data/raw/a.zip" "/data/raw"
                 (staged_world "v1" []) in
  let second := store_if_changed (demo_env NoFault) "/data/raw/a.zip" "/data/raw"
                  (write_file "/data/raw/a.zip" "v2" first.2).2 in
  fs second.2 = {[ "/data/raw/a_2024-03-08.zip" := "v2" ]}
  ∧ length (db second.2) = 2
  ∧ db second.2 !! 0
    = Some (mkrow "a.zip" "2024-03-08" "sha:v1" "2024-03-08" (Some "2024-03-08")).
Proof.
  cbv zeta.
  destruct (same_day_version_overwrites_stored_file (demo_env NoFault) (staged_world "v1" [])
              "/data/raw/a.zip" "/data/raw" "v1" "v2")
    as (_ & _ & _ & _ & Hfs & Hlen & Hr1 & Hr2).
  - reflexivity.
  - reflexivity.
  - by_compute.
  - reflexivity.
  - discriminate.
  - split; [rewrite Hfs; by_compute|]. split; [exact Hlen|].
    etrans; [exact Hr1|]. by_compute.
Defined.

(** ** Where a run writes *)

(** X10. A file name of the feed that is an absolute path is staged at that
    very path, whatever the target directory: [download] writes the body
    over what was there. *)
Theorem absolute_file_name_is_staged_outside (E : Env) (url filename target_dir : string)
    (w : world) (resp : response) :
  PyStr.startswith filename "/" = true →
  http_get E url = Ok resp → status_code resp = 200 → stream_breaks resp = None →
  download E url filename target_dir w
  = (Ok (Some filename), set_fs (<[filename := content resp]> (fs w)) w).
Proof.
  intros Habs Hget Hst Hbr. rewrite download_unfold, Hget, Hst, Hbr. cbv zeta.
  change (200 =? 200) with true. cbv iota.
  cbn [OsPath.join fold_left]. unfold OsPath.join2. by rewrite Habs.
Qed.

Lemma absolute_file_name_is_staged_outside_witness :
  let body := "body of u" in
  download (demo_env NoFault) "u" "/etc/hosts" "/data/raw"
    (mkworld {[ "/etc/hosts" := "127.0.0.1 localhost" ]} [] [] [])
  = (Ok (Some "/etc/hosts"), mkworld {[ "/etc/hosts" := body ]} [] [] []).
Proof.
  cbv zeta.
  rewrite (absolute_file_name_is_staged_outside (demo_env NoFault) "u" "/etc/hosts" "/data/raw"
             _ (mkresponse 200 "body of u" None)); reflexivity.
Defined.

(** X11. [process_file] changes no file but the staged one, the stored one,
    and what lies in the extraction directory and in the partition directory
    of the table: every path that begins with none of these four holds after
    the call what it held before, whether the call returns or raises. *)
Theorem process_file_leaves_other_files (E : Env) (file_path final_dir upload_prefix : string)
    (day : date) (table_for_zip : option string) (w : world) (p : string) :
  let stored := final_path_of E file_path final_dir in
  PyStr.startswith p file_path = false →
  PyStr.startswith p stored = false →
  PyStr.startswith p (extract_dir_of stored) = false →
  (∀ table, table_for_zip = Some table →
            PyStr.startswith p (_partition_dir E table day) = false) →
  fs (process_file E file_path final_dir upload_prefix day table_for_zip w).2 !! p
  = fs w !! p.
Proof.
  intros stored Hp1 Hp2 Hp3 Hp4. rewrite process_file_unfold.
  assert (Hstore : fs (store_if_changed E file_path final_dir w).2 !! p = fs w !! p).
  { rewrite store_if_changed_unfold.
    destruct (fs w !! file_path) as [c|]; [|done]. cbv zeta.
    destruct (same_checksum _ _).
    { cbn. apply lookup_delete_ne. intros <-. by rewrite startswith_refl in Hp1. }
    case_decide; [done|]. fold stored.
    destruct (Fs.move file_path stored (fs w)) as [f'|e] eqn:Hmv; [|done].
    pose proof (Fs_move_frame _ _ _ _ p Hmv Hp1 Hp2) as Hf.
    by destruct (commit_rows _ _ _ _ _ _). }
  destruct (store_if_changed E file_path final_dir w) as [[[sp|]|e] w1] eqn:Hs; try done.
  apply store_if_changed_stored in Hs. fold stored in Hs. subst sp.
  cbn [snd] in Hstore.
  destruct (negb _); [done|]. cbv zeta.
  set (w2 := (push_to_minio E stored "datalake" upload_prefix w1).2).
  assert (Hw2 : fs w2 !! p = fs w !! p).
  { rewrite <- Hstore. unfold w2, push_to_minio, s3_upload. cbn. by destruct (_ && _). }
  destruct table_for_zip as [table|]; [|done].
  destruct (is_container stored (Some table)); [|done].
  pose proof (steady_load_container E stored table day w2) as [_ Hfr].
  specialize (Hfr p). rewrite <- Hw2, <- Hfr.
  - by destruct (load_container E stored table day w2) as [[[]|e] w3].
  - repeat constructor; [done|]. by apply Hp4.
Qed.

Lemma process_file_leaves_other_files_witness :
  let done :=
    process_file (demo_env NoFault) "/data/raw/WEBPXTICK_DT-20240307.zip" "/data/raw" "raw"
      (mkdate 2024 3 7) (Some "WEBPXTICK_DT") busy_world in
  done.1 = Ok (Some "/data/raw/WEBPXTICK_DT-20240307_2024-03-08.zip")
  ∧ fs done.2 !! "/data/raw/notes.txt" = Some "keep".
Proof.
  cbv zeta. split; [by_compute|].
  rewrite (process_file_leaves_other_files (demo_env NoFault)
             "/data/raw/WEBPXTICK_DT-20240307.zip" "/data/raw" "raw" (mkdate 2024 3 7)
             (Some "WEBPXTICK_DT") busy_world "/data/raw/notes.txt").
  - by_compute.
  - by_compute.
  - by_compute.
  - by_compute.
  - intros table [= <-]. by_compute.
Defined.

(** ** Further properties of the date notations *)

Lemma lstrip_blank l x : blank l = true → PyStr.lstrip (l +:+ x) = PyStr.lstrip x.
Proof.
  induction l as [|a l IH]; [done|]. unfold blank. cbn [chars forallb].
  intros [Ha Hl]%andb_true_iff. str_simpl. cbn [PyStr.lstrip]. rewrite Ha. by apply IH.
Qed.

Lemma rstrip_blank r : blank r = true → PyStr.rstrip r = "".
Proof.
  induction r as [|a r IH]; [done|]. unfold blank. cbn [chars forallb].
  intros [Ha Hr]%andb_true_iff. cbn [PyStr.rstrip]. rewrite IH by done. by rewrite Ha.
Qed.

Lemma rstrip_app_blank x r : blank r = true → PyStr.rstrip (x +:+ r) = PyStr.rstrip x.
Proof.
  intros Hr. induction x as [|a x IH]; str_simpl.
  - by apply rstrip_blank.
  - cbn [PyStr.rstrip]. by rewrite IH.
Qed.

Lemma lstrip_app s r : PyStr.lstrip s ≠ "" → PyStr.lstrip (s +:+ r) = PyStr.lstrip s +:+ r.
Proof.
  induction s as [|a s IH]; [done|]. str_simpl. cbn [PyStr.lstrip].
  destruct (PyStr.is_space a); [apply IH|done].
Qed.

Lemma lstrip_empty_blank s : PyStr.lstrip s = "" → blank s = true.
Proof.
  induction s as [|a s IH]; [done|]. cbn [PyStr.lstrip]. unfold blank. cbn [chars forallb].
  destruct (PyStr.is_space a); [|done]. intros Hs. by apply IH.
Qed.

Lemma blank_app a b : blank a = true → blank b = true → blank (a +:+ b) = true.
Proof. unfold blank. rewrite chars_app, forallb_app. by intros -> ->. Qed.

Lemma strip_padded l s r :
  blank l = true → blank r = true → PyStr.strip (l +:+ s +:+ r) = PyStr.strip s.
Proof.
  intros Hl Hr. unfold PyStr.strip. rewrite lstrip_blank by done.
  destruct (PyStr.lstrip s) as [|a t] eqn:Hs.
  - apply lstrip_empty_blank in Hs.
    rewrite <- (str_app_nil_r (s +:+ r)), lstrip_blank by by apply blank_app. done.
  - rewrite lstrip_app by by rewrite Hs. rewrite Hs. by apply rstrip_app_blank.
Qed.

(** X12. White space before and after a target is ignored: padded with
    white space on either side, a string is read by [_parse_input_date] as
    the string itself is, be it as a date or as no date. *)
Theorem parse_input_date_ignores_outer_space (l s r : string) :
  blank l = true → blank r = true →
  _parse_input_date (l +:+ s +:+ r) = _parse_input_date s.
Proof.
  intros Hl Hr. unfold _parse_input_date. cbv zeta. rewrite strip_padded by done.
  destruct (PyStr.truthy (l +:+ s +:+ r)) eqn:Ht; cbn [negb].
  - destruct s; [|done]. cbn [PyStr.truthy negb]. by vm_compute.
  - destruct l; [|done]. by destruct s.
Qed.

Lemma parse_input_date_ignores_outer_space_witness :
  _parse_input_date "  07/03/2024 " = Some (mkdate 2024 3 7).
Proof.
  etrans; [exact (parse_input_date_ignores_outer_space "  " "07/03/2024" " " eq_refl eq_refl)|].
  vm_compute; reflexivity.
Defined.

(** *** Numerals with and without a leading zero *)

Lemma p_digit_some lo hi a v r :
  Strptime.digit_val a = Some v →
  Strptime.p_digit lo hi (String a r) = if (lo <=? v) && (v <=? hi) then [(v, r)] else [].
Proof. intros Ha. unfold Strptime.p_digit. by rewrite Ha. Qed.

Lemma p_digit_none lo hi c r :
  Strptime.digit_val c = None → Strptime.p_digit lo hi (String c r) = [].
Proof. intros Hc. unfold Strptime.p_digit. by rewrite Hc. Qed.

Lemma str_nat_small n :
  1 ≤ n ≤ 9 → ∃ a, PyStr.str_nat n = String a "" ∧ Strptime.digit_val a = Some n.
Proof.
  intros Hn. do 10 (destruct n as [|n]; [first [lia | by eexists]|]). lia.
Qed.

Lemma str_nat_two n : 10 ≤ n ≤ 31 → PyStr.str_nat n = PyStr.fmt_0d 2 n.
Proof.
  intros Hn. do 32 (destruct n as [|n]; [first [lia | reflexivity]|]). lia.
Qed.

Lemma starts_day_single a v s :
  Strptime.digit_val a = Some v → 1 ≤ v ≤ 9 →
  Strptime.p_digit 0 9 s = [] →
  starts Strptime.p_day (String a s) v s.
Proof.
  intros Ha Hv Hs. unfold starts, Strptime.p_day, Strptime.p_alt, Strptime.p_bind.
  cbn [flat_map fst snd]. rewrite !(p_digit_some _ _ a v) by done.
  assert (H01 : Strptime.p_digit 0 1 s = []).
  { revert Hs. unfold Strptime.p_digit. destruct s as [|c r]; [done|].
    destruct (Strptime.digit_val c) as [x|]; [|done].
    destruct ((0 <=? x) && (x <=? 9)) eqn:H9; [done|]. intros _.
    destruct ((0 <=? x) && (x <=? 1)) eqn:H1; [|done].
    apply andb_true_iff in H1 as [_ H1%Nat.leb_le].
    apply andb_false_iff in H9 as [H9|H9%Nat.leb_gt]; [done|lia]. }
  assert (Hlit : Strptime.p_lit " " (String a s) = []).
  { unfold Strptime.p_lit. destruct (Ascii.eqb_spec a " ") as [->|]; [done|done]. }
  rewrite Hlit.
  replace ((1 <=? v) && (v <=? 9)) with true
    by (symmetry; apply andb_true_iff; split; apply Nat.leb_le; lia).
  replace ((0 <=? v) && (v <=? 0)) with false
    by (symmetry; apply andb_false_iff; right; apply Nat.leb_gt; lia).
  destruct ((3 <=? v) && (v <=? 3)); destruct ((1 <=? v) && (v <=? 2));
    cbn [flat_map fst snd app]; rewrite ?H01, ?Hs; cbn [flat_map app]; by eexists.
Qed.

Lemma starts_month_single a v s :
  Strptime.digit_val a = Some v → 1 ≤ v ≤ 9 →
  Strptime.p_digit 0 9 s = [] →
  starts Strptime.p_month (String a s) v s.
Proof.
  intros Ha Hv Hs. unfold starts, Strptime.p_month, Strptime.p_alt, Strptime.p_bind.
  cbn [flat_map fst snd]. rewrite !(p_digit_some _ _ a v) by done.
  assert (H02 : Strptime.p_digit 0 2 s = []).
  { revert Hs. unfold Strptime.p_digit. destruct s as [|c r]; [done|].
    destruct (Strptime.digit_val c) as [x|]; [|done].
    destruct ((0 <=? x) && (x <=? 9)) eqn:H9; [done|]. intros _.
    destruct ((0 <=? x) && (x <=? 2)) eqn:H1; [|done].
    apply andb_true_iff in H1 as [_ H1%Nat.leb_le].
    apply andb_false_iff in H9 as [H9|H9%Nat.leb_gt]; [done|lia]. }
  replace ((1 <=? v) && (v <=? 9)) with true
    by (symmetry; apply andb_true_iff; split; apply Nat.leb_le; lia).
  replace ((0 <=? v) && (v <=? 0)) with false
    by (symmetry; apply andb_false_iff; right; apply Nat.leb_gt; lia).
  destruct ((1 <=? v) && (v <=? 1));
    cbn [flat_map fst snd app]; rewrite ?H02; cbn [flat_map app]; by eexists.
Qed.

(** What may follow a numeral: the end of the string, or a character that
    is no digit. *)
Lemma no_digit_ahead c r :
  Strptime.digit_val c = None → Strptime.p_digit 0 9 (String c r) = [].
Proof. apply p_digit_none. Qed.

Lemma starts_day_form dd ds s :
  1 ≤ dd ≤ 31 → ds ∈ numeral_forms dd → Strptime.p_digit 0 9 s = [] →
  starts Strptime.p_day (ds +:+ s) dd s.
Proof.
  intros Hd Hds Hs. unfold numeral_forms in Hds.
  apply elem_of_cons in Hds as [->|Hds]; [|apply list_elem_of_singleton in Hds as ->].
  - destruct (decide (dd ≤ 9)) as [Hsmall|Hbig].
    + destruct (str_nat_small dd) as (a & -> & Ha); [lia|]. str_simpl.
      apply starts_day_single; [done|lia|done].
    + rewrite str_nat_two by lia. by apply ParseFacts.starts_day.
  - by apply ParseFacts.starts_day.
Qed.

Lemma starts_month_form m ms s :
  1 ≤ m ≤ 12 → ms ∈ numeral_forms m → Strptime.p_digit 0 9 s = [] →
  starts Strptime.p_month (ms +:+ s) m s.
Proof.
  intros Hm Hms Hs. unfold numeral_forms in Hms.
  apply elem_of_cons in Hms as [->|Hms]; [|apply list_elem_of_singleton in Hms as ->].
  - destruct (decide (m ≤ 9)) as [Hsmall|Hbig].
    + destruct (str_nat_small m) as (a & -> & Ha); [lia|]. str_simpl.
      apply starts_month_single; [done|lia|done].
    + rewrite str_nat_two by lia. by apply ParseFacts.starts_month.
  - by apply ParseFacts.starts_month.
Qed.

Lemma numeral_form_shape n ds :
  1 ≤ n ≤ 31 → ds ∈ numeral_forms n →
  (∃ a, ds = String a "" ∧ is_digit a)
  ∨ (∃ a b, ds = String a (String b "") ∧ is_digit a ∧ is_digit b).
Proof.
  intros Hn Hds. unfold numeral_forms in Hds.
  assert (Htwo : ∃ a b, PyStr.fmt_0d 2 n = String a (String b "") ∧ is_digit a ∧ is_digit b).
  { destruct (ParseFacts.two_digit_shape n) as (a & b & va & vb & -> & Ha & Hb); [lia|].
    exists a, b. split; [done|]. split; by eexists. }
  apply elem_of_cons in Hds as [->|Hds]; [|apply list_elem_of_singleton in Hds as ->].
  - destruct (decide (n ≤ 9)) as [Hsmall|Hbig].
    + destruct (str_nat_small n) as (a & -> & Ha); [lia|]. left. exists a. split; [done|].
      by eexists.
    + rewrite str_nat_two by lia. by right.
  - by right.
Qed.

Lemma is_digit_not_space c : is_digit c → PyStr.is_space c = false.
Proof. intros [v Hv]. by eapply ParseFacts.digit_not_space. Qed.

Lemma is_digit_not_lit c x : is_digit c → Strptime.digit_val x = None → Ascii.eqb c x = false.
Proof. intros [v Hv]. by eapply ParseFacts.digit_not_lit. Qed.

(** *** Strings that [strip] leaves as they are *)

Lemma rstrip_app_keep u v : PyStr.rstrip v = v → v ≠ "" → PyStr.rstrip (u +:+ v) = u +:+ v.
Proof.
  intros Hv Hne. induction u as [|a u IH]; str_simpl; [done|].
  cbn [PyStr.rstrip]. rewrite IH. by destruct u, v.
Qed.

Lemma rstrip_numeral n ds : 1 ≤ n ≤ 31 → ds ∈ numeral_forms n → PyStr.rstrip ds = ds ∧ ds ≠ "".
Proof.
  intros Hn Hds.
  destruct (numeral_form_shape n ds Hn Hds) as [(a & -> & Ha)|(a & b & -> & Ha & Hb)].
  - cbn. by rewrite is_digit_not_space.
  - cbn. by rewrite (is_digit_not_space b).
Qed.

Lemma rstrip_year y : y ≤ 9999 → PyStr.rstrip (PyStr.fmt_0d 4 y) = PyStr.fmt_0d 4 y
                                 ∧ PyStr.fmt_0d 4 y ≠ "".
Proof.
  intros (a & b & c & d & ? & ? & ? & vd & -> & _ & _ & _ & Hd & _)%ParseFacts.year_shape.
  cbn. by rewrite (ParseFacts.digit_not_space d vd).
Qed.

Lemma lstrip_numeral n ds s :
  1 ≤ n ≤ 31 → ds ∈ numeral_forms n → PyStr.lstrip (ds +:+ s) = ds +:+ s.
Proof.
  intros Hn Hds.
  destruct (numeral_form_shape n ds Hn Hds) as [(a & -> & Ha)|(a & b & -> & Ha & Hb)];
    str_simpl; cbn [PyStr.lstrip]; by rewrite is_digit_not_space.
Qed.

Lemma truthy_numeral n ds s :
  1 ≤ n ≤ 31 → ds ∈ numeral_forms n → PyStr.truthy (ds +:+ s) = true.
Proof.
  intros Hn Hds.
  by destruct (numeral_form_shape n ds Hn Hds) as [(a & -> & Ha)|(a & b & -> & Ha & Hb)].
Qed.

(** *** Formats that do not fit *)

Lemma p_digit_cases lo hi a s :
  Strptime.p_digit lo hi (String a s) = [] ∨ ∃ v, Strptime.p_digit lo hi (String a s) = [(v, s)].
Proof.
  unfold Strptime.p_digit. destruct (Strptime.digit_val a) as [v|]; [|by left].
  destruct (_ && _); [right; by eexists|by left].
Qed.

Lemma p_bind_nil {A B} (p : Strptime.parser A) (k : A → Strptime.parser B) s :
  p s = [] → Strptime.p_bind p k s = [].
Proof. intros Hp. unfold Strptime.p_bind. by rewrite Hp. Qed.

Lemma p_bind_one {A B} (p : Strptime.parser A) (k : A → Strptime.parser B) s a r :
  p s = [(a, r)] → Strptime.p_bind p k s = k a r.
Proof. intros Hp. unfold Strptime.p_bind. rewrite Hp. cbn. by rewrite app_nil_r. Qed.

Lemma p_year_needs_digit2 a b r :
  Strptime.digit_val b = None → Strptime.p_year (String a (String b r)) = [].
Proof.
  intros Hb. unfold Strptime.p_year.
  destruct (p_digit_cases 0 9 a (String b r)) as [Ha|[v Ha]].
  - by apply p_bind_nil.
  - rewrite (p_bind_one _ _ _ _ _ Ha). apply p_bind_nil. by apply p_digit_none.
Qed.

Lemma p_year_needs_digit3 a b c r :
  Strptime.digit_val c = None → Strptime.p_year (String a (String b (String c r))) = [].
Proof.
  intros Hc. unfold Strptime.p_year.
  destruct (p_digit_cases 0 9 a (String b (String c r))) as [Ha|[v Ha]].
  - by apply p_bind_nil.
  - rewrite (p_bind_one _ _ _ _ _ Ha).
    destruct (p_digit_cases 0 9 b (String c r)) as [Hb|[v' Hb]].
    + by apply p_bind_nil.
    + rewrite (p_bind_one _ _ _ _ _ Hb). apply p_bind_nil. by apply p_digit_none.
Qed.

Lemma fmt_Ymd_needs_year s : Strptime.p_year s = [] → Strptime.fmt_Ymd s = [].
Proof. intros Hs. unfold Strptime.fmt_Ymd, Strptime.p_bind at 1. by rewrite Hs. Qed.

Lemma month_abbr_shape m :
  1 ≤ m ≤ 12 →
  ∃ a b c, nth (m - 1) Strptime.month_abbr "" = String a (String b (String c ""))
           ∧ Ascii.eqb a "/" = false ∧ PyStr.is_space a = false
           ∧ PyStr.is_space c = false ∧ Strptime.digit_val a = None.
Proof.
  intros Hm. do 13 (destruct m as [|m]; [first [lia | by eexists _, _, _]|]). lia.
Qed.

(** X13. A valid date is read by [_parse_input_date] in each of the three
    notations whether its day and its month are written with a leading zero
    or without: as D/M/YYYY, as YYYY-M-D, and as D Mon YYYY. *)
Theorem parse_input_date_accepts_short_numerals (d : date) (ds ms : string) :
  valid_date d = true →
  ds ∈ numeral_forms (day d) → ms ∈ numeral_forms (month d) →
  _parse_input_date (ds +:+ "/" +:+ ms +:+ "/" +:+ PyStr.fmt_0d 4 (year d)) = Some d
  ∧ _parse_input_date (PyStr.fmt_0d 4 (year d) +:+ "-" +:+ ms +:+ "-" +:+ ds) = Some d
  ∧ _parse_input_date
      (ds +:+ " " +:+ nth (month d - 1) Strptime.month_abbr "" +:+ " "
         +:+ PyStr.fmt_0d 4 (year d)) = Some d.
Proof.
  intros Hv Hds Hms. destruct (ParseFacts.valid_date_bounds d Hv) as (Hy & Hm & Hd).
  destruct d as [y m dd]. cbn [year month day] in *.
  assert (Hm31 : 1 ≤ m ≤ 31) by lia.
  destruct (rstrip_year y) as [Hry Hny]; [lia|].
  destruct (rstrip_numeral dd ds Hd Hds) as [Hrd Hnd].
  destruct (rstrip_numeral m ms Hm31 Hms) as [Hrm Hnm].
  assert (Hyear : starts Strptime.p_year (PyStr.fmt_0d 4 y) y "").
  { rewrite <- (str_app_nil_r (PyStr.fmt_0d 4 y)) at 1. apply ParseFacts.starts_year. lia. }
  split; [|split].
  - set (s := ds +:+ "/" +:+ ms +:+ "/" +:+ PyStr.fmt_0d 4 y).
    assert (Hst : starts Strptime.fmt_dmY s (mkdate y m dd) "").
    { unfold Strptime.fmt_dmY, s.
      eapply ParseFacts.starts_bind; [by apply (starts_day_form dd)|].
      eapply ParseFacts.starts_bind; [apply ParseFacts.starts_lit|].
      eapply ParseFacts.starts_bind; [by apply (starts_month_form m)|].
      eapply ParseFacts.starts_bind; [apply ParseFacts.starts_lit|].
      eapply ParseFacts.starts_bind; [exact Hyear|apply ParseFacts.starts_ret]. }
    unfold _parse_input_date. cbv zeta. fold s.
    assert (Hs : PyStr.truthy s = true ∧ PyStr.strip s = s).
    { split; [by apply (truthy_numeral dd)|]. unfold PyStr.strip, s.
      rewrite (lstrip_numeral dd) by done.
      apply rstrip_app_keep; [|done]. str_simpl. apply ParseFacts.rstrip_cons.
      { intros Heq. by destruct ms. }
      apply rstrip_app_keep; [|done]. str_simpl. by apply ParseFacts.rstrip_cons. }
    destruct Hs as [-> ->]. cbn [negb].
    by rewrite (ParseFacts.strptime_starts _ _ (mkdate y m dd)).
  - set (s := PyStr.fmt_0d 4 y +:+ "-" +:+ ms +:+ "-" +:+ ds).
    assert (Hst : starts Strptime.fmt_Ymd s (mkdate y m dd) "").
    { unfold Strptime.fmt_Ymd, s.
      eapply ParseFacts.starts_bind; [apply ParseFacts.starts_year; lia|].
      eapply ParseFacts.starts_bind; [apply ParseFacts.starts_lit|].
      eapply ParseFacts.starts_bind; [by apply (starts_month_form m)|].
      eapply ParseFacts.starts_bind; [apply ParseFacts.starts_lit|].
      eapply ParseFacts.starts_bind; [|apply ParseFacts.starts_ret].
      rewrite <- (str_app_nil_r ds) at 1. by apply (starts_day_form dd). }
    unfold _parse_input_date. cbv zeta. fold s.
    assert (Hs : PyStr.truthy s = true ∧ PyStr.strip s = s ∧ Strptime.fmt_dmY s = []).
    { unfold s.
      destruct (ParseFacts.year_shape y)
        as (a & b & c & e & ? & ? & ? & ? & HY & Ha & Hb & Hc & He & _); [lia|].
      rewrite HY. str_simpl. split; [done|]. split.
      - unfold PyStr.strip. cbn [PyStr.lstrip].
        rewrite (ParseFacts.digit_not_space a _ Ha).
        do 5 (apply ParseFacts.rstrip_cons; [by destruct ms|]).
        apply rstrip_app_keep; [|done]. str_simpl. by apply ParseFacts.rstrip_cons.
      - apply ParseFacts.fmt_dmY_needs_slash; by eapply ParseFacts.digit_not_lit. }
    destruct Hs as (-> & -> & Hno). cbn [negb].
    rewrite (ParseFacts.strptime_nil Strptime.fmt_dmY) by done.
    by rewrite (ParseFacts.strptime_starts _ _ (mkdate y m dd)).
  - destruct (month_abbr_shape m Hm) as (m1 & m2 & m3 & HM & Hm1 & Hsp1 & Hsp3 & Hnd1).
    set (s := ds +:+ " " +:+ nth (m - 1) Strptime.month_abbr "" +:+ " " +:+ PyStr.fmt_0d 4 y).
    destruct (ParseFacts.year_shape y)
      as (a & b & c & e & ? & ? & ? & ? & HY & Ha & Hb & Hc & He & _); [lia|].
    assert (Hst : starts Strptime.fmt_dbY s (mkdate y m dd) "").
    { unfold Strptime.fmt_dbY, s.
      eapply ParseFacts.starts_bind; [by apply (starts_day_form dd)|].
      eapply ParseFacts.starts_bind; [by apply ParseFacts.starts_space_month|].
      eapply ParseFacts.starts_bind; [by apply ParseFacts.starts_month_abbr|].
      eapply ParseFacts.starts_bind.
      { rewrite HY. str_simpl. apply ParseFacts.starts_space.
        by eapply ParseFacts.digit_not_space. }
      eapply ParseFacts.starts_bind; [|apply ParseFacts.starts_ret].
      by rewrite <- HY. }
    unfold _parse_input_date. cbv zeta. fold s.
    assert (Hs : PyStr.truthy s = true ∧ PyStr.strip s = s
                 ∧ Strptime.fmt_dmY s = [] ∧ Strptime.fmt_Ymd s = []).
    { split; [by apply (truthy_numeral dd)|]. split.
      { unfold PyStr.strip, s. rewrite (lstrip_numeral dd) by done.
        apply rstrip_app_keep; [|done]. rewrite HM. str_simpl.
        do 4 (apply ParseFacts.rstrip_cons; [done|]). by apply ParseFacts.rstrip_cons. }
      unfold s. rewrite HM.
      destruct (numeral_form_shape dd ds Hd Hds) as [(q & -> & Hq)|(q & q' & -> & Hq & Hq')];
        str_simpl.
      - split.
        + by apply ParseFacts.fmt_dmY_needs_slash.
        + by apply fmt_Ymd_needs_year, p_year_needs_digit2.
      - split.
        + apply ParseFacts.fmt_dmY_needs_slash; [by apply is_digit_not_lit|done].
        + by apply fmt_Ymd_needs_year, p_year_needs_digit3. }
    destruct Hs as (-> & -> & Hno1 & Hno2). cbn [negb].
    rewrite (ParseFacts.strptime_nil Strptime.fmt_dmY) by done.
    rewrite (ParseFacts.strptime_nil Strptime.fmt_Ymd) by done.
    by rewrite (ParseFacts.strptime_starts _ _ (mkdate y m dd)).
Qed.

Lemma parse_input_date_accepts_short_numerals_witness :
  _parse_input_date "7/3/2024" = Some (mkdate 2024 3 7)
  ∧ _parse_input_date "2024-3-7" = Some (mkdate 2024 3 7)
  ∧ _parse_input_date "7 Mar 2024" = Some (mkdate 2024 3 7).
Proof.
  apply (parse_input_date_accepts_short_numerals (mkdate 2024 3 7) "7" "3").
  - reflexivity.
  - by left.
  - by left.
Defined.

(** *** The notation of the feed *)

Lemma space_not_digit c : PyStr.is_space c = true → Strptime.digit_val c = None.
Proof.
  intros Hc. destruct (Strptime.digit_val c) as [v|] eqn:Hv; [|done].
  apply ParseFacts.digit_not_space in Hv. congruence.
Qed.

Lemma ws_tails_run ws c r :
  blank ws = true → ws ≠ "" → PyStr.is_space c = false →
  ∃ l, Strptime.ws_tails (ws +:+ String c r) = String c r :: l.
Proof.
  induction ws as [|a ws IH]; [done|]. unfold blank. cbn [chars forallb].
  intros [Ha Hws]%andb_true_iff _ Hc. str_simpl. cbn [Strptime.ws_tails]. rewrite Ha.
  destruct ws as [|b ws'].
  - str_simpl. cbn [Strptime.ws_tails]. rewrite Hc. by eexists.
  - destruct IH as [l Hl]; [done|done|done|]. rewrite Hl. by eexists.
Qed.

Lemma starts_spaces_run ws c r :
  blank ws = true → ws ≠ "" → PyStr.is_space c = false →
  starts Strptime.p_spaces (ws +:+ String c r) tt (String c r).
Proof.
  intros Hws Hne Hc. destruct (ws_tails_run ws c r Hws Hne Hc) as [l Hl].
  unfold starts, Strptime.p_spaces. rewrite Hl. by eexists.
Qed.

Lemma lower_char_space c : PyStr.is_space c = true → PyStr.lower_char c = c.
Proof.
  unfold PyStr.is_space, PyStr.lower_char, PyStr.is_upper. cbv zeta.
  intros [[_ H]%andb_true_iff|[_ H]%andb_true_iff]%orb_true_iff; apply Nat.leb_le in H;
    (replace (65 <=? nat_of_ascii c) with false; [done|symmetry; apply Nat.leb_gt; lia]).
Qed.

Lemma month_any_case m mon :
  1 ≤ m ≤ 12 →
  PyStr.lower mon = PyStr.lower (nth (m - 1) Strptime.month_abbr "") →
  ∃ a b c, mon = String a (String b (String c ""))
           ∧ PyStr.is_space a = false
           ∧ ∀ r, starts Strptime.p_month_abbr (String a (String b (String c r))) m r.
Proof.
  intros Hm Hlow.
  destruct mon as [|a [|b [|c [|x mon]]]];
    try (exfalso; revert Hlow;
         do 13 (destruct m as [|m]; [first [lia | discriminate]|]); lia).
  exists a, b, c. split; [done|]. cbn [PyStr.lower] in Hlow. split.
  - destruct (PyStr.is_space a) eqn:Hsp; [|done]. exfalso.
    rewrite (lower_char_space a Hsp) in Hlow. revert Hsp Hlow.
    do 13 (destruct m as [|m]; [first [lia | by intros Hsp [= -> _ _]]|]). lia.
  - intros r. unfold starts, Strptime.p_month_abbr. cbn [PyStr.lower]. rewrite Hlow.
    do 13 (destruct m as [|m]; [first [lia | by eexists]|]). lia.
Qed.

(** X14. [_parse_item_date] reads the date of a feed entry whatever the case
    of the letters of the month, whatever the white space between day, month
    and year as long as there is some, and with or without a leading zero in
    the day. *)
Theorem item_date_ignores_case_and_spacing (d : date) (ds ws1 mon ws2 : string) (w : world) :
  valid_date d = true →
  ds ∈ numeral_forms (day d) →
  blank ws1 = true → ws1 ≠ "" → blank ws2 = true → ws2 ≠ "" →
  PyStr.lower mon = PyStr.lower (nth (month d - 1) Strptime.month_abbr "") →
  _parse_item_date (ds +:+ ws1 +:+ mon +:+ ws2 +:+ PyStr.fmt_0d 4 (year d)) w = (Ok d, w).
Proof.
  intros Hv Hds Hb1 Hn1 Hb2 Hn2 Hlow.
  destruct (ParseFacts.valid_date_bounds d Hv) as (Hy & Hm & Hd).
  destruct d as [y m dd]. cbn [year month day] in *.
  destruct (month_any_case m mon Hm Hlow) as (a & b & c & -> & Hsp & Hmon).
  destruct (ParseFacts.year_shape y)
    as (y1 & y2 & y3 & y4 & ? & ? & ? & ? & HY & Hy1 & _); [lia|].
  assert (Hst : starts Strptime.fmt_dbY
                  (ds +:+ ws1 +:+ String a (String b (String c "")) +:+ ws2
                     +:+ PyStr.fmt_0d 4 y) (mkdate y m dd) "").
  { unfold Strptime.fmt_dbY.
    eapply ParseFacts.starts_bind.
    { apply (starts_day_form dd); [done|done|].
      destruct ws1 as [|s1 ws1]; [done|]. str_simpl. apply p_digit_none, space_not_digit.
      unfold blank in Hb1. cbn in Hb1. by apply andb_true_iff in Hb1 as [? _]. }
    str_simpl.
    eapply ParseFacts.starts_bind; [by apply starts_spaces_run|].
    eapply ParseFacts.starts_bind; [apply Hmon|].
    eapply ParseFacts.starts_bind.
    { rewrite HY. str_simpl. apply starts_spaces_run; [done|done|].
      by eapply ParseFacts.digit_not_space. }
    eapply ParseFacts.starts_bind; [|apply ParseFacts.starts_ret].
    rewrite <- HY. rewrite <- (str_app_nil_r (PyStr.fmt_0d 4 y)) at 1.
    apply ParseFacts.starts_year. lia. }
  unfold _parse_item_date. by rewrite (ParseFacts.strptime_starts _ _ (mkdate y m dd)).
Qed.

Lemma item_date_ignores_case_and_spacing_witness :
  _parse_item_date "7  MAR 2024" empty_world = (Ok (mkdate 2024 3 7), empty_world).
Proof.
  exact (item_date_ignores_case_and_spacing (mkdate 2024 3 7) "7" "  " "MAR" " " empty_world
           eq_refl (list_elem_of_here _ _) eq_refl ltac:(discriminate) eq_refl
           ltac:(discriminate) eq_refl).
Defined.

(** ** The older flat script *)

Section FlatFacts.
Variable E : Env.

Lemma Flat_download_unfold url filename w :
  Flat.download E url filename w =
  let path := OsPath.join Flat.DOWNLOAD_DIR [filename] in
  if Fs.exists_ (fs w) path then (Ok tt, w)
  else
    match http_get E url with
    | Raise e => (Raise e, w)
    | Ok r =>
        if status_code r =? 200 then
          match stream_breaks r with
          | Some _ => (Raise RequestException, w)
          | None =>
              if String.length (content r) <? 10
              then (Ok tt, add_log (LogEmptyResponse filename) w)
              else Flat.extract_if_zip E path (set_fs (<[path := content r]> (fs w)) w)
          end
        else (Ok tt, add_log (LogDownloadFailed filename (status_code r)) w)
    end.
Proof.
  unfold Flat.download. cbv zeta. unfold bind at 1, gets.
  destruct (Fs.exists_ _ _); [done|]. unfold bind at 1, lift.
  destruct (http_get E url) as [r|e]; [|done].
  destruct (status_code r =? 200); cbn [negb]; [|done].
  destruct (stream_breaks r); [done|].
  destruct (String.length (content r) <? 10); [done|].
  rewrite write_then_append. by rewrite concat_iter_content.
Qed.

Lemma extract_members_keep dir entries w w' p :
  for_each entries (extract_member dir) w = (Ok tt, w') →
  is_Some (fs w !! p) → is_Some (fs w' !! p).
Proof.
  revert w. induction entries as [|m entries IH]; intros w; [by intros [= <-]|].
  cbn [for_each]. unfold bind at 1, extract_member at 1.
  destruct (PyStr.endswith m.1 "/"); [apply IH|].
  destruct (PyStr.truthy (arcname m.1)); [|done].
  unfold write_file, modify. intros Hrun Hp. eapply IH; [exact Hrun|]. cbn.
  destruct (decide (OsPath.join2 dir (arcname m.1) = p)) as [->|Hne].
  - rewrite lookup_insert_eq. by eexists.
  - by rewrite lookup_insert_ne.
Qed.

End FlatFacts.

Lemma rstrip_sep_prefix s : PyStr.startswith s (OsPath.rstrip_sep s) = true.
Proof.
  induction s as [|a s IH]; [done|]. cbn [OsPath.rstrip_sep].
  destruct (OsPath.all_sep (String a s)); [done|].
  apply startswith_spec. apply startswith_spec in IH as [r Hr].
  exists r. str_simpl. by rewrite <- Hr.
Qed.

Lemma dirname_prefix p : PyStr.startswith p (OsPath.dirname p) = true.
Proof.
  unfold OsPath.dirname. destruct (PyStr.rsplit_char OsPath.sep p) as [[h r]|] eqn:Hs.
  - apply rsplit_char_app in Hs. cbv zeta.
    assert (Hhead : PyStr.startswith p (h +:+ "/") = true).
    { apply startswith_spec. exists r. rewrite Hs, str_app_assoc. done. }
    destruct (OsPath.all_sep (h +:+ "/")); [done|].
    eapply startswith_trans; [exact Hhead|apply rstrip_sep_prefix].
  - by destruct p.
Qed.

(** X15. [download] of the flat script leaves the files as they are when the
    file is already in the download directory, when the status is not 200,
    when the stream breaks, and when the body has fewer than ten bytes; in
    the last three cases nothing is left under the file's name. Otherwise it
    writes the whole body under that name and passes it to
    [extract_if_zip]. *)
Theorem flat_download_writes_whole_bodies_only (E : Env) (url filename : string) (w : world) :
  let path := OsPath.join Flat.DOWNLOAD_DIR [filename] in
  (Fs.exists_ (fs w) path = true → Flat.download E url filename w = (Ok tt, w))
  ∧ (Fs.exists_ (fs w) path = false → ∀ resp, http_get E url = Ok resp →
       (status_code resp ≠ 200 →
          Flat.download E url filename w
          = (Ok tt, add_log (LogDownloadFailed filename (status_code resp)) w))
       ∧ (status_code resp = 200 → stream_breaks resp ≠ None →
          Flat.download E url filename w = (Raise RequestException, w))
       ∧ (status_code resp = 200 → stream_breaks resp = None →
          String.length (content resp) < 10 →
          Flat.download E url filename w = (Ok tt, add_log (LogEmptyResponse filename) w))
       ∧ (status_code resp = 200 → stream_breaks resp = None →
          10 ≤ String.length (content resp) →
          Flat.download E url filename w
          = Flat.extract_if_zip E path (set_fs (<[path := content resp]> (fs w)) w))).
Proof.
  intros path. split.
  - intros Hex. rewrite Flat_download_unfold. cbv zeta. fold path. by rewrite Hex.
  - intros Hex resp Hget. rewrite Flat_download_unfold. cbv zeta. fold path.
    rewrite Hex, Hget. repeat split.
    + intros Hst. by apply Nat.eqb_neq in Hst as ->.
    + intros -> Hbr. change (200 =? 200) with true. cbv iota.
      by destruct (stream_breaks resp).
    + intros -> -> Hlen. change (200 =? 200) with true. cbv iota.
      by apply Nat.ltb_lt in Hlen as ->.
    + intros -> -> Hlen. change (200 =? 200) with true. cbv iota.
      by apply Nat.ltb_ge in Hlen as ->.
Qed.

Lemma flat_download_writes_whole_bodies_only_witness :
  let E := net_env (mkresponse 200 "0123456789abcdef" (Some 0)) in
  Flat.download E "u" "a.txt" empty_world = (Raise RequestException, empty_world).
Proof.
  cbv zeta.
  destruct (flat_download_writes_whole_bodies_only
              (net_env (mkresponse 200 "0123456789abcdef" (Some 0))) "u" "a.txt" empty_world)
    as [_ Hnew].
  destruct (Hnew eq_refl (mkresponse 200 "0123456789abcdef" (Some 0)) eq_refl)
    as (_ & Hbreak & _).
  by apply Hbreak.
Defined.

(** X16. Once [download] of the flat script has saved a file that is no
    archive, it never fetches that name again: a later call does nothing,
    whatever is then served for it. *)
Theorem flat_download_never_refreshes (E : Env) (url filename : string) (w : world)
    (resp : response) :
  let path := OsPath.join Flat.DOWNLOAD_DIR [filename] in
  let saved := set_fs (<[path := content resp]> (fs w)) w in
  Fs.exists_ (fs w) path = false →
  http_get E url = Ok resp → status_code resp = 200 → stream_breaks resp = None →
  10 ≤ String.length (content resp) →
  PyStr.endswith (PyStr.lower path) ".zip" = false →
  Flat.download E url filename w = (Ok tt, saved)
  ∧ ∀ E' url', Flat.download E' url' filename saved = (Ok tt, saved).
Proof.
  intros path saved Hex Hget Hst Hbr Hlen Hzip. split.
  - rewrite Flat_download_unfold. cbv zeta. fold path.
    rewrite Hex, Hget, Hst, Hbr. change (200 =? 200) with true. cbv iota.
    apply Nat.ltb_ge in Hlen as ->.
    unfold Flat.extract_if_zip. by rewrite Hzip.
  - intros E' url'. rewrite Flat_download_unfold. cbv zeta. fold path.
    replace (Fs.exists_ (fs saved) path) with true; [done|].
    symmetry. unfold Fs.exists_, Fs.is_file, saved. cbn.
    by rewrite lookup_insert_eq, bool_decide_eq_true_2 by by eexists.
Qed.

Lemma flat_download_never_refreshes_witness :
  let saved := mkworld {[ "downloads/TC_structure.dat" := "0123456789abcdef" ]} [] [] [] in
  Flat.download (net_env (mkresponse 200 "0123456789abcdef" None)) "u" "TC_structure.dat"
    empty_world = (Ok tt, saved)
  ∧ Flat.download (net_env (mkresponse 200 "a newer body of the file" None)) "u"
      "TC_structure.dat" saved = (Ok tt, saved).
Proof.
  cbv zeta.
  destruct (flat_download_never_refreshes (net_env (mkresponse 200 "0123456789abcdef" None))
              "u" "TC_structure.dat" empty_world (mkresponse 200 "0123456789abcdef" None))
    as [Hfirst Hlater].
  - reflexivity.
  - reflexivity.
  - reflexivity.
  - reflexivity.
  - cbn. lia.
  - reflexivity.
  - split; [exact Hfirst|].
    exact (Hlater (net_env (mkresponse 200 "a newer body of the file" None)) "u").
Defined.

(** X17. [extract_if_zip] on a file whose name ends in .zip, whatever the
    case, and whose members can all be written: a good archive is removed
    after its members are extracted, a bad one is kept and logged; either
    way no file is touched but those whose path begins with the directory of
    the archive. *)
Theorem flat_extract_if_zip_removes_good_archives (E : Env) (filepath bytes : string)
    (w : world) :
  fs w !! filepath = Some bytes →
  PyStr.endswith (PyStr.lower filepath) ".zip" = true →
  Forall (λ m, extractable m = true) (zip_entries (unzip E bytes)) →
  ∃ w',
    Flat.extract_if_zip E filepath w = (Ok tt, w')
    ∧ (zip_bad (unzip E bytes) = false → fs w' !! filepath = None ∧ logs w' = logs w)
    ∧ (zip_bad (unzip E bytes) = true →
       is_Some (fs w' !! filepath) ∧ logs w' = logs w ++ [LogBadZip filepath])
    ∧ ∀ p, PyStr.startswith p (OsPath.dirname filepath) = false → fs w' !! p = fs w !! p.
Proof.
  intros Hfile Hzip Hall. unfold Flat.extract_if_zip. rewrite Hzip. cbn [negb].
  pose proof (steady_extractall E filepath (OsPath.dirname filepath) w) as [_ Hframe].
  unfold bind at 1. revert Hframe. unfold extractall at 1 2, bind at 1 3, read_file.
  rewrite Hfile. unfold bind at 1 2.
  destruct (extract_members_ok (OsPath.dirname filepath) _ w Hall)
    as (w1 & Hrun & _ & _ & Hlogs).
  rewrite Hrun. unfold ret. cbn [snd]. intros Hframe.
  pose proof (extract_members_keep _ _ _ _ filepath Hrun (mk_is_Some _ _ Hfile)) as [c Hc].
  assert (Hout : ∀ p, PyStr.startswith p (OsPath.dirname filepath) = false →
                      fs w1 !! p = fs w !! p).
  { intros p Hp. apply Hframe. by repeat constructor. }
  destruct (zip_bad (unzip E bytes)); cbn [negb].
  - exists (add_log (LogBadZip filepath) w1). split; [done|]. split; [done|].
    split; [|done]. intros _. split; [by exists c|]. cbn. by rewrite Hlogs.
  - unfold os_remove. rewrite Hc. eexists. split; [done|]. cbn.
    split; [intros _; split; [apply lookup_delete_eq|done]|]. split; [done|].
    intros p Hp. rewrite lookup_delete_ne; [by apply Hout|].
    intros <-. by rewrite dirname_prefix in Hp.
Qed.

Lemma flat_extract_if_zip_removes_good_archives_witness :
  let done := Flat.extract_if_zip (demo_env NoFault) "downloads/WEBPXTICK_DT-20240307.ZIP"
                (mkworld {[ "downloads/WEBPXTICK_DT-20240307.ZIP" := "PK" ]} [] [] []) in
  fs done.2 !! "downloads/WEBPXTICK_DT-20240307.ZIP" = None.
Proof.
  cbv zeta.
  destruct (flat_extract_if_zip_removes_good_archives (demo_env NoFault)
              "downloads/WEBPXTICK_DT-20240307.ZIP" "PK"
              (mkworld {[ "downloads/WEBPXTICK_DT-20240307.ZIP" := "PK" ]} [] [] []))
    as (w' & Hrun & Hgood & _).
  - reflexivity.
  - reflexivity.
  - by_compute.
  - rewrite Hrun. by apply Hgood.
Defined.

Lemma dates_of_keyed items w :
  Forall (λ i : Item, is_Some (i !! "Date")) items →
  dates_of items w = (Ok (date_fields items), w).
Proof.
  induction 1 as [|i items [s Hs] _ IH]; [done|].
  cbn [dates_of]. unfold bind at 1, item_get. rewrite Hs. unfold ret at 1.
  unfold bind at 1. rewrite IH. unfold date_fields. cbn. by rewrite Hs.
Qed.

Lemma collect_total {A B} (body : A → M (list B)) (l : list A) w :
  (∀ x w0, ∃ ys w1, body x w0 = (Ok ys, w1)) →
  ∃ ys w', collect l body w = (Ok ys, w').
Proof.
  intros Hbody. revert w. induction l as [|x l IH]; intros w; [by eexists _, _|].
  cbn [collect]. unfold bind at 1. destruct (Hbody x w) as (ys & w1 & ->).
  unfold bind at 1. destruct (IH w1) as (rest & w2 & ->). by eexists _, _.
Qed.

Section FlatRun.
Variable E : Env.

Lemma fetch_artifact_total selected kind w :
  ∃ errors w', Flat.fetch_artifact E selected kind w = (Ok errors, w').
Proof.
  unfold Flat.fetch_artifact. destruct (selected !! kind.2) as [filename|]; [|by eexists _, _].
  destruct (negb _); [by eexists _, _|].
  destruct (bind _ _ w) as [[?|e] w']; by eexists _, _.
Qed.

Lemma fetch_selected_total selected disp w :
  selected !! "Date" = Some disp → is_Some (selected !! "key") →
  ∃ errors w', Flat.fetch_selected E selected w = (Ok (Some disp, errors), w').
Proof.
  intros Hd [key Hk]. unfold Flat.fetch_selected.
  unfold bind at 1, item_get at 1. rewrite Hd. unfold ret at 1.
  unfold bind at 1, item_get at 1. rewrite Hk. unfold ret at 1.
  unfold bind at 1.
  destruct (collect_total (Flat.fetch_artifact E selected) file_keys w)
    as (errors & w' & ->); [intros x w0; apply fetch_artifact_total|].
  unfold bind at 1, item_get. rewrite Hd. by eexists _, _.
Qed.

End FlatRun.

Lemma has_date_and_key_spec (i : Item) :
  has_date_and_key i = true ↔ is_Some (i !! "Date") ∧ is_Some (i !! "key").
Proof.
  unfold has_date_and_key. by rewrite andb_true_iff, !bool_decide_eq_true.
Qed.

(** X18. The run of the flat script takes the first entry of the feed that
    has a date and a key, in the order of the feed, or with a target the
    first such entry whose date field is the target character for
    character; it then returns that date field whatever becomes of the
    downloads, whose exceptions it logs and drops. *)
Theorem flat_run_returns_date_whatever_the_downloads (E : Env) (raw : list Item) (w : world) :
  api_items E = Ok raw →
  (∀ first rest d,
     List.filter has_date_and_key raw = first :: rest → first !! "Date" = Some d →
     ∃ errors w', Flat.download_all_files E None w = (Ok (Some d, errors), w'))
  ∧ (∀ t i,
       PyStr.truthy t = true → i ∈ raw → has_date_and_key i = true → i !! "Date" = Some t →
       ∃ errors w', Flat.download_all_files E (Some t) w = (Ok (Some t, errors), w')).
Proof.
  intros Hraw. split.
  - intros first rest d Hf Hd.
    assert (Hk : is_Some (first !! "key")).
    { assert (Hin : In first (List.filter has_date_and_key raw)) by (rewrite Hf; by left).
      apply filter_In in Hin as [_ Hin]. by apply has_date_and_key_spec in Hin as [_ ?]. }
    unfold Flat.download_all_files, bind at 1, Flat.fetch_items, bind at 1, lift.
    rewrite Hraw. unfold ret at 1. rewrite Hf. by apply fetch_selected_total.
  - intros t i Ht Hin Hdk Hd.
    unfold Flat.download_all_files, bind at 1, Flat.fetch_items, bind at 1, lift.
    rewrite Hraw. unfold ret at 1.
    assert (Hi : In i (List.filter has_date_and_key raw)).
    { apply filter_In. split; [by apply list_elem_of_In|done]. }
    destruct (List.filter has_date_and_key raw) as [|first rest] eqn:Hf; [done|].
    rewrite Ht.
    destruct (Flat.first_of_date t (first :: rest)) as [selected|] eqn:Hsel.
    + apply find_some in Hsel as [Hs Hdate]. apply bool_decide_eq_true in Hdate.
      rewrite <- Hf in Hs. apply filter_In in Hs as [_ Hs].
      apply has_date_and_key_spec in Hs as [_ Hk].
      case_bool_decide as Hempty; [by rewrite Hempty, lookup_empty in Hdate|].
      by apply fetch_selected_total.
    + exfalso. eapply find_none in Hsel; [|exact Hi]. cbn in Hsel.
      by rewrite bool_decide_eq_true_2 in Hsel.
Qed.

Lemma flat_run_returns_date_whatever_the_downloads_witness :
  (Flat.download_all_files (offline_env [demo_item_old; demo_item]) (Some "07 Mar 2024")
     empty_world).1
  = Ok (Some "07 Mar 2024",
        [ Flat.DownloadError "WEBPXTICK_DT-20240307.zip" RequestException;
          Flat.DownloadError "TickData_structure.dat" RequestException;
          Flat.DownloadError "TC_20240307.txt" RequestException;
          Flat.DownloadError "TC_structure.dat" RequestException ]).
Proof.
  destruct (flat_run_returns_date_whatever_the_downloads
              (offline_env [demo_item_old; demo_item]) [demo_item_old; demo_item] empty_world
              eq_refl) as [_ Htarget].
  destruct (Htarget "07 Mar 2024" demo_item eq_refl) as (errors & w' & Hrun).
  - apply list_elem_of_In. right. by left.
  - by_compute.
  - by_compute.
  - by_compute.
Defined.

(** X19. The flat script does not read its target as a date: when no entry
    of the feed has the target as its date field character for character,
    the run returns none, fetches nothing, and reports the date fields of
    all entries that have a date and a key, however many there are. *)
Theorem flat_run_matches_target_literally (E : Env) (raw : list Item) (t : string)
    (w : world) :
  api_items E = Ok raw →
  PyStr.truthy t = true →
  List.filter has_date_and_key raw ≠ [] →
  (∀ i, i ∈ raw → has_date_and_key i = true → i !! "Date" ≠ Some t) →
  Flat.download_all_files E (Some t) w
  = (Ok (None, [Flat.DateNotAvailable t (date_fields (List.filter has_date_and_key raw))]), w).
Proof.
  intros Hraw Ht Hne Hno.
  unfold Flat.download_all_files, bind at 1, Flat.fetch_items, bind at 1, lift.
  rewrite Hraw. unfold ret at 1.
  destruct (List.filter has_date_and_key raw) as [|first rest] eqn:Hf; [done|].
  rewrite Ht, <- Hf.
  assert (Hdates : dates_of (List.filter has_date_and_key raw) w
                   = (Ok (date_fields (List.filter has_date_and_key raw)), w)).
  { apply dates_of_keyed, filter_has_date. }
  destruct (Flat.first_of_date t (List.filter has_date_and_key raw)) as [selected|] eqn:Hsel.
  - exfalso. apply find_some in Hsel as [Hs Hdate]. apply bool_decide_eq_true in Hdate.
    apply filter_In in Hs as [Hin Hs]. by eapply Hno; [apply list_elem_of_In| |].
  - unfold bind. by rewrite Hdates.
Qed.

Lemma flat_run_matches_target_literally_witness :
  Flat.download_all_files (demo_env NoFault) (Some "07/03/2024") empty_world
  = (Ok (None, [Flat.DateNotAvailable "07/03/2024" ["06 Mar 2024"; "07 Mar 2024"]]),
     empty_world).
Proof.
  apply (flat_run_matches_target_literally (demo_env NoFault) [demo_item_old; demo_item]
           "07/03/2024" empty_world).
  - reflexivity.
  - reflexivity.
  - by_compute.
  - intros i [->|Hi%list_elem_of_singleton]%elem_of_cons _; [|subst i]; by_compute.
Defined.

(** ** Uploads and the local state *)

Lemma alike_ret {A} (a : A) : alike (ret a) (ret a).
Proof. by intros w1 w2 H. Qed.

Lemma alike_raise {A} e : alike (raise (A := A) e) (raise e).
Proof. by intros w1 w2 H. Qed.

Lemma alike_lift {A} (r : result A) : alike (lift r) (lift r).
Proof. by intros w1 w2 H. Qed.

Lemma alike_bind {A B} (c1 c2 : M A) (k1 k2 : A → M B) :
  alike c1 c2 → (∀ a, alike (k1 a) (k2 a)) → alike (bind c1 k1) (bind c2 k2).
Proof.
  intros Hc Hk w1 w2 Hw. unfold bind. destruct (Hc w1 w2 Hw) as [Hr Hl].
  destruct (c1 w1) as [[a|e] u1], (c2 w2) as [[a'|e'] u2]; cbn in Hr, Hl; try done.
  - injection Hr as <-. by apply Hk.
  - by injection Hr as <-.
Qed.

Lemma alike_gets {A} (f : world → A) :
  (∀ w1 w2, same_local w1 w2 → f w1 = f w2) → alike (gets f) (gets f).
Proof. intros Hf w1 w2 Hw. unfold gets. cbn. by rewrite (Hf w1 w2 Hw). Qed.

Lemma alike_modify (f g : world → world) :
  (∀ w1 w2, same_local w1 w2 → same_local (f w1) (g w2)) → alike (modify f) (modify g).
Proof. intros Hf w1 w2 Hw. unfold modify. cbn. split; [done|by apply Hf]. Qed.

Lemma alike_log e : alike (modify (add_log e)) (modify (add_log e)).
Proof. apply alike_modify. by intros w1 w2 [? ?]. Qed.

Lemma alike_set_fs (f : gmap string string → gmap string string) :
  alike (modify (λ w, set_fs (f (fs w)) w)) (modify (λ w, set_fs (f (fs w)) w)).
Proof. apply alike_modify. intros w1 w2 [Hf Hd]. split; cbn; congruence. Qed.

Lemma alike_if {A} (b : bool) (c1 c2 d1 d2 : M A) :
  alike c1 c2 → alike d1 d2 → alike (if b then c1 else d1) (if b then c2 else d2).
Proof. by destruct b. Qed.

Lemma alike_read path : alike (read_file path) (read_file path).
Proof.
  intros w1 w2 [Hf Hd]. unfold read_file. rewrite Hf. by destruct (fs w2 !! path).
Qed.

Lemma alike_write path c : alike (write_file path c) (write_file path c).
Proof. apply (alike_set_fs (λ f, <[path := c]> f)). Qed.

Lemma alike_append path c : alike (append_file path c) (append_file path c).
Proof. apply (alike_set_fs (λ f, <[path := default "" (f !! path) +:+ c]> f)). Qed.

Lemma alike_remove path : alike (os_remove path) (os_remove path).
Proof.
  intros w1 w2 [Hf Hd]. unfold os_remove. rewrite Hf.
  destruct (fs w2 !! path); [|done]. split; [done|]. split; cbn; congruence.
Qed.

Lemma alike_move src dst : alike (shutil_move src dst) (shutil_move src dst).
Proof.
  intros w1 w2 [Hf Hd]. unfold shutil_move. rewrite Hf.
  destruct (Fs.move src dst (fs w2)); [|done]. split; [done|]. by split.
Qed.

Lemma alike_for_each {A} (l : list A) (b1 b2 : A → M unit) :
  (∀ x, alike (b1 x) (b2 x)) → alike (for_each l b1) (for_each l b2).
Proof.
  intros Hb. induction l as [|x l IH]; cbn [for_each]; [apply alike_ret|].
  apply alike_bind; [apply Hb|]. intros _. apply IH.
Qed.

Lemma alike_collect {A B} (l : list A) (b1 b2 : A → M (list B)) :
  (∀ x, alike (b1 x) (b2 x)) → alike (collect l b1) (collect l b2).
Proof.
  intros Hb. induction l as [|x l IH]; cbn [collect]; [apply alike_ret|].
  apply alike_bind; [apply Hb|]. intros ys.
  apply alike_bind; [apply IH|]. intros rest. apply alike_ret.
Qed.

Lemma alike_item_get (i : Item) k : alike (item_get i k) (item_get i k).
Proof. unfold item_get. destruct (i !! k); [apply alike_ret|apply alike_raise]. Qed.

Lemma alike_item_date (i : Item) : alike (item_date i) (item_date i).
Proof.
  unfold item_date. apply alike_bind; [apply alike_item_get|]. intros s.
  unfold _parse_item_date. destruct (Strptime.strptime _ s); [apply alike_ret|apply alike_raise].
Qed.

Lemma alike_with_keys items : alike (with_keys items) (with_keys items).
Proof.
  induction items as [|i items IH]; cbn [with_keys]; [apply alike_ret|].
  apply alike_bind; [apply alike_item_date|]. intros d.
  apply alike_bind; [apply IH|]. intros rest. apply alike_ret.
Qed.

Lemma alike_dates_of items : alike (dates_of items) (dates_of items).
Proof.
  induction items as [|i items IH]; cbn [dates_of]; [apply alike_ret|].
  apply alike_bind; [apply alike_item_get|]. intros s.
  apply alike_bind; [apply IH|]. intros rest. apply alike_ret.
Qed.

Lemma alike_by_date m items : alike (by_date_from m items) (by_date_from m items).
Proof.
  revert m. induction items as [|i items IH]; intros m; cbn [by_date_from]; [apply alike_ret|].
  apply alike_bind; [apply alike_item_date|]. intros d. apply IH.
Qed.

Lemma alike_select items target :
  alike (_select_item_for_date items target) (_select_item_for_date items target).
Proof.
  unfold _select_item_for_date. destruct items as [|first rest]; [apply alike_ret|].
  destruct target as [t|]; [|apply alike_ret].
  apply alike_bind; [apply alike_by_date|]. intros m.
  destruct (m !! t); [apply alike_ret|].
  apply alike_bind.
  - unfold _summarize_available_dates. apply alike_bind; [apply alike_dates_of|].
    intros ds. apply alike_ret.
  - intros avail. apply alike_bind; [apply alike_log|]. intros _. apply alike_ret.
Qed.

Section Uploads.
Variable E : Env.
Variable ok : string → bool.

Lemma alike_s3_upload local bucket key e :
  alike (s3_upload E local bucket key e) (s3_upload (with_uploads ok E) local bucket key e).
Proof.
  intros w1 w2 [Hf Hd]. unfold s3_upload. cbn [fst snd]. split; [done|].
  by destruct (_ && _), (_ && _).
Qed.

Lemma alike_store file_path final_dir :
  alike (store_if_changed E file_path final_dir)
        (store_if_changed (with_uploads ok E) file_path final_dir).
Proof.
  unfold store_if_changed, compute_checksum. cbv zeta.
  cbn [with_uploads fault_at sha256 today].
  apply alike_bind.
  { apply alike_bind; [apply alike_read|]. intros bytes. apply alike_ret. }
  intros sum. apply alike_bind; [apply alike_gets; by intros w1 w2 [_ ->]|].
  intros latest. apply alike_if.
  - apply alike_bind; [apply alike_remove|]. intros _. apply alike_ret.
  - apply alike_bind.
    { case_decide; [apply alike_raise|apply alike_move]. }
    intros _. apply alike_bind; [apply alike_gets; by intros w1 w2 [_ ->]|].
    intros rows. apply alike_bind; [apply alike_lift|]. intros rows'.
    apply alike_bind; [|intros _; apply alike_ret].
    apply alike_modify. by intros w1 w2 [? ?].
Qed.

Lemma alike_download url filename target_dir :
  alike (download E url filename target_dir)
        (download (with_uploads ok E) url filename target_dir).
Proof.
  unfold download. cbv zeta. cbn [with_uploads http_get].
  apply alike_bind; [apply alike_lift|]. intros r. apply alike_if.
  - apply alike_bind; [apply alike_log|]. intros _. apply alike_ret.
  - apply alike_bind; [apply alike_write|]. intros _.
    destruct (stream_breaks r).
    + apply alike_bind; [apply alike_for_each; intros c; apply alike_append|].
      intros _. apply alike_raise.
    + apply alike_bind; [apply alike_for_each; intros c; apply alike_append|].
      intros _. apply alike_ret.
Qed.

Lemma alike_extract_member dir m : alike (extract_member dir m) (extract_member dir m).
Proof.
  unfold extract_member. apply alike_if; [apply alike_ret|].
  apply alike_if; [apply alike_write|apply alike_raise].
Qed.

Lemma alike_extractall path dir :
  alike (extractall E path dir) (extractall (with_uploads ok E) path dir).
Proof.
  unfold extractall. cbn [with_uploads unzip].
  apply alike_bind; [apply alike_read|]. intros bytes. cbv zeta.
  apply alike_bind; [apply alike_for_each; intros m; apply alike_extract_member|].
  intros _. apply alike_ret.
Qed.

Lemma alike_distribute extract_dir table d :
  alike (move_to_warehouse_and_upload E extract_dir table d)
        (move_to_warehouse_and_upload (with_uploads ok E) extract_dir table d).
Proof.
  unfold move_to_warehouse_and_upload. cbv zeta.
  change (_partition_dir (with_uploads ok E) table d) with (_partition_dir E table d).
  cbn [with_uploads rmtree_ok].
  apply alike_bind; [apply alike_gets; by intros w1 w2 [-> _]|]. intros names.
  apply alike_bind.
  - apply alike_for_each. intros fn. apply alike_bind; [apply alike_move|].
    intros _. unfold upload_warehouse_file. apply alike_s3_upload.
  - intros _. apply alike_if; [|apply alike_ret].
    apply (alike_set_fs (Fs.rmtree extract_dir)).
Qed.

Lemma alike_process_file file_path final_dir prefix day tz :
  alike (process_file E file_path final_dir prefix day tz)
        (process_file (with_uploads ok E) file_path final_dir prefix day tz).
Proof.
  unfold process_file. apply alike_bind; [apply alike_store|]. intros stored.
  destruct stored as [sp|]; [|apply alike_ret].
  apply alike_if; [apply alike_ret|].
  apply alike_bind; [unfold push_to_minio; apply alike_s3_upload|]. intros _.
  apply alike_bind; [|intros _; apply alike_ret].
  destruct tz as [table|]; [|apply alike_ret].
  apply alike_if; [|apply alike_ret]. cbv zeta.
  apply alike_bind; [apply alike_extractall|]. intros good.
  apply alike_if; [apply alike_distribute|apply alike_log].
Qed.

Lemma alike_process_artifact selected key day kind :
  alike (process_artifact E selected key day kind)
        (process_artifact (with_uploads ok E) selected key day kind).
Proof.
  unfold process_artifact. cbv zeta.
  destruct (selected !! kind.2) as [filename|]; [|apply alike_ret].
  apply alike_if; [apply alike_ret|].
  change (DOWNLOAD_DIR (with_uploads ok E)) with (DOWNLOAD_DIR E).
  apply alike_bind; [apply alike_download|]. intros temp.
  destruct temp as [temp|]; [|apply alike_ret].
  apply alike_if; [apply alike_ret|].
  change (final_dir_for (with_uploads ok E) filename) with (final_dir_for E filename).
  apply alike_bind; [apply alike_process_file|]. intros sp. apply alike_ret.
Qed.

Lemma alike_available_items :
  alike (_available_items E) (_available_items (with_uploads ok E)).
Proof.
  unfold _available_items. cbn [with_uploads api_items].
  apply alike_bind; [apply alike_lift|]. intros items. cbv zeta.
  apply alike_bind; [apply alike_with_keys|]. intros keyed. apply alike_ret.
Qed.

Lemma alike_run target :
  alike (download_all_files E target) (download_all_files (with_uploads ok E) target).
Proof.
  unfold download_all_files. apply alike_bind; [apply alike_available_items|].
  intros items. destruct items as [|first rest].
  { apply alike_bind; [apply alike_log|]. intros _. apply alike_ret. }
  cbv zeta. apply alike_bind; [apply alike_select|]. intros selected.
  destruct selected as [selected|]; [|apply alike_ret].
  apply alike_if; [apply alike_ret|].
  apply alike_bind; [apply alike_item_get|]. intros disp.
  apply alike_bind; [|intros files; apply alike_ret].
  unfold run_artifacts.
  apply alike_bind; [apply alike_item_get|]. intros disp'.
  apply alike_bind; [apply alike_item_get|]. intros key.
  apply alike_bind.
  { unfold _parse_item_date.
    destruct (Strptime.strptime _ disp'); [apply alike_ret|apply alike_raise]. }
  intros day. apply alike_collect. intros kind. apply alike_process_artifact.
Qed.

End Uploads.

(** X20. What the object store answers has no bearing on the local outcome
    of a run: with other outcomes of the uploads, and all else the same, the
    run returns the same result or raises the same exception, and leaves the
    same files and the same version table. *)
Theorem uploads_do_not_change_local_outcome (E : Env) (ok : string → bool)
    (target : option string) (w : world) :
  let here := download_all_files E target w in
  let there := download_all_files (with_uploads ok E) target w in
  here.1 = there.1 ∧ fs here.2 = fs there.2 ∧ db here.2 = db there.2.
Proof.
  cbv zeta. destruct (alike_run E ok target w w) as (Hr & Hf & Hd); [split; reflexivity|].
  exact (conj Hr (conj Hf Hd)).
Qed.

(** ** Members in directories *)

Lemma strip_prefix_app p r : PyStr.strip_prefix p (p +:+ r) = Some r.
Proof. induction p as [|a p IH]; [done|]. str_simpl. cbn. by rewrite Ascii.eqb_refl. Qed.

Lemma str_app_longer d r : d +:+ "/" +:+ r ≠ d.
Proof.
  intros Heq. apply (f_equal String.length) in Heq.
  rewrite !str_length_app in Heq. cbn in Heq. lia.
Qed.

Lemma rename_tree_moved src dst f rest :
  Fs.is_dir f dst = false →
  Fs.rename_tree src dst f !! (dst +:+ "/" +:+ rest) = f !! (src +:+ "/" +:+ rest).
Proof.
  intros Hdir. rewrite is_dir_false in Hdir. unfold Fs.rename_tree.
  assert (Hin : ∀ y, (dst +:+ "/" +:+ rest, y)
                       ∈ map (λ kv, (Fs.rename_key src dst kv.1, kv.2)) (map_to_list f)
                     → f !! (src +:+ "/" +:+ rest) = Some y).
  { intros y ([k v'] & Heq & Hin)%list_elem_of_In%in_map_iff.
    cbn [fst snd] in Heq. injection Heq as Hk <-.
    apply list_elem_of_In, elem_of_map_to_list in Hin. revert Hk. unfold Fs.rename_key.
    destruct (PyStr.strip_prefix (src +:+ "/") k) as [r|] eqn:Hs.
    - apply strip_prefix_spec in Hs. intros Heq. do 2 apply str_app_inv_head in Heq.
      subst r. by rewrite <- str_app_assoc, <- Hs.
    - intros ->. exfalso. specialize (Hdir _ (mk_is_Some _ _ Hin)).
      unfold OsPath.under in Hdir. by rewrite <- str_app_assoc, startswith_app_l in Hdir. }
  destruct (f !! (src +:+ "/" +:+ rest)) as [v|] eqn:Hp.
  - apply elem_of_list_to_map_1'.
    + intros y Hy%Hin. congruence.
    + apply list_elem_of_In, in_map_iff. exists (src +:+ "/" +:+ rest, v). split.
      * cbn [fst snd]. f_equal. unfold Fs.rename_key.
        by rewrite <- (str_app_assoc src), strip_prefix_app.
      * by apply list_elem_of_In, elem_of_map_to_list.
  - apply not_elem_of_list_to_map_1.
    intros ([k v'] & Hk & Hkv)%list_elem_of_fmap. cbn [fst] in Hk. subst k.
    apply Hin in Hkv. congruence.
Qed.

Lemma rename_tree_not_file src dst f : f !! dst = None → Fs.rename_tree src dst f !! dst = None.
Proof.
  intros Hdst. unfold Fs.rename_tree. apply not_elem_of_list_to_map_1.
  intros ([k v'] & Hk & ([k0 v0] & Heq & Hin)%list_elem_of_In%in_map_iff)%list_elem_of_fmap.
  cbn [fst snd] in *. injection Heq as <- <-.
  apply list_elem_of_In, elem_of_map_to_list in Hin. revert Hk. unfold Fs.rename_key.
  destruct (PyStr.strip_prefix (src +:+ "/") k0) as [r|].
  - intros Heq. symmetry in Heq. by apply str_app_longer in Heq.
  - intros ->. congruence.
Qed.

(** X21. A directory among the extracted members goes to the warehouse but
    not to the object store: when the extraction directory holds one
    directory and nothing else, [move_to_warehouse_and_upload] moves it with
    all its files into the partition directory, makes one upload call for
    the directory itself, which fails and is logged, and uploads none of the
    files. *)
Theorem member_directory_is_moved_not_uploaded (E : Env) (extract_dir table fn : string)
    (d : date) (w : world) :
  let src := OsPath.join extract_dir [fn] in
  let dst := OsPath.join (_partition_dir E table d) [fn] in
  let key := warehouse_key "derivative_data" table d dst in
  Fs.listdir (fs w) extract_dir = [fn] →
  fs w !! src = None → Fs.is_dir (fs w) src = true →
  Fs.exists_ (fs w) dst = false →
  ∃ w',
    move_to_warehouse_and_upload E extract_dir table d w = (Ok tt, w')
    ∧ s3calls w' = s3calls w ++ [mkupload dst "datalake" key false]
    ∧ logs w' = logs w ++ [LogWarehouseUploadFailed dst]
    ∧ ∀ rest, OsPath.under extract_dir (dst +:+ "/" +:+ rest) = false →
              fs w' !! (dst +:+ "/" +:+ rest) = fs w !! (src +:+ "/" +:+ rest).
Proof.
  intros src dst key Hls Hnofile Hdir Hfree.
  apply orb_false_iff in Hfree as [Hnf Hnd].
  assert (Hdst : fs w !! dst = None).
  { unfold Fs.is_file in Hnf. apply bool_decide_eq_false in Hnf.
    by apply eq_None_not_Some. }
  assert (Hmv : Fs.move src dst (fs w) = Ok (Fs.rename_tree src dst (fs w))).
  { unfold Fs.move. rewrite Hnd. cbv zeta. cbn [andb]. by rewrite Hnofile, Hdir, Hnf. }
  unfold move_to_warehouse_and_upload. cbv zeta. unfold bind at 1, gets. rewrite Hls.
  cbn [for_each]. fold src dst. unfold bind, shutil_move. rewrite Hmv.
  unfold upload_warehouse_file, s3_upload. fold key. cbn [fs set_fs].
  assert (Hnot : Fs.is_file (Fs.rename_tree src dst (fs w)) dst = false).
  { unfold Fs.is_file. rewrite rename_tree_not_file by done.
    apply bool_decide_eq_false_2. by intros [? ?]. }
  rewrite !Hnot. cbn [andb]. unfold ret at 1.
  destruct (rmtree_ok E extract_dir).
  - eexists. split; [done|]. cbn. split; [done|]. split; [done|].
    intros rest Hout. by rewrite rmtree_lookup, Hout, rename_tree_moved.
  - eexists. split; [done|]. cbn. split; [done|]. split; [done|].
    intros rest _. by rewrite rename_tree_moved.
Qed.

Lemma member_directory_is_moved_not_uploaded_witness :
  let done :=
    move_to_warehouse_and_upload (demo_env NoFault) "/tmp/x" "WEBPXTICK_DT" (mkdate 2024 3 7)
      nested_world in
  map up_ok (s3calls done.2) = [false]
  ∧ fs done.2 !! "/data/warehouse/WEBPXTICK_DT/year=2024/month=03/day=07/2024/a.csv"
    = Some "A".
Proof.
  cbv zeta.
  destruct (member_directory_is_moved_not_uploaded (demo_env NoFault) "/tmp/x" "WEBPXTICK_DT"
              "2024" (mkdate 2024 3 7) nested_world) as (w' & Hrun & Hs3 & _ & Hfiles).
  - by_compute.
  - by_compute.
  - by_compute.
  - by_compute.
  - rewrite Hrun. cbn [snd]. split; [by rewrite Hs3|].
    etrans; [exact (Hfiles "a.csv" ltac:(by_compute))|]. by_compute.
Defined.

(** ** The two scripts on the same feed *)

Lemma date_fields_length (l : list Item) :
  Forall (λ i : Item, is_Some (i !! "Date")) l → length (date_fields l) = length l.
Proof.
  induction 1 as [|i l [s Hs] _ IH]; [done|]. unfold date_fields in *.
  cbn [omap list_omap]. rewrite Hs. cbn [length]. by f_equal.
Qed.

(** X22. On the same feed the two scripts work from the same entries: what
    [_available_items] of the pipeline returns is a rearrangement of what
    [fetch_items] of the flat script returns, which keeps the order of the
    feed, and [available_dates] lists the date fields of these entries. *)
Theorem both_scripts_use_the_same_entries (E : Env) (items : list Item) (w : world) :
  _available_items E w = (Ok items, w) →
  ∃ entries,
    Flat.fetch_items E w = (Ok entries, w)
    ∧ items ≡ₚ entries
    ∧ Flat.available_dates E w = (Ok (date_fields entries), w)
    ∧ length (date_fields entries) = length items.
Proof.
  intros (_ & raw & keyed & Hraw & _ & Hperm & _ & _)%available_items_spec.
  exists (List.filter has_date_and_key raw).
  assert (Hf : Flat.fetch_items E w = (Ok (List.filter has_date_and_key raw), w)).
  { unfold Flat.fetch_items, bind, lift. by rewrite Hraw. }
  split; [done|]. split; [done|]. split.
  - unfold Flat.available_dates, bind at 1. rewrite Hf.
    apply dates_of_keyed, filter_has_date.
  - rewrite Hperm. apply date_fields_length, filter_has_date.
Qed.

Lemma both_scripts_use_the_same_entries_witness :
  _available_items (demo_env NoFault) empty_world
  = (Ok [demo_item; demo_item_old], empty_world)
  ∧ Flat.available_dates (demo_env NoFault) empty_world
    = (Ok ["06 Mar 2024"; "07 Mar 2024"], empty_world).
Proof.
  assert (Hav : _available_items (demo_env NoFault) empty_world
                = (Ok [demo_item; demo_item_old], empty_world)) by by_compute.
  split; [exact Hav|].
  destruct (both_scripts_use_the_same_entries _ _ _ Hav) as (entries & Hf & _ & Hd & _).
  rewrite Hd. assert (He : entries = [demo_item_old; demo_item]).
  { assert (Hf' : Flat.fetch_items (demo_env NoFault) empty_world
                  = (Ok [demo_item_old; demo_item], empty_world)) by by_compute.
    rewrite Hf' in Hf. by injection Hf as <-. }
  rewrite He. by_compute.
Defined.

(** ** Archives by name *)

Lemma lower_app a b : PyStr.lower (a +:+ b) = PyStr.lower a +:+ PyStr.lower b.
Proof. induction a as [|c a IH]; str_simpl; cbn; [done|]. by rewrite IH. Qed.

Lemma lower_split s a b :
  PyStr.lower s = a +:+ b → ∃ x y, s = x +:+ y ∧ PyStr.lower x = a ∧ PyStr.lower y = b.
Proof.
  revert s. induction a as [|c a IH]; intros s; str_simpl.
  - intros H. by exists "", s.
  - destruct s as [|d s]; cbn; [done|]. intros [= Hc H].
    destruct (IH _ H) as (x & y & -> & Hx & Hy).
    exists (String d x), y. str_simpl. cbn. by rewrite Hc, Hx.
Qed.

Lemma lower_char_dot c : PyStr.lower_char c = "."%char → c = "."%char.
Proof. destruct c as [[] [] [] [] [] [] [] []]; vm_compute; congruence. Qed.

Lemma lower_char_digit c v : Strptime.digit_val c = Some v → PyStr.lower_char c = c.
Proof.
  intros [Hc _]%ParseFacts.digit_val_range. unfold PyStr.lower_char, PyStr.is_upper.
  destruct (65 <=? nat_of_ascii c) eqn:H1; [|done]. apply Nat.leb_le in H1. lia.
Qed.

(** A name that [lower] turns into [".zip"]: a dot and three letters. *)
Lemma zip_ext e :
  PyStr.lower e = ".zip" →
  ∃ r, e = String "." r ∧ r ≠ "" ∧ ("."%char ∉ chars r) ∧ plain e.
Proof.
  destruct e as [|c0 [|c1 [|c2 [|c3 [|c4 e]]]]]; cbn; try done.
  intros [= H0 H1 H2 H3]. apply lower_char_dot in H0 as ->.
  exists (String c1 (String c2 (String c3 ""))). split; [done|]. split; [done|].
  assert (Hn : ∀ c x, PyStr.lower_char c = x → x ≠ "."%char → x ≠ "/"%char →
                      c ≠ "."%char ∧ c ≠ "/"%char).
  { intros c x Hx Hd Hs. split; intros ->; vm_compute in Hx; congruence. }
  destruct (Hn _ _ H1) as [? ?]; [done..|].
  destruct (Hn _ _ H2) as [? ?]; [done..|].
  destruct (Hn _ _ H3) as [? ?]; [done..|].
  split.
  - cbn. rewrite !not_elem_of_cons. repeat split; try done. apply not_elem_of_nil.
  - unfold plain. cbn. rewrite !not_elem_of_cons. repeat split; try done.
    apply not_elem_of_nil.
Qed.

Lemma rsplit_char_app_tail c p e :
  c ∉ chars e →
  PyStr.rsplit_char c (p +:+ e) = (λ hr, (hr.1, hr.2 +:+ e)) <$> PyStr.rsplit_char c p.
Proof.
  intros He. induction p as [|a p IH]; str_simpl.
  - by rewrite rsplit_char_notin.
  - cbn [PyStr.rsplit_char]. rewrite IH.
    destruct (PyStr.rsplit_char c p) as [[h r]|]; cbn; [done|].
    by destruct (Ascii.eqb a c).
Qed.

Lemma basename_app_plain p e : plain e → OsPath.basename (p +:+ e) = OsPath.basename p +:+ e.
Proof.
  intros He. unfold OsPath.basename. rewrite rsplit_char_app_tail by done.
  by destruct (PyStr.rsplit_char OsPath.sep p) as [[h r]|].
Qed.

Lemma basename_join a f : OsPath.basename (OsPath.join a [f]) = OsPath.basename f.
Proof.
  destruct (PyStr.rsplit_char "/" f) as [[h r]|] eqn:Hs.
  - pose proof (rsplit_char_tail_plain _ _ _ Hs) as Hr.
    apply rsplit_char_app in Hs as Hf.
    cbn [OsPath.join fold_left]. unfold OsPath.join2.
    destruct (PyStr.startswith f "/"); [done|].
    unfold OsPath.basename, OsPath.sep.
    destruct (negb _ || _); rewrite Hf, <- ?str_app_assoc, !rsplit_char_app_sep; done.
  - apply rsplit_char_None_plain in Hs as Hp. rewrite basename_join_plain by done.
    unfold OsPath.basename, OsPath.sep. by rewrite Hs.
Qed.

Lemma zero_pad_tail k s : ∃ z, PyStr.zero_pad k s = z +:+ s.
Proof.
  revert s. induction k as [|k IH]; intros s; [by exists ""|].
  destruct (IH ("0" +:+ s)) as [z Hz]. exists (z +:+ "0"). cbn [PyStr.zero_pad].
  by rewrite Hz, str_app_assoc.
Qed.

Lemma str_date_last d : ∃ c, is_digit c ∧ last (chars (str_date d)) = Some c.
Proof.
  unfold str_date, PyStr.fmt_0d.
  destruct (zero_pad_tail (2 - String.length (PyStr.str_nat (day d))) (PyStr.str_nat (day d)))
    as [z ->].
  pose proof (str_nat_nonempty (day d)) as Hne. pose proof (str_nat_digits (day d)) as Hd.
  destruct (last (chars (PyStr.str_nat (day d)))) as [c|] eqn:Hl.
  - exists c. split.
    + rewrite Forall_forall in Hd. by apply Hd, last_Some_elem_of.
    + by rewrite !chars_app, !last_app, Hl.
  - apply last_None in Hl. by destruct (PyStr.str_nat (day d)).
Qed.

Lemma last_lower s : last (chars (PyStr.lower s)) = PyStr.lower_char <$> last (chars s).
Proof.
  induction s as [|a s IH]; [done|]. cbn [PyStr.lower list_ascii_of_string].
  rewrite !last_cons, IH. by destruct (last (chars s)).
Qed.

(** A path that ends in a date does not end in [.zip]. *)
Lemma dated_is_no_zip x d : PyStr.endswith (PyStr.lower (x +:+ str_date d)) ".zip" = false.
Proof.
  apply not_true_iff_false. intros [p Hp]%endswith_spec.
  destruct (str_date_last d) as (c & [v Hv] & Hl).
  assert (Hlast : last (chars (PyStr.lower (x +:+ str_date d))) = Some c).
  { rewrite last_lower, chars_app, last_app, Hl. cbn. by rewrite (lower_char_digit c v). }
  rewrite Hp in Hlast. change ".zip" with (".zi" +:+ "p") in Hlast.
  rewrite <- str_app_assoc, chars_app in Hlast. cbn in Hlast. rewrite last_snoc in Hlast.
  injection Hlast as <-. done.
Qed.

(** The stored path of an archive ends in [.zip] unless the staged name is
    the extension alone, which pathlib takes for a name without suffix. *)
Lemma stored_path_keeps_zip E a filename final_dir :
  PyStr.endswith (PyStr.lower filename) ".zip" = true →
  PyStr.endswith (PyStr.lower (final_path_of E (OsPath.join a [filename]) final_dir)) ".zip"
  = negb (String.eqb (PyStr.lower (OsPath.basename filename)) ".zip").
Proof.
  intros [p' Hp]%endswith_spec.
  apply lower_split in Hp as (x & e & -> & _ & He).
  destruct (zip_ext e He) as (r & -> & Hr0 & Hrd & Hplain).
  rewrite final_path_of_eq, basename_join, basename_app_plain by done.
  pose proof (basename_is_plain x) as Hq.
  destruct (OsPath.basename x) as [|b q].
  - rewrite str_app_nil_l, He. cbn [String.eqb negb].
    change (String.eqb ".zip" ".zip") with true. cbn [negb].
    unfold OsPath.stem, OsPath.suffix.
    rewrite path_name_plain; [|done|done|by destruct r].
    unfold OsPath.split_ext. cbn [PyStr.rsplit_char].
    rewrite rsplit_char_notin by done. cbn [Ascii.eqb fst snd].
    change (Ascii.eqb "." ".") with true. cbn [fst snd].
    rewrite str_app_nil_r, <- !str_app_assoc. apply dated_is_no_zip.
  - assert (Hname : plain (String b q +:+ String "." r)) by by apply plain_app.
    unfold OsPath.stem, OsPath.suffix.
    rewrite path_name_plain; [|done|done|by destruct q].
    change (String b q +:+ String "." r) with (String b q +:+ "." +:+ r).
    rewrite split_ext_dotted by done. cbn [fst snd].
    replace (negb _) with true; cycle 1.
    { symmetry. apply negb_true_iff, String.eqb_neq. rewrite lower_app.
      change (PyStr.lower ("." +:+ r)) with (PyStr.lower (String "." r)). rewrite He.
      intros H%(f_equal String.length). rewrite str_length_app in H. cbn in H. lia. }
    apply endswith_spec.
    exists (PyStr.lower (dir_prefix final_dir +:+ String b q +:+ "_" +:+ str_date (today E))).
    rewrite <- He. change (String "." r) with ("." +:+ r).
    rewrite <- lower_app, !str_app_assoc. done.
Qed.

(** C9, as the code has it. Whatever the kind of an artifact, its file name
    alone decides the routing: a name that ends in _structure.dat goes to the
    reference directory and the derivative_reference prefix, any other name to
    the download directory and the raw prefix. Once the artifact is fetched
    whole and stored as a new version, it is uploaded once under its prefix.
    A name that ends in .zip, in whatever case and of whichever of the four
    kinds, gets table WEBPXTICK_DT; the stored archive is then extracted and
    distributed into that table when the stored path ends in .zip as well,
    which it does unless the last component of the name is the extension
    alone: [.zip] has no suffix for pathlib, is stored as [.zip_<today>], and
    stays as the one stored file, as does every name that does not end in
    .zip. *)
Theorem artifact_routed_by_name (E : Env) (selected : Item) (key : string) (day : date)
    (kind : string * string) (filename : string) (resp : response) (w : world) :
  let staged := OsPath.join (DOWNLOAD_DIR E) [filename] in
  let wd := set_fs (<[staged := content resp]> (fs w)) w in
  let stored := final_path_of E staged (final_dir_for E filename) in
  let raw_key := upload_prefix_for filename +:+ "/" +:+ OsPath.basename stored in
  let w1 :=
    mkworld (<[stored := content resp]> (delete staged (fs wd)))
      (committed_rows (select_latest (OsPath.basename staged) (db w))
         (OsPath.basename staged) (str_date (today E)) (sha256 E (content resp)) (db w))
      (s3calls w) (logs w) in
  let w2 := (push_to_minio E stored "datalake" (upload_prefix_for filename) w1).2 in
  selected !! kind.2 = Some filename →
  truthy_opt (selected !! kind.1) = true → PyStr.truthy filename = true →
  http_get E (build_download_url key filename) = Ok resp →
  status_code resp = 200 → stream_breaks resp = None →
  fault_at E staged = NoFault →
  Fs.is_dir (fs wd) stored = false →
  same_checksum (select_latest (OsPath.basename staged) (db w)) (sha256 E (content resp))
  = false →
  final_dir_for E filename
  = (if PyStr.endswith filename "_structure.dat" then REFERENCE_DIR E else DOWNLOAD_DIR E)
  ∧ upload_prefix_for filename
    = (if PyStr.endswith filename "_structure.dat" then "derivative_reference" else "raw")
  ∧ s3calls w2 = s3calls w ++ [mkupload stored "datalake" raw_key (s3_ok E raw_key)]
  ∧ fs w2 = <[stored := content resp]> (delete staged (fs wd))
  ∧ table_for_zip filename
    = (if PyStr.endswith (PyStr.lower filename) ".zip" then Some "WEBPXTICK_DT" else None)
  ∧ is_container stored (table_for_zip filename)
    = PyStr.endswith (PyStr.lower filename) ".zip"
      && negb (String.eqb (PyStr.lower (OsPath.basename filename)) ".zip")
  ∧ process_artifact E selected key day kind w
    = if is_container stored (table_for_zip filename)
      then match load_container E stored "WEBPXTICK_DT" day w2 with
           | (Ok _, w3) => (Ok [stored], w3)
           | (Raise e, w3) => (Raise e, w3)
           end
      else (Ok [stored], w2).
Proof.
  intros staged wd stored raw_key w1 w2 Hname Hlink Hfn Hget Hst Hbr Hflt Hdir Hnew.
  split; [done|]. split; [done|].
  assert (Hstore : store_if_changed E staged (final_dir_for E filename) wd
                   = (Ok (Some stored), w1)).
  { rewrite (store_if_changed_new E staged (final_dir_for E filename) wd (content resp));
      [reflexivity| apply lookup_insert_eq |exact Hflt|exact Hdir|exact Hnew]. }
  assert (Hw2 : s3calls w2 = s3calls w ++ [mkupload stored "datalake" raw_key (s3_ok E raw_key)]
                ∧ fs w2 = <[stored := content resp]> (delete staged (fs wd))).
  { unfold w2, push_to_minio, s3_upload. cbn [snd]. fold raw_key. unfold Fs.is_file.
    cbn [fs w1]. rewrite lookup_insert_eq, bool_decide_eq_true_2 by (by eexists). cbn [andb].
    by destruct (s3_ok E raw_key). }
  destruct Hw2 as [Hs3 Hfs]. split; [done|]. split; [done|]. split; [done|].
  assert (Hcont : is_container stored (table_for_zip filename)
                  = PyStr.endswith (PyStr.lower filename) ".zip"
                    && negb (String.eqb (PyStr.lower (OsPath.basename filename)) ".zip")).
  { unfold table_for_zip, is_container.
    destruct (PyStr.endswith (PyStr.lower filename) ".zip") eqn:Hz; [|done].
    cbn [PyStr.truthy andb]. by apply stored_path_keeps_zip. }
  split; [exact Hcont|].
  rewrite process_artifact_unfold, Hname, Hlink, Hfn. cbn [andb negb].
  rewrite download_unfold, Hget, Hst, Hbr. cbv zeta.
  change (200 =? 200) with true. cbv iota. fold staged.
  assert (Hsg : PyStr.truthy staged = true) by by apply join_truthy.
  rewrite Hsg. cbn [negb]. fold wd.
  rewrite process_file_unfold, Hstore.
  assert (Hsp : PyStr.truthy stored = true) by apply final_path_truthy.
  fold stored. rewrite Hsp. cbn [negb]. cbv zeta. fold w2.
  assert (Hsl : stored_list (Some stored) = [stored]).
  { unfold stored_list. by rewrite Hsp. }
  destruct (is_container stored (table_for_zip filename)) eqn:Hc.
  - unfold table_for_zip, is_container in Hc |- *.
    destruct (PyStr.endswith (PyStr.lower filename) ".zip"); [|done].
    destruct (load_container E stored "WEBPXTICK_DT" day w2) as [[[]|e] w3];
      [by rewrite Hsl|done].
  - unfold table_for_zip, is_container in Hc |- *.
    destruct (PyStr.endswith (PyStr.lower filename) ".zip"); by rewrite Hsl.
Qed.

(** The secondary data file as an archive is stored in the raw directory and
    loaded; a data file named by the extension alone is stored and uploaded
    once, and not extracted. *)
Lemma artifact_routed_by_name_witness :
  (process_artifact odd_env odd_item "k7" (mkdate 2024 3 7)
     ("TC Data File Link", "TC Data File") empty_world).1
  = Ok ["/data/raw/TC_20240307_2024-03-08.zip"]
  ∧ table_for_zip ".zip" = Some "WEBPXTICK_DT"
  ∧ (process_artifact odd_env bare_item "k7" (mkdate 2024 3 7)
       ("Data File Link", "Data File") empty_world).1
    = Ok ["/data/raw/.zip_2024-03-08"]
  ∧ map up_key
      (s3calls (process_artifact odd_env bare_item "k7" (mkdate 2024 3 7)
                  ("Data File Link", "Data File") empty_world).2)
    = ["raw/.zip_2024-03-08"].
Proof.
  split.
  { destruct (artifact_routed_by_name odd_env odd_item "k7" (mkdate 2024 3 7)
                ("TC Data File Link", "TC Data File") "TC_20240307.zip"
                (mkresponse 200 ("body of " +:+ build_download_url "k7" "TC_20240307.zip") None)
                empty_world) as (_ & _ & _ & _ & _ & _ & Hrun);
      [vm_compute; reflexivity..|].
    rewrite Hrun. vm_compute; reflexivity. }
  destruct (artifact_routed_by_name odd_env bare_item "k7" (mkdate 2024 3 7)
              ("Data File Link", "Data File") ".zip"
              (mkresponse 200 ("body of " +:+ build_download_url "k7" ".zip") None)
              empty_world) as (_ & _ & _ & _ & Htab & _ & Hrun);
    [vm_compute; reflexivity..|].
  split; [exact Htab|]. rewrite Hrun. split; vm_compute; reflexivity.
Defined.
